(** * Career Compass: session flow and skills-gap computation

    A shallow embedding of [src/app.py], the Streamlit script of the Career
    Compass application.  The script is re-executed from top to bottom on
    every user interaction; everything that survives between two executions
    lives in [st.session_state].  The embedding follows that shape:

    - [SessionState] is the session dictionary, one optional field per key
      (a key may be absent: [st.session_state.clear()] removes them all);
    - [Env] is what one execution receives from outside: the widget that
      triggered it, the values of the persistent widgets, and the replies of
      the generative model;
    - [Script] is a small state/writer/exit monad: a script reads and writes
      the session, appends to the rendered view, and may stop early through
      [st.rerun()] or an uncaught exception;
    - [script] is the whole file [app.py], [interact] one user interaction
      (an execution followed by the re-execution it may request).

    Decorative markup (HTML blocks, plotly figures) is not part of the view;
    headers, messages, buttons, inputs and every computed value are. *)

From Stdlib Require Import ZArith QArith Ascii String List Sorting.Sorted.
From stdpp Require Import gmap strings list fin_maps pretty.

Local Open Scope string_scope.
Local Open Scope Z_scope.

(** ** Python strings

    A Python string is a sequence of code points; the strings of this
    development are their UTF-8 encodings.  Where Python works code point
    by code point ([str.lower()], iteration), the string is decoded first
    and the result encoded again. *)

Definition continuation_byte (b : N) : bool := ((128 <=? b) && (b <? 192))%N.

(** The first code point of a UTF-8 string and the number of bytes it
    takes.  A byte that starts no well-formed sequence (the encoding of a
    Python string has none) is kept apart as a number beyond the code
    points. *)
Definition first_code_point (s : string) : N * nat :=
  match s with
  | EmptyString => (0%N, 0%nat)
  | String c1 rest1 =>
      let b1 := N_of_ascii c1 in
      let stray := ((1114112 + b1)%N, 1%nat) in
      if (b1 <? 128)%N then (b1, 1%nat)
      else
        match rest1 with
        | String c2 rest2 =>
            let b2 := N_of_ascii c2 in
            if ((194 <=? b1) && (b1 <? 224))%N then
              if continuation_byte b2
              then (((b1 - 192) * 64 + (b2 - 128))%N, 2%nat)
              else stray
            else
              match rest2 with
              | String c3 rest3 =>
                  let b3 := N_of_ascii c3 in
                  if ((224 <=? b1) && (b1 <? 240))%N then
                    let n := ((b1 - 224) * 4096 + (b2 - 128) * 64 + (b3 - 128))%N in
                    if continuation_byte b2 && continuation_byte b3 &&
                       (2048 <=? n)%N && negb ((55296 <=? n) && (n <? 57344))%N
                    then (n, 3%nat)
                    else stray
                  else
                    match rest3 with
                    | String c4 rest4 =>
                        let b4 := N_of_ascii c4 in
                        let n := ((b1 - 240) * 262144 + (b2 - 128) * 4096
                                  + (b3 - 128) * 64 + (b4 - 128))%N in
                        if ((240 <=? b1) && (b1 <? 245))%N &&
                           continuation_byte b2 && continuation_byte b3 &&
                           continuation_byte b4 &&
                           ((65536 <=? n) && (n <? 1114112))%N
                        then (n, 4%nat)
                        else stray
                    | EmptyString => stray
                    end
              | EmptyString => stray
              end
        | EmptyString => stray
        end
  end.

(** The code points of a UTF-8 string. *)
Fixpoint code_points (s : string) : list N :=
  match s with
  | EmptyString => []
  | String _ rest1 =>
      let '(n, len) := first_code_point s in
      n :: match len, rest1 with
           | 2%nat, String _ rest2 => code_points rest2
           | 3%nat, String _ (String _ rest3) => code_points rest3
           | 4%nat, String _ (String _ (String _ rest4)) => code_points rest4
           | _, _ => code_points rest1
           end
  end.

(** The UTF-8 encoding of one code point. *)
Definition utf8_bytes (n : N) : list N :=
  (if n <? 128 then [n]
   else if n <? 2048 then [192 + n / 64; 128 + n mod 64]
   else if n <? 65536 then [224 + n / 4096; 128 + (n / 64) mod 64; 128 + n mod 64]
   else if n <? 1114112 then
     [240 + n / 262144; 128 + (n / 4096) mod 64; 128 + (n / 64) mod 64; 128 + n mod 64]
   else [n - 1114112])%N.

Definition utf8_encode (l : list N) : string :=
  string_of_list_ascii (ascii_of_N <$> (l ≫= utf8_bytes)).

(** [str.lower()] maps every code point to its lowercase mapping of the
    Unicode character database (version 14.0.0 in CPython 3.11).  The code
    points outside ASCII whose mapping is not the code point itself: *)
Definition lowercase_mappings : list (N * list N) :=
  [
   (192, [224]); (193, [225]); (194, [226]); (195, [227]); (196, [228]);
   (197, [229]); (198, [230]); (199, [231]); (200, [232]); (201, [233]);
   (202, [234]); (203, [235]); (204, [236]); (205, [237]); (206, [238]);
   (207, [239]); (208, [240]); (209, [241]); (210, [242]); (211, [243]);
   (212, [244]); (213, [245]); (214, [246]); (216, [248]); (217, [249]);
   (218, [250]); (219, [251]); (220, [252]); (221, [253]); (222, [254]);
   (256, [257]); (258, [259]); (260, [261]); (262, [263]); (264, [265]);
   (266, [267]); (268, [269]); (270, [271]); (272, [273]); (274, [275]);
   (276, [277]); (278, [279]); (280, [281]); (282, [283]); (284, [285]);
   (286, [287]); (288, [289]); (290, [291]); (292, [293]); (294, [295]);
   (296, [297]); (298, [299]); (300, [301]); (302, [303]); (304, [105; 775]);
   (306, [307]); (308, [309]); (310, [311]); (313, [314]); (315, [316]);
   (317, [318]); (319, [320]); (321, [322]); (323, [324]); (325, [326]);
   (327, [328]); (330, [331]); (332, [333]); (334, [335]); (336, [337]);
   (338, [339]); (340, [341]); (342, [343]); (344, [345]); (346, [347]);
   (348, [349]); (350, [351]); (352, [353]); (354, [355]); (356, [357]);
   (358, [359]); (360, [361]); (362, [363]); (364, [365]); (366, [367]);
   (368, [369]); (370, [371]); (372, [373]); (374, [375]); (376, [255]);
   (377, [378]); (379, [380]); (381, [382]); (385, [595]); (386, [387]);
   (388, [389]); (390, [596]); (391, [392]); (393, [598]); (394, [599]);
   (395, [396]); (398, [477]); (399, [601]); (400, [603]); (401, [402]);
   (403, [608]); (404, [611]); (406, [617]); (407, [616]); (408, [409]);
   (412, [623]); (413, [626]); (415, [629]); (416, [417]); (418, [419]);
   (420, [421]); (422, [640]); (423, [424]); (425, [643]); (428, [429]);
   (430, [648]); (431, [432]); (433, [650]); (434, [651]); (435, [436]);
   (437, [438]); (439, [658]); (440, [441]); (444, [445]); (452, [454]);
   (453, [454]); (455, [457]); (456, [457]); (458, [460]); (459, [460]);
   (461, [462]); (463, [464]); (465, [466]); (467, [468]); (469, [470]);
   (471, [472]); (473, [474]); (475, [476]); (478, [479]); (480, [481]);
   (482, [483]); (484, [485]); (486, [487]); (488, [489]); (490, [491]);
   (492, [493]); (494, [495]); (497, [499]); (498, [499]); (500, [501]);
   (502, [405]); (503, [447]); (504, [505]); (506, [507]); (508, [509]);
   (510, [511]); (512, [513]); (514, [515]); (516, [517]); (518, [519]);
   (520, [521]); (522, [523]); (524, [525]); (526, [527]); (528, [529]);
   (530, [531]); (532, [533]); (534, [535]); (536, [537]); (538, [539]);
   (540, [541]); (542, [543]); (544, [414]); (546, [547]); (548, [549]);
   (550, [551]); (552, [553]); (554, [555]); (556, [557]); (558, [559]);
   (560, [561]); (562, [563]); (570, [11365]); (571, [572]); (573, [410]);
   (574, [11366]); (577, [578]); (579, [384]); (580, [649]); (581, [652]);
   (582, [583]); (584, [585]); (586, [587]); (588, [589]); (590, [591]);
   (880, [881]); (882, [883]); (886, [887]); (895, [1011]); (902, [940]);
   (904, [941]); (905, [942]); (906, [943]); (908, [972]); (910, [973]);
   (911, [974]); (913, [945]); (914, [946]); (915, [947]); (916, [948]);
   (917, [949]); (918, [950]); (919, [951]); (920, [952]); (921, [953]);
   (922, [954]); (923, [955]); (924, [956]); (925, [957]); (926, [958]);
   (927, [959]); (928, [960]); (929, [961]); (932, [964]); (933, [965]);
   (934, [966]); (935, [967]); (936, [968]); (937, [969]); (938, [970]);
   (939, [971]); (975, [983]); (984, [985]); (986, [987]); (988, [989]);
   (990, [991]); (992, [993]); (994, [995]); (996, [997]); (998, [999]);
   (1000, [1001]); (1002, [1003]); (1004, [1005]); (1006, [1007]);
   (1012, [952]); (1015, [1016]); (1017, [1010]); (1018, [1019]);
   (1021, [891]); (1022, [892]); (1023, [893]); (1024, [1104]);
   (1025, [1105]); (1026, [1106]); (1027, [1107]); (1028, [1108]);
   (1029, [1109]); (1030, [1110]); (1031, [1111]); (1032, [1112]);
   (1033, [1113]); (1034, [1114]); (1035, [1115]); (1036, [1116]);
   (1037, [1117]); (1038, [1118]); (1039, [1119]); (1040, [1072]);
   (1041, [1073]); (1042, [1074]); (1043, [1075]); (1044, [1076]);
   (1045, [1077]); (1046, [1078]); (1047, [1079]); (1048, [1080]);
   (1049, [1081]); (1050, [1082]); (1051, [1083]); (1052, [1084]);
   (1053, [1085]); (1054, [1086]); (1055, [1087]); (1056, [1088]);
   (1057, [1089]); (1058, [1090]); (1059, [1091]); (1060, [1092]);
   (1061, [1093]); (1062, [1094]); (1063, [1095]); (1064, [1096]);
   (1065, [1097]); (1066, [1098]); (1067, [1099]); (1068, [1100]);
   (1069, [1101]); (1070, [1102]); (1071, [1103]); (1120, [1121]);
   (1122, [1123]); (1124, [1125]); (1126, [1127]); (1128, [1129]);
   (1130, [1131]); (1132, [1133]); (1134, [1135]); (1136, [1137]);
   (1138, [1139]); (1140, [1141]); (1142, [1143]); (1144, [1145]);
   (1146, [1147]); (1148, [1149]); (1150, [1151]); (1152, [1153]);
   (1162, [1163]); (1164, [1165]); (1166, [1167]); (1168, [1169]);
   (1170, [1171]); (1172, [1173]); (1174, [1175]); (1176, [1177]);
   (1178, [1179]); (1180, [1181]); (1182, [1183]); (1184, [1185]);
   (1186, [1187]); (1188, [1189]); (1190, [1191]); (1192, [1193]);
   (1194, [1195]); (1196, [1197]); (1198, [1199]); (1200, [1201]);
   (1202, [1203]); (1204, [1205]); (1206, [1207]); (1208, [1209]);
   (1210, [1211]); (1212, [1213]); (1214, [1215]); (1216, [1231]);
   (1217, [1218]); (1219, [1220]); (1221, [1222]); (1223, [1224]);
   (1225, [1226]); (1227, [1228]); (1229, [1230]); (1232, [1233]);
   (1234, [1235]); (1236, [1237]); (1238, [1239]); (1240, [1241]);
   (1242, [1243]); (1244, [1245]); (1246, [1247]); (1248, [1249]);
   (1250, [1251]); (1252, [1253]); (1254, [1255]); (1256, [1257]);
   (1258, [1259]); (1260, [1261]); (1262, [1263]); (1264, [1265]);
   (1266, [1267]); (1268, [1269]); (1270, [1271]); (1272, [1273]);
   (1274, [1275]); (1276, [1277]); (1278, [1279]); (1280, [1281]);
   (1282, [1283]); (1284, [1285]); (1286, [1287]); (1288, [1289]);
   (1290, [1291]); (1292, [1293]); (1294, [1295]); (1296, [1297]);
   (1298, [1299]); (1300, [1301]); (1302, [1303]); (1304, [1305]);
   (1306, [1307]); (1308, [1309]); (1310, [1311]); (1312, [1313]);
   (1314, [1315]); (1316, [1317]); (1318, [1319]); (1320, [1321]);
   (1322, [1323]); (1324, [1325]); (1326, [1327]); (1329, [1377]);
   (1330, [1378]); (1331, [1379]); (1332, [1380]); (1333, [1381]);
   (1334, [1382]); (1335, [1383]); (1336, [1384]); (1337, [1385]);
   (1338, [1386]); (1339, [1387]); (1340, [1388]); (1341, [1389]);
   (1342, [1390]); (1343, [1391]); (1344, [1392]); (1345, [1393]);
   (1346, [1394]); (1347, [1395]); (1348, [1396]); (1349, [1397]);
   (1350, [1398]); (1351, [1399]); (1352, [1400]); (1353, [1401]);
   (1354, [1402]); (1355, [1403]); (1356, [1404]); (1357, [1405]);
   (1358, [1406]); (1359, [1407]); (1360, [1408]); (1361, [1409]);
   (1362, [1410]); (1363, [1411]); (1364, [1412]); (1365, [1413]);
   (1366, [1414]); (4256, [11520]); (4257, [11521]); (4258, [11522]);
   (4259, [11523]); (4260, [11524]); (4261, [11525]); (4262, [11526]);
   (4263, [11527]); (4264, [11528]); (4265, [11529]); (4266, [11530]);
   (4267, [11531]); (4268, [11532]); (4269, [11533]); (4270, [11534]);
   (4271, [11535]); (4272, [11536]); (4273, [11537]); (4274, [11538]);
   (4275, [11539]); (4276, [11540]); (4277, [11541]); (4278, [11542]);
   (4279, [11543]); (4280, [11544]); (4281, [11545]); (4282, [11546]);
   (4283, [11547]); (4284, [11548]); (4285, [11549]); (4286, [11550]);
   (4287, [11551]); (4288, [11552]); (4289, [11553]); (4290, [11554]);
   (4291, [11555]); (4292, [11556]); (4293, [11557]); (4295, [11559]);
   (4301, [11565]); (5024, [43888]); (5025, [43889]); (5026, [43890]);
   (5027, [43891]); (5028, [43892]); (5029, [43893]); (5030, [43894]);
   (5031, [43895]); (5032, [43896]); (5033, [43897]); (5034, [43898]);
   (5035, [43899]); (5036, [43900]); (5037, [43901]); (5038, [43902]);
   (5039, [43903]); (5040, [43904]); (5041, [43905]); (5042, [43906]);
   (5043, [43907]); (5044, [43908]); (5045, [43909]); (5046, [43910]);
   (5047, [43911]); (5048, [43912]); (5049, [43913]); (5050, [43914]);
   (5051, [43915]); (5052, [43916]); (5053, [43917]); (5054, [43918]);
   (5055, [43919]); (5056, [43920]); (5057, [43921]); (5058, [43922]);
   (5059, [43923]); (5060, [43924]); (5061, [43925]); (5062, [43926]);
   (5063, [43927]); (5064, [43928]); (5065, [43929]); (5066, [43930]);
   (5067, [43931]); (5068, [43932]); (5069, [43933]); (5070, [43934]);
   (5071, [43935]); (5072, [43936]); (5073, [43937]); (5074, [43938]);
   (5075, [43939]); (5076, [43940]); (5077, [43941]); (5078, [43942]);
   (5079, [43943]); (5080, [43944]); (5081, [43945]); (5082, [43946]);
   (5083, [43947]); (5084, [43948]); (5085, [43949]); (5086, [43950]);
   (5087, [43951]); (5088, [43952]); (5089, [43953]); (5090, [43954]);
   (5091, [43955]); (5092, [43956]); (5093, [43957]); (5094, [43958]);
   (5095, [43959]); (5096, [43960]); (5097, [43961]); (5098, [43962]);
   (5099, [43963]); (5100, [43964]); (5101, [43965]); (5102, [43966]);
   (5103, [43967]); (5104, [5112]); (5105, [5113]); (5106, [5114]);
   (5107, [5115]); (5108, [5116]); (5109, [5117]); (7312, [4304]);
   (7313, [4305]); (7314, [4306]); (7315, [4307]); (7316, [4308]);
   (7317, [4309]); (7318, [4310]); (7319, [4311]); (7320, [4312]);
   (7321, [4313]); (7322, [4314]); (7323, [4315]); (7324, [4316]);
   (7325, [4317]); (7326, [4318]); (7327, [4319]); (7328, [4320]);
   (7329, [4321]); (7330, [4322]); (7331, [4323]); (7332, [4324]);
   (7333, [4325]); (7334, [4326]); (7335, [4327]); (7336, [4328]);
   (7337, [4329]); (7338, [4330]); (7339, [4331]); (7340, [4332]);
   (7341, [4333]); (7342, [4334]); (7343, [4335]); (7344, [4336]);
   (7345, [4337]); (7346, [4338]); (7347, [4339]); (7348, [4340]);
   (7349, [4341]); (7350, [4342]); (7351, [4343]); (7352, [4344]);
   (7353, [4345]); (7354, [4346]); (7357, [4349]); (7358, [4350]);
   (7359, [4351]); (7680, [7681]); (7682, [7683]); (7684, [7685]);
   (7686, [7687]); (7688, [7689]); (7690, [7691]); (7692, [7693]);
   (7694, [7695]); (7696, [7697]); (7698, [7699]); (7700, [7701]);
   (7702, [7703]); (7704, [7705]); (7706, [7707]); (7708, [7709]);
   (7710, [7711]); (7712, [7713]); (7714, [7715]); (7716, [7717]);
   (7718, [7719]); (7720, [7721]); (7722, [7723]); (7724, [7725]);
   (7726, [7727]); (7728, [7729]); (7730, [7731]); (7732, [7733]);
   (7734, [7735]); (7736, [7737]); (7738, [7739]); (7740, [7741]);
   (7742, [7743]); (7744, [7745]); (7746, [7747]); (7748, [7749]);
   (7750, [7751]); (7752, [7753]); (7754, [7755]); (7756, [7757]);
   (7758, [7759]); (7760, [7761]); (7762, [7763]); (7764, [7765]);
   (7766, [7767]); (7768, [7769]); (7770, [7771]); (7772, [7773]);
   (7774, [7775]); (7776, [7777]); (7778, [7779]); (7780, [7781]);
   (7782, [7783]); (7784, [7785]); (7786, [7787]); (7788, [7789]);
   (7790, [7791]); (7792, [7793]); (7794, [7795]); (7796, [7797]);
   (7798, [7799]); (7800, [7801]); (7802, [7803]); (7804, [7805]);
   (7806, [7807]); (7808, [7809]); (7810, [7811]); (7812, [7813]);
   (7814, [7815]); (7816, [7817]); (7818, [7819]); (7820, [7821]);
   (7822, [7823]); (7824, [7825]); (7826, [7827]); (7828, [7829]);
   (7838, [223]); (7840, [7841]); (7842, [7843]); (7844, [7845]);
   (7846, [7847]); (7848, [7849]); (7850, [7851]); (7852, [7853]);
   (7854, [7855]); (7856, [7857]); (7858, [7859]); (7860, [7861]);
   (7862, [7863]); (7864, [7865]); (7866, [7867]); (7868, [7869]);
   (7870, [7871]); (7872, [7873]); (7874, [7875]); (7876, [7877]);
   (7878, [7879]); (7880, [7881]); (7882, [7883]); (7884, [7885]);
   (7886, [7887]); (7888, [7889]); (7890, [7891]); (7892, [7893]);
   (7894, [7895]); (7896, [7897]); (7898, [7899]); (7900, [7901]);
   (7902, [7903]); (7904, [7905]); (7906, [7907]); (7908, [7909]);
   (7910, [7911]); (7912, [7913]); (7914, [7915]); (7916, [7917]);
   (7918, [7919]); (7920, [7921]); (7922, [7923]); (7924, [7925]);
   (7926, [7927]); (7928, [7929]); (7930, [7931]); (7932, [7933]);
   (7934, [7935]); (7944, [7936]); (7945, [7937]); (7946, [7938]);
   (7947, [7939]); (7948, [7940]); (7949, [7941]); (7950, [7942]);
   (7951, [7943]); (7960, [7952]); (7961, [7953]); (7962, [7954]);
   (7963, [7955]); (7964, [7956]); (7965, [7957]); (7976, [7968]);
   (7977, [7969]); (7978, [7970]); (7979, [7971]); (7980, [7972]);
   (7981, [7973]); (7982, [7974]); (7983, [7975]); (7992, [7984]);
   (7993, [7985]); (7994, [7986]); (7995, [7987]); (7996, [7988]);
   (7997, [7989]); (7998, [7990]); (7999, [7991]); (8008, [8000]);
   (8009, [8001]); (8010, [8002]); (8011, [8003]); (8012, [8004]);
   (8013, [8005]); (8025, [8017]); (8027, [8019]); (8029, [8021]);
   (8031, [8023]); (8040, [8032]); (8041, [8033]); (8042, [8034]);
   (8043, [8035]); (8044, [8036]); (8045, [8037]); (8046, [8038]);
   (8047, [8039]); (8072, [8064]); (8073, [8065]); (8074, [8066]);
   (8075, [8067]); (8076, [8068]); (8077, [8069]); (8078, [8070]);
   (8079, [8071]); (8088, [8080]); (8089, [8081]); (8090, [8082]);
   (8091, [8083]); (8092, [8084]); (8093, [8085]); (8094, [8086]);
   (8095, [8087]); (8104, [8096]); (8105, [8097]); (8106, [8098]);
   (8107, [8099]); (8108, [8100]); (8109, [8101]); (8110, [8102]);
   (8111, [8103]); (8120, [8112]); (8121, [8113]); (8122, [8048]);
   (8123, [8049]); (8124, [8115]); (8136, [8050]); (8137, [8051]);
   (8138, [8052]); (8139, [8053]); (8140, [8131]); (8152, [8144]);
   (8153, [8145]); (8154, [8054]); (8155, [8055]); (8168, [8160]);
   (8169, [8161]); (8170, [8058]); (8171, [8059]); (8172, [8165]);
   (8184, [8056]); (8185, [8057]); (8186, [8060]); (8187, [8061]);
   (8188, [8179]); (8486, [969]); (8490, [107]); (8491, [229]);
   (8498, [8526]); (8544, [8560]); (8545, [8561]); (8546, [8562]);
   (8547, [8563]); (8548, [8564]); (8549, [8565]); (8550, [8566]);
   (8551, [8567]); (8552, [8568]); (8553, [8569]); (8554, [8570]);
   (8555, [8571]); (8556, [8572]); (8557, [8573]); (8558, [8574]);
   (8559, [8575]); (8579, [8580]); (9398, [9424]); (9399, [9425]);
   (9400, [9426]); (9401, [9427]); (9402, [9428]); (9403, [9429]);
   (9404, [9430]); (9405, [9431]); (9406, [9432]); (9407, [9433]);
   (9408, [9434]); (9409, [9435]); (9410, [9436]); (9411, [9437]);
   (9412, [9438]); (9413, [9439]); (9414, [9440]); (9415, [9441]);
   (9416, [9442]); (9417, [9443]); (9418, [9444]); (9419, [9445]);
   (9420, [9446]); (9421, [9447]); (9422, [9448]); (9423, [9449]);
   (11264, [11312]); (11265, [11313]); (11266, [11314]); (11267, [11315]);
   (11268, [11316]); (11269, [11317]); (11270, [11318]); (11271, [11319]);
   (11272, [11320]); (11273, [11321]); (11274, [11322]); (11275, [11323]);
   (11276, [11324]); (11277, [11325]); (11278, [11326]); (11279, [11327]);
   (11280, [11328]); (11281, [11329]); (11282, [11330]); (11283, [11331]);
   (11284, [11332]); (11285, [11333]); (11286, [11334]); (11287, [11335]);
   (11288, [11336]); (11289, [11337]); (11290, [11338]); (11291, [11339]);
   (11292, [11340]); (11293, [11341]); (11294, [11342]); (11295, [11343]);
   (11296, [11344]); (11297, [11345]); (11298, [11346]); (11299, [11347]);
   (11300, [11348]); (11301, [11349]); (11302, [11350]); (11303, [11351]);
   (11304, [11352]); (11305, [11353]); (11306, [11354]); (11307, [11355]);
   (11308, [11356]); (11309, [11357]); (11310, [11358]); (11311, [11359]);
   (11360, [11361]); (11362, [619]); (11363, [7549]); (11364, [637]);
   (11367, [11368]); (11369, [11370]); (11371, [11372]); (11373, [593]);
   (11374, [625]); (11375, [592]); (11376, [594]); (11378, [11379]);
   (11381, [11382]); (11390, [575]); (11391, [576]); (11392, [11393]);
   (11394, [11395]); (11396, [11397]); (11398, [11399]); (11400, [11401]);
   (11402, [11403]); (11404, [11405]); (11406, [11407]); (11408, [11409]);
   (11410, [11411]); (11412, [11413]); (11414, [11415]); (11416, [11417]);
   (11418, [11419]); (11420, [11421]); (11422, [11423]); (11424, [11425]);
   (11426, [11427]); (11428, [11429]); (11430, [11431]); (11432, [11433]);
   (11434, [11435]); (11436, [11437]); (11438, [11439]); (11440, [11441]);
   (11442, [11443]); (11444, [11445]); (11446, [11447]); (11448, [11449]);
   (11450, [11451]); (11452, [11453]); (11454, [11455]); (11456, [11457]);
   (11458, [11459]); (11460, [11461]); (11462, [11463]); (11464, [11465]);
   (11466, [11467]); (11468, [11469]); (11470, [11471]); (11472, [11473]);
   (11474, [11475]); (11476, [11477]); (11478, [11479]); (11480, [11481]);
   (11482, [11483]); (11484, [11485]); (11486, [11487]); (11488, [11489]);
   (11490, [11491]); (11499, [11500]); (11501, [11502]); (11506, [11507]);
   (42560, [42561]); (42562, [42563]); (42564, [42565]); (42566, [42567]);
   (42568, [42569]); (42570, [42571]); (42572, [42573]); (42574, [42575]);
   (42576, [42577]); (42578, [42579]); (42580, [42581]); (42582, [42583]);
   (42584, [42585]); (42586, [42587]); (42588, [42589]); (42590, [42591]);
   (42592, [42593]); (42594, [42595]); (42596, [42597]); (42598, [42599]);
   (42600, [42601]); (42602, [42603]); (42604, [42605]); (42624, [42625]);
   (42626, [42627]); (42628, [42629]); (42630, [42631]); (42632, [42633]);
   (42634, [42635]); (42636, [42637]); (42638, [42639]); (42640, [42641]);
   (42642, [42643]); (42644, [42645]); (42646, [42647]); (42648, [42649]);
   (42650, [42651]); (42786, [42787]); (42788, [42789]); (42790, [42791]);
   (42792, [42793]); (42794, [42795]); (42796, [42797]); (42798, [42799]);
   (42802, [42803]); (42804, [42805]); (42806, [42807]); (42808, [42809]);
   (42810, [42811]); (42812, [42813]); (42814, [42815]); (42816, [42817]);
   (42818, [42819]); (42820, [42821]); (42822, [42823]); (42824, [42825]);
   (42826, [42827]); (42828, [42829]); (42830, [42831]); (42832, [42833]);
   (42834, [42835]); (42836, [42837]); (42838, [42839]); (42840, [42841]);
   (42842, [42843]); (42844, [42845]); (42846, [42847]); (42848, [42849]);
   (42850, [42851]); (42852, [42853]); (42854, [42855]); (42856, [42857]);
   (42858, [42859]); (42860, [42861]); (42862, [42863]); (42873, [42874]);
   (42875, [42876]); (42877, [7545]); (42878, [42879]); (42880, [42881]);
   (42882, [42883]); (42884, [42885]); (42886, [42887]); (42891, [42892]);
   (42893, [613]); (42896, [42897]); (42898, [42899]); (42902, [42903]);
   (42904, [42905]); (42906, [42907]); (42908, [42909]); (42910, [42911]);
   (42912, [42913]); (42914, [42915]); (42916, [42917]); (42918, [42919]);
   (42920, [42921]); (42922, [614]); (42923, [604]); (42924, [609]);
   (42925, [620]); (42926, [618]); (42928, [670]); (42929, [647]);
   (42930, [669]); (42931, [43859]); (42932, [42933]); (42934, [42935]);
   (42936, [42937]); (42938, [42939]); (42940, [42941]); (42942, [42943]);
   (42944, [42945]); (42946, [42947]); (42948, [42900]); (42949, [642]);
   (42950, [7566]); (42951, [42952]); (42953, [42954]); (42960, [42961]);
   (42966, [42967]); (42968, [42969]); (42997, [42998]); (65313, [65345]);
   (65314, [65346]); (65315, [65347]); (65316, [65348]); (65317, [65349]);
   (65318, [65350]); (65319, [65351]); (65320, [65352]); (65321, [65353]);
   (65322, [65354]); (65323, [65355]); (65324, [65356]); (65325, [65357]);
   (65326, [65358]); (65327, [65359]); (65328, [65360]); (65329, [65361]);
   (65330, [65362]); (65331, [65363]); (65332, [65364]); (65333, [65365]);
   (65334, [65366]); (65335, [65367]); (65336, [65368]); (65337, [65369]);
   (65338, [65370]); (66560, [66600]); (66561, [66601]); (66562, [66602]);
   (66563, [66603]); (66564, [66604]); (66565, [66605]); (66566, [66606]);
   (66567, [66607]); (66568, [66608]); (66569, [66609]); (66570, [66610]);
   (66571, [66611]); (66572, [66612]); (66573, [66613]); (66574, [66614]);
   (66575, [66615]); (66576, [66616]); (66577, [66617]); (66578, [66618]);
   (66579, [66619]); (66580, [66620]); (66581, [66621]); (66582, [66622]);
   (66583, [66623]); (66584, [66624]); (66585, [66625]); (66586, [66626]);
   (66587, [66627]); (66588, [66628]); (66589, [66629]); (66590, [66630]);
   (66591, [66631]); (66592, [66632]); (66593, [66633]); (66594, [66634]);
   (66595, [66635]); (66596, [66636]); (66597, [66637]); (66598, [66638]);
   (66599, [66639]); (66736, [66776]); (66737, [66777]); (66738, [66778]);
   (66739, [66779]); (66740, [66780]); (66741, [66781]); (66742, [66782]);
   (66743, [66783]); (66744, [66784]); (66745, [66785]); (66746, [66786]);
   (66747, [66787]); (66748, [66788]); (66749, [66789]); (66750, [66790]);
   (66751, [66791]); (66752, [66792]); (66753, [66793]); (66754, [66794]);
   (66755, [66795]); (66756, [66796]); (66757, [66797]); (66758, [66798]);
   (66759, [66799]); (66760, [66800]); (66761, [66801]); (66762, [66802]);
   (66763, [66803]); (66764, [66804]); (66765, [66805]); (66766, [66806]);
   (66767, [66807]); (66768, [66808]); (66769, [66809]); (66770, [66810]);
   (66771, [66811]); (66928, [66967]); (66929, [66968]); (66930, [66969]);
   (66931, [66970]); (66932, [66971]); (66933, [66972]); (66934, [66973]);
   (66935, [66974]); (66936, [66975]); (66937, [66976]); (66938, [66977]);
   (66940, [66979]); (66941, [66980]); (66942, [66981]); (66943, [66982]);
   (66944, [66983]); (66945, [66984]); (66946, [66985]); (66947, [66986]);
   (66948, [66987]); (66949, [66988]); (66950, [66989]); (66951, [66990]);
   (66952, [66991]); (66953, [66992]); (66954, [66993]); (66956, [66995]);
   (66957, [66996]); (66958, [66997]); (66959, [66998]); (66960, [66999]);
   (66961, [67000]); (66962, [67001]); (66964, [67003]); (66965, [67004]);
   (68736, [68800]); (68737, [68801]); (68738, [68802]); (68739, [68803]);
   (68740, [68804]); (68741, [68805]); (68742, [68806]); (68743, [68807]);
   (68744, [68808]); (68745, [68809]); (68746, [68810]); (68747, [68811]);
   (68748, [68812]); (68749, [68813]); (68750, [68814]); (68751, [68815]);
   (68752, [68816]); (68753, [68817]); (68754, [68818]); (68755, [68819]);
   (68756, [68820]); (68757, [68821]); (68758, [68822]); (68759, [68823]);
   (68760, [68824]); (68761, [68825]); (68762, [68826]); (68763, [68827]);
   (68764, [68828]); (68765, [68829]); (68766, [68830]); (68767, [68831]);
   (68768, [68832]); (68769, [68833]); (68770, [68834]); (68771, [68835]);
   (68772, [68836]); (68773, [68837]); (68774, [68838]); (68775, [68839]);
   (68776, [68840]); (68777, [68841]); (68778, [68842]); (68779, [68843]);
   (68780, [68844]); (68781, [68845]); (68782, [68846]); (68783, [68847]);
   (68784, [68848]); (68785, [68849]); (68786, [68850]); (71840, [71872]);
   (71841, [71873]); (71842, [71874]); (71843, [71875]); (71844, [71876]);
   (71845, [71877]); (71846, [71878]); (71847, [71879]); (71848, [71880]);
   (71849, [71881]); (71850, [71882]); (71851, [71883]); (71852, [71884]);
   (71853, [71885]); (71854, [71886]); (71855, [71887]); (71856, [71888]);
   (71857, [71889]); (71858, [71890]); (71859, [71891]); (71860, [71892]);
   (71861, [71893]); (71862, [71894]); (71863, [71895]); (71864, [71896]);
   (71865, [71897]); (71866, [71898]); (71867, [71899]); (71868, [71900]);
   (71869, [71901]); (71870, [71902]); (71871, [71903]); (93760, [93792]);
   (93761, [93793]); (93762, [93794]); (93763, [93795]); (93764, [93796]);
   (93765, [93797]); (93766, [93798]); (93767, [93799]); (93768, [93800]);
   (93769, [93801]); (93770, [93802]); (93771, [93803]); (93772, [93804]);
   (93773, [93805]); (93774, [93806]); (93775, [93807]); (93776, [93808]);
   (93777, [93809]); (93778, [93810]); (93779, [93811]); (93780, [93812]);
   (93781, [93813]); (93782, [93814]); (93783, [93815]); (93784, [93816]);
   (93785, [93817]); (93786, [93818]); (93787, [93819]); (93788, [93820]);
   (93789, [93821]); (93790, [93822]); (93791, [93823]); (125184, [125218]);
   (125185, [125219]); (125186, [125220]); (125187, [125221]);
   (125188, [125222]); (125189, [125223]); (125190, [125224]);
   (125191, [125225]); (125192, [125226]); (125193, [125227]);
   (125194, [125228]); (125195, [125229]); (125196, [125230]);
   (125197, [125231]); (125198, [125232]); (125199, [125233]);
   (125200, [125234]); (125201, [125235]); (125202, [125236]);
   (125203, [125237]); (125204, [125238]); (125205, [125239]);
   (125206, [125240]); (125207, [125241]); (125208, [125242]);
   (125209, [125243]); (125210, [125244]); (125211, [125245]);
   (125212, [125246]); (125213, [125247]); (125214, [125248]);
   (125215, [125249]); (125216, [125250]); (125217, [125251])
  ]%N.

(** The case-ignorable code points, as closed ranges. *)
Definition case_ignorable_ranges : list (N * N) :=
  [
   (39, 39); (46, 46); (58, 58); (94, 94); (96, 96); (168, 168); (173, 173);
   (175, 175); (180, 180); (183, 184); (688, 879); (884, 885); (890, 890);
   (900, 901); (903, 903); (1155, 1161); (1369, 1369); (1375, 1375);
   (1425, 1469); (1471, 1471); (1473, 1474); (1476, 1477); (1479, 1479);
   (1524, 1524); (1536, 1541); (1552, 1562); (1564, 1564); (1600, 1600);
   (1611, 1631); (1648, 1648); (1750, 1757); (1759, 1768); (1770, 1773);
   (1807, 1807); (1809, 1809); (1840, 1866); (1958, 1968); (2027, 2037);
   (2042, 2042); (2045, 2045); (2070, 2093); (2137, 2139); (2184, 2184);
   (2192, 2193); (2200, 2207); (2249, 2306); (2362, 2362); (2364, 2364);
   (2369, 2376); (2381, 2381); (2385, 2391); (2402, 2403); (2417, 2417);
   (2433, 2433); (2492, 2492); (2497, 2500); (2509, 2509); (2530, 2531);
   (2558, 2558); (2561, 2562); (2620, 2620); (2625, 2626); (2631, 2632);
   (2635, 2637); (2641, 2641); (2672, 2673); (2677, 2677); (2689, 2690);
   (2748, 2748); (2753, 2757); (2759, 2760); (2765, 2765); (2786, 2787);
   (2810, 2815); (2817, 2817); (2876, 2876); (2879, 2879); (2881, 2884);
   (2893, 2893); (2901, 2902); (2914, 2915); (2946, 2946); (3008, 3008);
   (3021, 3021); (3072, 3072); (3076, 3076); (3132, 3132); (3134, 3136);
   (3142, 3144); (3146, 3149); (3157, 3158); (3170, 3171); (3201, 3201);
   (3260, 3260); (3263, 3263); (3270, 3270); (3276, 3277); (3298, 3299);
   (3328, 3329); (3387, 3388); (3393, 3396); (3405, 3405); (3426, 3427);
   (3457, 3457); (3530, 3530); (3538, 3540); (3542, 3542); (3633, 3633);
   (3636, 3642); (3654, 3662); (3761, 3761); (3764, 3772); (3782, 3782);
   (3784, 3789); (3864, 3865); (3893, 3893); (3895, 3895); (3897, 3897);
   (3953, 3966); (3968, 3972); (3974, 3975); (3981, 3991); (3993, 4028);
   (4038, 4038); (4141, 4144); (4146, 4151); (4153, 4154); (4157, 4158);
   (4184, 4185); (4190, 4192); (4209, 4212); (4226, 4226); (4229, 4230);
   (4237, 4237); (4253, 4253); (4348, 4348); (4957, 4959); (5906, 5908);
   (5938, 5939); (5970, 5971); (6002, 6003); (6068, 6069); (6071, 6077);
   (6086, 6086); (6089, 6099); (6103, 6103); (6109, 6109); (6155, 6159);
   (6211, 6211); (6277, 6278); (6313, 6313); (6432, 6434); (6439, 6440);
   (6450, 6450); (6457, 6459); (6679, 6680); (6683, 6683); (6742, 6742);
   (6744, 6750); (6752, 6752); (6754, 6754); (6757, 6764); (6771, 6780);
   (6783, 6783); (6823, 6823); (6832, 6862); (6912, 6915); (6964, 6964);
   (6966, 6970); (6972, 6972); (6978, 6978); (7019, 7027); (7040, 7041);
   (7074, 7077); (7080, 7081); (7083, 7085); (7142, 7142); (7144, 7145);
   (7149, 7149); (7151, 7153); (7212, 7219); (7222, 7223); (7288, 7293);
   (7376, 7378); (7380, 7392); (7394, 7400); (7405, 7405); (7412, 7412);
   (7416, 7417); (7468, 7530); (7544, 7544); (7579, 7679); (8125, 8125);
   (8127, 8129); (8141, 8143); (8157, 8159); (8173, 8175); (8189, 8190);
   (8203, 8207); (8216, 8217); (8228, 8228); (8231, 8231); (8234, 8238);
   (8288, 8292); (8294, 8303); (8305, 8305); (8319, 8319); (8336, 8348);
   (8400, 8432); (11388, 11389); (11503, 11505); (11631, 11631);
   (11647, 11647); (11744, 11775); (11823, 11823); (12293, 12293);
   (12330, 12333); (12337, 12341); (12347, 12347); (12441, 12446);
   (12540, 12542); (40981, 40981); (42232, 42237); (42508, 42508);
   (42607, 42610); (42612, 42621); (42623, 42623); (42652, 42655);
   (42736, 42737); (42752, 42785); (42864, 42864); (42888, 42890);
   (42994, 42996); (43000, 43001); (43010, 43010); (43014, 43014);
   (43019, 43019); (43045, 43046); (43052, 43052); (43204, 43205);
   (43232, 43249); (43263, 43263); (43302, 43309); (43335, 43345);
   (43392, 43394); (43443, 43443); (43446, 43449); (43452, 43453);
   (43471, 43471); (43493, 43494); (43561, 43566); (43569, 43570);
   (43573, 43574); (43587, 43587); (43596, 43596); (43632, 43632);
   (43644, 43644); (43696, 43696); (43698, 43700); (43703, 43704);
   (43710, 43711); (43713, 43713); (43741, 43741); (43756, 43757);
   (43763, 43764); (43766, 43766); (43867, 43871); (43881, 43883);
   (44005, 44005); (44008, 44008); (44013, 44013); (64286, 64286);
   (64434, 64450); (65024, 65039); (65043, 65043); (65056, 65071);
   (65106, 65106); (65109, 65109); (65279, 65279); (65287, 65287);
   (65294, 65294); (65306, 65306); (65342, 65342); (65344, 65344);
   (65392, 65392); (65438, 65439); (65507, 65507); (65529, 65531);
   (66045, 66045); (66272, 66272); (66422, 66426); (67456, 67461);
   (67463, 67504); (67506, 67514); (68097, 68099); (68101, 68102);
   (68108, 68111); (68152, 68154); (68159, 68159); (68325, 68326);
   (68900, 68903); (69291, 69292); (69446, 69456); (69506, 69509);
   (69633, 69633); (69688, 69702); (69744, 69744); (69747, 69748);
   (69759, 69761); (69811, 69814); (69817, 69818); (69821, 69821);
   (69826, 69826); (69837, 69837); (69888, 69890); (69927, 69931);
   (69933, 69940); (70003, 70003); (70016, 70017); (70070, 70078);
   (70089, 70092); (70095, 70095); (70191, 70193); (70196, 70196);
   (70198, 70199); (70206, 70206); (70367, 70367); (70371, 70378);
   (70400, 70401); (70459, 70460); (70464, 70464); (70502, 70508);
   (70512, 70516); (70712, 70719); (70722, 70724); (70726, 70726);
   (70750, 70750); (70835, 70840); (70842, 70842); (70847, 70848);
   (70850, 70851); (71090, 71093); (71100, 71101); (71103, 71104);
   (71132, 71133); (71219, 71226); (71229, 71229); (71231, 71232);
   (71339, 71339); (71341, 71341); (71344, 71349); (71351, 71351);
   (71453, 71455); (71458, 71461); (71463, 71467); (71727, 71735);
   (71737, 71738); (71995, 71996); (71998, 71998); (72003, 72003);
   (72148, 72151); (72154, 72155); (72160, 72160); (72193, 72202);
   (72243, 72248); (72251, 72254); (72263, 72263); (72273, 72278);
   (72281, 72283); (72330, 72342); (72344, 72345); (72752, 72758);
   (72760, 72765); (72767, 72767); (72850, 72871); (72874, 72880);
   (72882, 72883); (72885, 72886); (73009, 73014); (73018, 73018);
   (73020, 73021); (73023, 73029); (73031, 73031); (73104, 73105);
   (73109, 73109); (73111, 73111); (73459, 73460); (78896, 78904);
   (92912, 92916); (92976, 92982); (92992, 92995); (94031, 94031);
   (94095, 94111); (94176, 94177); (94179, 94180); (110576, 110579);
   (110581, 110587); (110589, 110590); (113821, 113822); (113824, 113827);
   (118528, 118573); (118576, 118598); (119143, 119145); (119155, 119170);
   (119173, 119179); (119210, 119213); (119362, 119364); (121344, 121398);
   (121403, 121452); (121461, 121461); (121476, 121476); (121499, 121503);
   (121505, 121519); (122880, 122886); (122888, 122904); (122907, 122913);
   (122915, 122916); (122918, 122922); (123184, 123197); (123566, 123566);
   (123628, 123631); (125136, 125142); (125252, 125259); (127995, 127999);
   (917505, 917505); (917536, 917631); (917760, 917999)
  ]%N.

(** The cased code points that are not case-ignorable, as closed ranges. *)
Definition cased_ranges : list (N * N) :=
  [
   (65, 90); (97, 122); (170, 170); (181, 181); (186, 186); (192, 214);
   (216, 246); (248, 442); (444, 447); (452, 659); (661, 687); (880, 883);
   (886, 887); (891, 893); (895, 895); (902, 902); (904, 906); (908, 908);
   (910, 929); (931, 1013); (1015, 1153); (1162, 1327); (1329, 1366);
   (1376, 1416); (4256, 4293); (4295, 4295); (4301, 4301); (4304, 4346);
   (4349, 4351); (5024, 5109); (5112, 5117); (7296, 7304); (7312, 7354);
   (7357, 7359); (7424, 7467); (7531, 7543); (7545, 7578); (7680, 7957);
   (7960, 7965); (7968, 8005); (8008, 8013); (8016, 8023); (8025, 8025);
   (8027, 8027); (8029, 8029); (8031, 8061); (8064, 8116); (8118, 8124);
   (8126, 8126); (8130, 8132); (8134, 8140); (8144, 8147); (8150, 8155);
   (8160, 8172); (8178, 8180); (8182, 8188); (8450, 8450); (8455, 8455);
   (8458, 8467); (8469, 8469); (8473, 8477); (8484, 8484); (8486, 8486);
   (8488, 8488); (8490, 8493); (8495, 8500); (8505, 8505); (8508, 8511);
   (8517, 8521); (8526, 8526); (8544, 8575); (8579, 8580); (9398, 9449);
   (11264, 11387); (11390, 11492); (11499, 11502); (11506, 11507);
   (11520, 11557); (11559, 11559); (11565, 11565); (42560, 42605);
   (42624, 42651); (42786, 42863); (42865, 42887); (42891, 42894);
   (42896, 42954); (42960, 42961); (42963, 42963); (42965, 42969);
   (42997, 42998); (43002, 43002); (43824, 43866); (43872, 43880);
   (43888, 43967); (64256, 64262); (64275, 64279); (65313, 65338);
   (65345, 65370); (66560, 66639); (66736, 66771); (66776, 66811);
   (66928, 66938); (66940, 66954); (66956, 66962); (66964, 66965);
   (66967, 66977); (66979, 66993); (66995, 67001); (67003, 67004);
   (68736, 68786); (68800, 68850); (71840, 71903); (93760, 93823);
   (119808, 119892); (119894, 119964); (119966, 119967); (119970, 119970);
   (119973, 119974); (119977, 119980); (119982, 119993); (119995, 119995);
   (119997, 120003); (120005, 120069); (120071, 120074); (120077, 120084);
   (120086, 120092); (120094, 120121); (120123, 120126); (120128, 120132);
   (120134, 120134); (120138, 120144); (120146, 120485); (120488, 120512);
   (120514, 120538); (120540, 120570); (120572, 120596); (120598, 120628);
   (120630, 120654); (120656, 120686); (120688, 120712); (120714, 120744);
   (120746, 120770); (120772, 120779); (122624, 122633); (122635, 122654);
   (125184, 125251); (127280, 127305); (127312, 127337); (127344, 127369)
  ]%N.

Definition in_ranges (n : N) (ranges : list (N * N)) : bool :=
  existsb (λ '(first, last), (first <=? n) && (n <=? last))%N ranges.

Definition case_ignorable (n : N) : bool := in_ranges n case_ignorable_ranges.

Definition cased (n : N) : bool := in_ranges n cased_ranges.

Fixpoint skip_case_ignorable (l : list N) : list N :=
  match l with
  | [] => []
  | c :: rest => if case_ignorable c then skip_case_ignorable rest else l
  end.

(** The capital sigma U+03A3 becomes the final sigma U+03C2 when a cased
    letter precedes it and none follows, case-ignorable code points
    skipped on both sides; [before] holds the code points before it, the
    nearest first. *)
Definition final_sigma (before after : list N) : bool :=
  match skip_case_ignorable before with
  | c :: _ =>
      cased c &&
      match skip_case_ignorable after with
      | [] => true
      | d :: _ => negb (cased d)
      end
  | [] => false
  end.

Fixpoint assoc_code_point (n : N) (table : list (N * list N)) : option (list N) :=
  match table with
  | [] => None
  | (m, mapping) :: rest => if (n =? m)%N then Some mapping else assoc_code_point n rest
  end.

Definition lower_code_point (before : list N) (c : N) (after : list N) : list N :=
  (if c <? 128 then
     if (65 <=? c) && (c <=? 90) then [c + 32] else [c]
   else if c =? 931 then
     if final_sigma before after then [962] else [963]
   else default [c] (assoc_code_point c lowercase_mappings))%N.

Fixpoint lower_code_points (before : list N) (l : list N) : list N :=
  match l with
  | [] => []
  | c :: rest => lower_code_point before c rest ++ lower_code_points (c :: before) rest
  end.

(** [s.lower()] *)
Definition lower (s : string) : string :=
  utf8_encode (lower_code_points [] (code_points s)).

(** ** Python values

    [json.loads] returns dictionaries, lists, strings, numbers, booleans and
    [None]; the recommendation page stores whatever it finds under
    ["career_path"], so the names of career paths are Python values. *)

#[warnings="-register-all"]
Inductive pyval : Type :=
| PyNone
| PyBool (b : bool)
| PyInt (n : Z)
| PyFloat (q : Q)
| PyStr (s : string)
| PyList (l : list pyval)
| PyDict (items : list (string * pyval)).

(** [bool(v)], the test of [if v:] and [if not v:]. *)
Definition truthy (v : pyval) : bool :=
  match v with
  | PyNone => false
  | PyBool b => b
  | PyInt n => negb (n =? 0)
  | PyFloat q => negb (Qnum q =? 0)
  | PyStr s => negb (String.eqb s EmptyString)
  | PyList l => match l with [] => false | _ => true end
  | PyDict items => match items with [] => false | _ => true end
  end.

(** Lookup in a dictionary written as its items in insertion order; used
    for the static tables ([d.get(k)]) and for parsed JSON objects. *)
Fixpoint lookup_key {A : Type} (k : string) (items : list (string * A)) : option A :=
  match items with
  | [] => None
  | (k', a) :: rest => if String.eqb k k' then Some a else lookup_key k rest
  end.

(** [v[k]] for a string [k]; [None] when Python raises ([KeyError] on a
    dictionary without the key, [TypeError] on every other value). *)
Definition subscript (v : pyval) (k : string) : option pyval :=
  match v with
  | PyDict items => lookup_key k items
  | _ => None
  end.

(** [for x in v]: the elements of a list, the characters of a string, the
    keys of a dictionary; [None] when [v] is not iterable. *)
Definition iterate (v : pyval) : option (list pyval) :=
  match v with
  | PyList l => Some l
  | PyStr s => Some ((λ n, PyStr (utf8_encode [n])) <$> code_points s)
  | PyDict items => Some ((λ kv, PyStr kv.1) <$> items)
  | _ => None
  end.

(** Whether [v] can be a dictionary key ([dict.get(v)] raises [TypeError]
    on lists and dictionaries). *)
Definition hashable (v : pyval) : bool :=
  match v with
  | PyList _ | PyDict _ => false
  | _ => true
  end.

(** [v in names] for a list of string literals. *)
Definition in_names (v : pyval) (names : list string) : bool :=
  match v with
  | PyStr s => bool_decide (s ∈ names)
  | _ => false
  end.

(** ** Pages *)

Inductive Page : Type :=
| ProfileSetup
| CareerAssessment
| CareerRecommendations
| LearningRoadmap
| SkillsGapAnalysis
| LiveAIConsultation.

Definition page_name (p : Page) : string :=
  match p with
  | ProfileSetup => "Profile Setup"
  | CareerAssessment => "Career Assessment"
  | CareerRecommendations => "Career Recommendations"
  | LearningRoadmap => "Learning Roadmap"
  | SkillsGapAnalysis => "Skills Gap Analysis"
  | LiveAIConsultation => "Live AI Consultation"
  end.

Definition pages : list Page :=
  [ProfileSetup; CareerAssessment; CareerRecommendations; LearningRoadmap;
   SkillsGapAnalysis; LiveAIConsultation].

#[global] Instance Page_eq_dec : EqDecision Page.
Proof. solve_decision. Defined.

(** ** Static records *)

Record Resource : Type := mkResource { resource_name : string; resource_url : string }.

Record Skill : Type := mkSkill {
  skill_name : string;
  weight : Z;
  resources : list Resource
}.

(** The skill table of one career path: category, then its skills, in the
    order of the dictionary literal. *)
Abbreviation SkillTable := (list (string * list Skill)).

Record MarketData : Type := mkMarketData {
  growth_rate : Z;
  demand_score : Z;
  min_salary : Z;
  trending_skills : list string;
  job_postings_trend : list Z
}.

Record CareerDetails : Type := mkCareerDetails {
  skills : list string;
  opportunities : list string;
  market_trends : string
}.

Record Course : Type := mkCourse {
  course_name : string;
  platform : option string;
  course_url : string
}.

Record StageContent : Type := mkStageContent {
  topics : list string;
  courses : list Course;
  projects : list string
}.

(** One entry of [all_gaps]. *)
Record GapEntry : Type := mkGapEntry {
  gap_category : string;
  gap_skill : string;
  gap : Z;
  priority : Z;
  gap_resources : list Resource
}.

Record Turn : Type := mkTurn { role : string; content : string }.

(** The handle returned by [agents.model.start_chat(history=[])]. *)
Record ChatSession : Type := mkChatSession { history : list Turn }.

(** ** The session dictionary *)

Record SessionState : Type := mkSession {
  chat_session : option ChatSession;
  chat_stage : option nat;
  user_data : option (gmap string string);
  career_preferences : option (gmap string string);
  skills_assessment : option (gmap string string);
  career_path_recommendations : option (list pyval);
  selected_career_path : option pyval;
  learning_roadmap : option pyval;
  page : option Page;
  learning_progress : option (list (string * Z));
  consultation_history : option (list Turn);
  skills_gap : option (gmap string (gmap string Z));
  break_duration : option Q
}.

(** [st.session_state.clear()] leaves the empty dictionary. *)
Definition empty_session : SessionState :=
  mkSession None None None None None None None None None None None None None.

Definition set_chat_stage (n : nat) (s : SessionState) : SessionState :=
  mkSession (chat_session s) (Some n) (user_data s) (career_preferences s)
    (skills_assessment s) (career_path_recommendations s) (selected_career_path s)
    (learning_roadmap s) (page s) (learning_progress s) (consultation_history s)
    (skills_gap s) (break_duration s).

Definition set_user_data (d : gmap string string) (s : SessionState) : SessionState :=
  mkSession (chat_session s) (chat_stage s) (Some d) (career_preferences s)
    (skills_assessment s) (career_path_recommendations s) (selected_career_path s)
    (learning_roadmap s) (page s) (learning_progress s) (consultation_history s)
    (skills_gap s) (break_duration s).

Definition set_career_preferences (d : gmap string string) (s : SessionState) : SessionState :=
  mkSession (chat_session s) (chat_stage s) (user_data s) (Some d)
    (skills_assessment s) (career_path_recommendations s) (selected_career_path s)
    (learning_roadmap s) (page s) (learning_progress s) (consultation_history s)
    (skills_gap s) (break_duration s).

Definition set_career_path_recommendations (l : list pyval) (s : SessionState) : SessionState :=
  mkSession (chat_session s) (chat_stage s) (user_data s) (career_preferences s)
    (skills_assessment s) (Some l) (selected_career_path s)
    (learning_roadmap s) (page s) (learning_progress s) (consultation_history s)
    (skills_gap s) (break_duration s).

Definition set_selected_career_path (v : pyval) (s : SessionState) : SessionState :=
  mkSession (chat_session s) (chat_stage s) (user_data s) (career_preferences s)
    (skills_assessment s) (career_path_recommendations s) (Some v)
    (learning_roadmap s) (page s) (learning_progress s) (consultation_history s)
    (skills_gap s) (break_duration s).

Definition set_page (p : Page) (s : SessionState) : SessionState :=
  mkSession (chat_session s) (chat_stage s) (user_data s) (career_preferences s)
    (skills_assessment s) (career_path_recommendations s) (selected_career_path s)
    (learning_roadmap s) (Some p) (learning_progress s) (consultation_history s)
    (skills_gap s) (break_duration s).

Definition set_learning_progress (l : list (string * Z)) (s : SessionState) : SessionState :=
  mkSession (chat_session s) (chat_stage s) (user_data s) (career_preferences s)
    (skills_assessment s) (career_path_recommendations s) (selected_career_path s)
    (learning_roadmap s) (page s) (Some l) (consultation_history s)
    (skills_gap s) (break_duration s).

Definition set_consultation_history (l : list Turn) (s : SessionState) : SessionState :=
  mkSession (chat_session s) (chat_stage s) (user_data s) (career_preferences s)
    (skills_assessment s) (career_path_recommendations s) (selected_career_path s)
    (learning_roadmap s) (page s) (learning_progress s) (Some l)
    (skills_gap s) (break_duration s).

Definition set_skills_gap (g : gmap string (gmap string Z)) (s : SessionState) : SessionState :=
  mkSession (chat_session s) (chat_stage s) (user_data s) (career_preferences s)
    (skills_assessment s) (career_path_recommendations s) (selected_career_path s)
    (learning_roadmap s) (page s) (learning_progress s) (consultation_history s)
    (Some g) (break_duration s).

Definition set_break_duration (q : Q) (s : SessionState) : SessionState :=
  mkSession (chat_session s) (chat_stage s) (user_data s) (career_preferences s)
    (skills_assessment s) (career_path_recommendations s) (selected_career_path s)
    (learning_roadmap s) (page s) (learning_progress s) (consultation_history s)
    (skills_gap s) (Some q).

(** [initialize_session_state] (lines 28-41): every default is written only
    where the key is missing. *)
Definition initialize_session_state (s : SessionState) : SessionState :=
  mkSession
    (Some (default (mkChatSession []) (chat_session s)))
    (Some (default 0%nat (chat_stage s)))
    (Some (default ∅ (user_data s)))
    (Some (default ∅ (career_preferences s)))
    (Some (default ∅ (skills_assessment s)))
    (Some (default [] (career_path_recommendations s)))
    (Some (default PyNone (selected_career_path s)))
    (Some (default PyNone (learning_roadmap s)))
    (page s) (learning_progress s) (consultation_history s)
    (skills_gap s) (break_duration s).

(** ** What one execution receives from outside *)

(** The widget interaction that triggered the execution.  A button or a
    form-submit reads [True] only in the execution its click triggers, and
    [st.chat_input] returns the question only once. *)
Inductive Event : Type :=
| Refresh
| Navigate (p : Page)
| Press (label : string)
| SubmitForm (form : string) (fields : gmap string string)
| Ask (question : string).

Inductive Category : Type := AllCareers | TechnicalCareers | NonTechnicalCareers.

(** The outcome of [agents.generate_career_recommendations_agent(...)]
    followed by [json.loads]: the call raises, or it returns a reply that
    [json.loads] rejects ([None]) or parses into a value. *)
Inductive Reply : Type :=
| CallFails
| Returns (parsed : option pyval).

Record Env : Type := mkEnv {
  event : Event;
  category : Category;          (* radio of the recommendations page *)
  path_choice : nat;            (* index chosen in its selectbox *)
  career_choice : nat;          (* index chosen in the gap page's selectbox *)
  sliders : gmap string Z;      (* sliders the user has moved, by key or label *)
  break_input : option Q;       (* number input, when the user has set it *)
  recommendation_reply : Reply;
  consultation_reply : option string   (* [None]: the consultation agent raises *)
}.

(** The environment of the re-execution that [st.rerun()] starts: the same
    persistent widgets, no click. *)
Definition settled (e : Env) : Env :=
  mkEnv Refresh (category e) (path_choice e) (career_choice e) (sliders e)
    (break_input e) (recommendation_reply e) (consultation_reply e).

(** ** The rendered view *)

Inductive Element : Type :=
| Title (text : string)
| Header (text : string)
| Subheader (text : string)
| Text (text : string)
| Warning (text : string)
| Success (text : string)
| Error (text : string)
| Button (label : string)
| Form (key : string)
| TextInput (key : string)
| TextArea (key : string)
| Progress (percent : Z)
| Items (d : gmap string string)
| Radio (label : string) (options : list string)
| Selectbox (options : list pyval)
| NumberInput (value : Q)
| Slider (label : string) (value : Z)
| SelectedPath (path : pyval)
| MarketTrends (data : MarketData)
| Details (d : CareerDetails)
| Link (name url : string)
| ChatMessage (who text : string)
| GapBadge (skill : string) (gap : Z)
| Proficient (skill : string)
| Chart (category : string) (ratings required : list Z)
| PrioritySkill (rank : nat) (entry : GapEntry)
| OverallProgress (percent : Q)
| Balloons.

(** ** The script monad *)

Inductive Exit : Type :=
| Rerun     (* [st.rerun()] *)
| Raised.   (* an uncaught exception *)

Inductive Flow (A : Type) : Type :=
| Next (a : A)
| Halt (x : Exit).
Arguments Next {A} a.
Arguments Halt {A} x.

Record Result (A : Type) : Type := mkResult {
  flow : Flow A;
  state : SessionState;
  view : list Element
}.
Arguments mkResult {A} flow state view.
Arguments flow {A} r.
Arguments state {A} r.
Arguments view {A} r.

Definition Script (A : Type) : Type := SessionState → Result A.

#[global] Instance script_ret : MRet Script :=
  λ A a s, mkResult (Next a) s [].

#[global] Instance script_bind : MBind Script :=
  λ A B k m s,
    match m s with
    | mkResult (Next a) s1 v1 =>
        match k a s1 with
        | mkResult next s2 v2 => mkResult next s2 (v1 ++ v2)
        end
    | mkResult (Halt x) s1 v1 => mkResult (Halt x) s1 v1
    end.

Definition emit (x : Element) : Script unit :=
  λ s, mkResult (Next tt) s [x].

(** [st.session_state.key]: raises [AttributeError] when the key is absent. *)
Definition attr {A : Type} (field : SessionState → option A) : Script A :=
  λ s, match field s with
       | Some a => mkResult (Next a) s []
       | None => mkResult (Halt Raised) s []
       end.

(** ["key" in st.session_state] *)
Definition has {A : Type} (field : SessionState → option A) : Script bool :=
  λ s, mkResult (Next (match field s with Some _ => true | None => false end)) s [].

Definition modify (f : SessionState → SessionState) : Script unit :=
  λ s, mkResult (Next tt) (f s) [].

Definition st_rerun {A : Type} : Script A :=
  λ s, mkResult (Halt Rerun) s [].

Definition raise {A : Type} : Script A :=
  λ s, mkResult (Halt Raised) s [].

Definition when (b : bool) (m : Script unit) : Script unit :=
  if b then m else mret tt.

Fixpoint for_each {A : Type} (l : list A) (body : A → Script unit) : Script unit :=
  match l with
  | [] => mret tt
  | x :: rest => body x ;; for_each rest body
  end.

(** [st.button(label)] *)
Definition st_button (e : Env) (label : string) : Script bool :=
  emit (Button label) ;;
  mret (match event e with Press l => String.eqb l label | _ => false end).

(** [st.form_submit_button] of the form [form]. *)
Definition form_submitted (e : Env) (form : string) : bool :=
  match event e with SubmitForm f _ => String.eqb f form | _ => false end.

(** The text typed in the field [key] of a submitted form; text widgets
    hold the empty string by default. *)
Definition field_value (e : Env) (key : string) : string :=
  match event e with SubmitForm _ fields => default EmptyString (fields !! key) | _ => EmptyString end.

(** [st.slider]: the value the user dragged it to, else the [value]
    argument. *)
Definition st_slider (e : Env) (key : string) (value : Z) : Z :=
  default value (sliders e !! key).

(** [st.selectbox(label, options)]: an element of [options], the first
    one unless the user chose another; [None] when [options] is empty. *)
Definition st_selectbox {A : Type} (options : list A) (choice : nat) : option A :=
  match options !! choice with
  | Some o => Some o
  | None => head options
  end.

(** [st.progress(value)] accepts 0 to 100 only. *)
Definition st_progress (value : Z) : Script unit :=
  if bool_decide (0 ≤ value ≤ 100) then emit (Progress value) else raise.

(** ** Static tables *)

(** [profile_questions] (lines 97-102) *)
Definition profile_questions : list (string * string) :=
  [("Full Name", "What is your full name?");
   ("Age", "What is your age?");
   ("Education", "What is your current education level and field of study?");
   ("Technical Background", "What is your current technical background or experience?")].

(** [career_preference_questions] (lines 105-110) *)
Definition career_preference_questions : list (string * string) :=
  [("interests", "What aspects of technology interest you the most? (e.g., coding, data analysis, system design)");
   ("work_style", "Do you prefer working independently or in teams?");
   ("learning_style", "How do you prefer to learn new skills?");
   ("career_goals", "What are your long-term career goals in the tech industry?")].

(** The two literal lists of lines 424-431. *)
Definition technical_names : list string :=
  ["Software Development"; "Data Science"; "Machine Learning Engineering";
   "DevOps Engineering"; "Data Analytics"; "Cybersecurity"; "UI/UX Design"].

Definition non_technical_names : list string :=
  ["Digital Marketing"; "Product Management"; "Business Analysis";
   "Technical Writing"; "IT Project Management"; "IT Sales & Business Development"].

(** The default recommendations of lines 393-409. *)
Definition fallback_recommendations : list pyval :=
  [PyStr "Software Development";
   PyStr "Data Science";
   PyStr "Machine Learning Engineering";
   PyStr "DevOps Engineering";
   PyStr "Data Analytics";
   PyStr "Cybersecurity";
   PyStr "UI/UX Design";
   PyStr "Digital Marketing";
   PyStr "Product Management";
   PyStr "Business Analysis";
   PyStr "Technical Writing";
   PyStr "IT Project Management";
   PyStr "IT Sales & Business Development"].

(** [career_options] (lines 1145-1146) *)
Definition career_options : list string :=
  ["Software Development"; "Data Science"; "Machine Learning Engineering";
   "DevOps Engineering"; "Data Analytics"; "Cybersecurity"; "UI/UX Design"].

(** The dictionary literal of [get_industry_skills] (lines 1010-1113). *)
Definition industry_skills : list (string * SkillTable) :=
  [
   ("Software Development",
    [
     ("Technical",
      [
       mkSkill "Modern JavaScript (ES6+)" 4
         [
          mkResource "Modern JavaScript Course"
            "https://www.udemy.com/course/modern-javascript-from-novice-to-ninja/";
          mkResource "JavaScript.info"
            "https://javascript.info/";
          mkResource "MDN Web Docs"
            "https://developer.mozilla.org/en-US/docs/Web/JavaScript" ];
       mkSkill "React/Angular/Vue.js" 4
         [
          mkResource "React - The Complete Guide"
            "https://www.udemy.com/course/react-the-complete-guide-incl-redux/";
          mkResource "Vue.js Course"
            "https://www.udemy.com/course/vuejs-2-the-complete-guide/";
          mkResource "Angular Tutorial"
            "https://angular.io/tutorial" ];
       mkSkill "Node.js" 3
         [
          mkResource "Node.js Complete Guide"
            "https://www.udemy.com/course/nodejs-the-complete-guide/";
          mkResource "Node.js Documentation"
            "https://nodejs.org/en/docs/" ];
       mkSkill "Cloud Services (AWS/Azure/GCP)" 4
         [
          mkResource "AWS Certified Developer"
            "https://www.udemy.com/course/aws-certified-developer-associate/";
          mkResource "Azure Fundamentals"
            "https://learn.microsoft.com/en-us/training/azure/" ];
       mkSkill "Docker & Kubernetes" 3
         [
          mkResource "Docker & Kubernetes Course"
            "https://www.udemy.com/course/docker-and-kubernetes-the-complete-guide/";
          mkResource "Kubernetes Documentation"
            "https://kubernetes.io/docs/home/" ] ]);
     ("Tools",
      [
       mkSkill "Git & GitHub" 5
         [
          mkResource "Git Complete Guide"
            "https://www.udemy.com/course/git-complete/";
          mkResource "GitHub Learning Lab"
            "https://lab.github.com/" ];
       mkSkill "VS Code/Modern IDEs" 4
         [
          mkResource "VS Code Tutorial"
            "https://code.visualstudio.com/docs";
          mkResource "VS Code Can Do That?"
            "https://www.vscodecandothat.com/" ];
       mkSkill "Testing Frameworks" 4
         [
          mkResource "JavaScript Testing Course"
            "https://www.udemy.com/course/javascript-unit-testing-the-practical-guide/";
          mkResource "Jest Documentation"
            "https://jestjs.io/docs/getting-started" ] ]);
     ("Soft Skills",
      [
       mkSkill "Agile Methodologies" 4
         [
          mkResource "Agile Fundamentals"
            "https://www.coursera.org/learn/agile-fundamentals";
          mkResource "Scrum Guide"
            "https://scrumguides.org/" ];
       mkSkill "Technical Communication" 5
         [
          mkResource "Technical Writing Course"
            "https://www.coursera.org/learn/technical-writing";
          mkResource "Google Technical Writing"
            "https://developers.google.com/tech-writing" ];
       mkSkill "Problem-Solving" 5
         [
          mkResource "LeetCode Problems"
            "https://leetcode.com/problemset/all/";
          mkResource "HackerRank Challenges"
            "https://www.hackerrank.com/domains/algorithms" ] ]) ]);
   ("Data Science",
    [
     ("Technical",
      [
       mkSkill "Python for Data Science" 5
         [
          mkResource "Python for Data Science"
            "https://www.udemy.com/course/python-for-data-science-and-machine-learning-bootcamp/";
          mkResource "DataCamp Python Track"
            "https://www.datacamp.com/tracks/python-programmer" ];
       mkSkill "Machine Learning" 4
         [
          mkResource "Machine Learning A-Z"
            "https://www.udemy.com/course/machinelearning/";
          mkResource "Stanford ML Course"
            "https://www.coursera.org/learn/machine-learning" ];
       mkSkill "Deep Learning" 3
         [
          mkResource "Deep Learning Specialization"
            "https://www.coursera.org/specializations/deep-learning";
          mkResource "Fast.ai Course"
            "https://www.fast.ai/" ];
       mkSkill "Statistical Analysis" 4
         [
          mkResource "Statistics for Data Science"
            "https://www.coursera.org/specializations/statistics";
          mkResource "Khan Academy Statistics"
            "https://www.khanacademy.org/math/statistics-probability" ] ]);
     ("Tools",
      [
       mkSkill "SQL & Databases" 5
         [
          mkResource "Complete SQL Bootcamp"
            "https://www.udemy.com/course/the-complete-sql-bootcamp/";
          mkResource "Mode SQL Tutorial"
            "https://mode.com/sql-tutorial/" ];
       mkSkill "Jupyter & Data Tools" 4
         [
          mkResource "Jupyter Tutorial"
            "https://jupyter.org/try";
          mkResource "Pandas Documentation"
            "https://pandas.pydata.org/docs/" ];
       mkSkill "Visualization Tools" 4
         [
          mkResource "Data Visualization Course"
            "https://www.coursera.org/learn/data-visualization";
          mkResource "Tableau Training"
            "https://www.tableau.com/learn/training" ] ]);
     ("Soft Skills",
      [
       mkSkill "Data Storytelling" 4
         [
          mkResource "Data Storytelling Course"
            "https://www.coursera.org/learn/data-stories";
          mkResource "Storytelling with Data"
            "https://www.storytellingwithdata.com/" ];
       mkSkill "Business Acumen" 4
         [
          mkResource "Business Analytics"
            "https://www.coursera.org/specializations/business-analytics";
          mkResource "Harvard Business Review"
            "https://hbr.org/topic/analytics" ];
       mkSkill "Research Methodology" 3
         [
          mkResource "Research Methods Course"
            "https://www.coursera.org/learn/research-methods";
          mkResource "Google Scholar"
            "https://scholar.google.com/" ] ]) ]) ].

(** [get_industry_skills]: [industry_skills.get(career_path, {})] *)
Definition get_industry_skills (career_path : string) : SkillTable :=
  default [] (lookup_key career_path industry_skills).

(** The dictionary literal of [fetch_job_market_data] (lines 206-300). *)
Definition market_data : list (string * MarketData) :=
  [
   ("Software Development",
    mkMarketData 25 85 500000
      ["Python"; "JavaScript"; "Cloud Computing"; "DevOps"]
      [1200; 1350; 1500; 1800; 2100; 2400]);
   ("Data Science",
    mkMarketData 28 90 600000
      ["Python"; "Machine Learning"; "SQL"; "Deep Learning"]
      [800; 1000; 1300; 1600; 2000; 2500]);
   ("Machine Learning Engineering",
    mkMarketData 30 88 700000
      ["TensorFlow"; "PyTorch"; "Computer Vision"; "NLP"]
      [600; 800; 1100; 1500; 1900; 2300]);
   ("DevOps Engineering",
    mkMarketData 22 82 600000
      ["Docker"; "Kubernetes"; "AWS"; "CI/CD"]
      [900; 1100; 1400; 1700; 2000; 2200]);
   ("Data Analytics",
    mkMarketData 23 80 450000
      ["SQL"; "Python"; "Tableau"; "Power BI"]
      [1000; 1200; 1400; 1600; 1800; 2000]);
   ("Cybersecurity",
    mkMarketData 32 92 550000
      ["Network Security"; "Ethical Hacking"; "Security Tools"; "Risk Assessment"]
      [900; 1100; 1400; 1800; 2200; 2600]);
   ("UI/UX Design",
    mkMarketData 24 84 450000
      ["Figma"; "User Research"; "Wireframing"; "Design Systems"]
      [800; 1000; 1200; 1500; 1800; 2100]);
   ("Digital Marketing",
    mkMarketData 20 78 400000
      ["SEO"; "Social Media"; "Content Strategy"; "Analytics"]
      [1100; 1300; 1500; 1700; 1900; 2100]);
   ("Product Management",
    mkMarketData 27 86 800000
      ["Agile"; "Product Strategy"; "User Stories"; "Roadmapping"]
      [700; 900; 1200; 1500; 1800; 2200]);
   ("Business Analysis",
    mkMarketData 21 79 450000
      ["Requirements Gathering"; "Process Modeling"; "Data Analysis"; "Stakeholder Management"]
      [800; 1000; 1200; 1400; 1600; 1900]);
   ("Technical Writing",
    mkMarketData 18 75 400000
      ["Documentation"; "API Writing"; "Content Management"; "Information Architecture"]
      [500; 600; 800; 1000; 1200; 1400]);
   ("IT Project Management",
    mkMarketData 24 83 700000
      ["Project Planning"; "Risk Management"; "Team Leadership"; "Budgeting"]
      [900; 1100; 1300; 1600; 1900; 2200]);
   ("IT Sales & Business Development",
    mkMarketData 19 77 450000
      ["Solution Selling"; "CRM"; "Relationship Building"; "Technical Knowledge"]
      [700; 900; 1100; 1300; 1500; 1800]) ].

(** [fetch_job_market_data]: [market_data.get(career_path, {})]; [None]
    stands for the empty dictionary. *)
Definition fetch_job_market_data (career_path : pyval) : option MarketData :=
  match career_path with
  | PyStr name => lookup_key name market_data
  | _ => None
  end.

(** The dictionary literal of [display_career_path_details] (lines 462-530). *)
Definition career_details : list (string * CareerDetails) :=
  [
   ("Software Development",
    mkCareerDetails
      ["Programming Languages (Python, Java, JavaScript)";
       "Web Development";
       "Database Management";
       "Version Control";
       "Software Architecture"]
      ["Full-stack Developer";
       "Backend Developer";
       "Mobile App Developer";
       "Cloud Solutions Engineer";
       "DevOps Engineer"]
      "High demand with 25% growth expected over next 5 years");
   ("Data Science",
    mkCareerDetails
      ["Python";
       "Statistics";
       "Machine Learning";
       "Data Visualization";
       "Big Data Technologies"]
      ["Data Scientist";
       "Machine Learning Engineer";
       "AI Researcher";
       "Business Intelligence Analyst";
       "Quantitative Analyst"]
      "Rapidly growing field with 28% projected growth");
   ("Machine Learning Engineering",
    mkCareerDetails
      ["Deep Learning";
       "NLP";
       "Computer Vision";
       "Python";
       "Model Deployment";
       "MLOps"]
      ["ML Engineer";
       "AI Developer";
       "Research Scientist";
       "Computer Vision Engineer";
       "NLP Engineer"]
      "Explosive growth with 30% increase in demand annually");
   ("DevOps Engineering",
    mkCareerDetails
      ["Cloud Platforms";
       "CI/CD";
       "Container Orchestration";
       "Infrastructure as Code";
       "Monitoring Tools"]
      ["DevOps Engineer";
       "Site Reliability Engineer";
       "Cloud Engineer";
       "Platform Engineer";
       "Infrastructure Engineer"]
      "Strong demand with 22% growth in job openings");
   ("Data Analytics",
    mkCareerDetails
      ["SQL";
       "Data Visualization";
       "Statistical Analysis";
       "Excel";
       "Business Intelligence Tools"]
      ["Data Analyst";
       "Business Intelligence Developer";
       "Marketing Analyst";
       "Financial Analyst";
       "Operations Analyst"]
      "Steady growth with 23% increase in opportunities");
   ("Cybersecurity",
    mkCareerDetails
      ["Network Security";
       "Ethical Hacking";
       "Security Tools";
       "Risk Assessment";
       "Incident Response"]
      ["Security Engineer";
       "Penetration Tester";
       "Security Analyst";
       "Security Consultant";
       "Security Architect"]
      "Critical growth area with 32% increase in demand");
   ("UI/UX Design",
    mkCareerDetails
      ["User Research";
       "Wireframing";
       "Prototyping";
       "Visual Design";
       "Design Systems"]
      ["UI Designer";
       "UX Designer";
       "Product Designer";
       "Interaction Designer";
       "Design System Specialist"]
      "Growing demand with 24% increase in opportunities");
   ("Digital Marketing",
    mkCareerDetails
      ["SEO";
       "Social Media Marketing";
       "Content Strategy";
       "Analytics";
       "Email Marketing"]
      ["Digital Marketing Manager";
       "SEO Specialist";
       "Content Strategist";
       "Social Media Manager";
       "Marketing Analyst"]
      "Steady growth with 20% increase in roles");
   ("Product Management",
    mkCareerDetails
      ["Product Strategy";
       "User Stories";
       "Agile Methodologies";
       "Data Analysis";
       "Stakeholder Management"]
      ["Product Manager";
       "Product Owner";
       "Technical Product Manager";
       "Growth Product Manager";
       "Senior Product Manager"]
      "High demand with 27% growth in opportunities");
   ("Business Analysis",
    mkCareerDetails
      ["Requirements Gathering";
       "Process Modeling";
       "Data Analysis";
       "Documentation";
       "Stakeholder Management"]
      ["Business Analyst";
       "Systems Analyst";
       "Process Analyst";
       "Agile Business Analyst";
       "Senior Business Analyst"]
      "Stable growth with 21% increase in positions");
   ("Technical Writing",
    mkCareerDetails
      ["Documentation";
       "API Writing";
       "Information Architecture";
       "Content Management";
       "Research"]
      ["Technical Writer";
       "Documentation Specialist";
       "API Documentation Writer";
       "Content Developer";
       "Knowledge Base Manager"]
      "Steady demand with 18% growth expected");
   ("IT Project Management",
    mkCareerDetails
      ["Project Planning";
       "Risk Management";
       "Agile/Scrum";
       "Budgeting";
       "Team Leadership"]
      ["IT Project Manager";
       "Program Manager";
       "Scrum Master";
       "Delivery Manager";
       "Technical Project Lead"]
      "Strong growth with 24% increase in demand");
   ("IT Sales & Business Development",
    mkCareerDetails
      ["Solution Selling";
       "Relationship Building";
       "Technical Knowledge";
       "CRM";
       "Negotiation"]
      ["Technical Sales Manager";
       "Solutions Consultant";
       "Business Development Manager";
       "Account Executive";
       "Sales Engineer"]
      "Consistent growth with 19% increase in opportunities") ].

(** The dictionary literal of [display_learning_roadmap] (lines 743-797). *)
Definition learning_paths : list (string * list (string * StageContent)) :=
  [
   ("Software Development",
    [
     ("fundamentals",
      mkStageContent
        ["Programming Basics"; "Data Structures"; "Algorithms"; "Git Version Control"]
        [
          mkCourse "Complete Python Bootcamp" (Some "Udemy")
            "https://www.udemy.com/course/complete-python-bootcamp/";
          mkCourse "Data Structures and Algorithms" (Some "Coursera")
            "https://www.coursera.org/specializations/data-structures-algorithms" ]
        ["Build a Calculator";
         "Create a Todo App";
         "Implement Basic Data Structures"]);
     ("core_skills",
      mkStageContent
        ["Web Development"; "Database Management"; "API Development"]
        [
          mkCourse "The Web Developer Bootcamp" (Some "Udemy")
            "https://www.udemy.com/course/the-web-developer-bootcamp/";
          mkCourse "Complete SQL Bootcamp" (Some "Udemy")
            "https://www.udemy.com/course/the-complete-sql-bootcamp/" ]
        ["Personal Portfolio Website";
         "RESTful API Service";
         "Database-driven Web App"]);
     ("specialized",
      mkStageContent
        ["Framework Expertise"; "Cloud Services"; "Testing"]
        [
          mkCourse "React - The Complete Guide" (Some "Udemy")
            "https://www.udemy.com/course/react-the-complete-guide-incl-redux/";
          mkCourse "AWS Certified Developer" (Some "Udemy")
            "https://www.udemy.com/course/aws-certified-developer-associate/" ]
        ["Full-stack E-commerce Site";
         "Cloud-deployed Application";
         "Mobile-responsive Web App"]) ]);
   ("Data Science",
    [
     ("fundamentals",
      mkStageContent
        ["Python Programming"; "Statistics"; "Linear Algebra"; "Data Analysis"]
        [
          mkCourse "Python for Data Science" (Some "Udemy")
            "https://www.udemy.com/course/python-for-data-science-and-machine-learning-bootcamp/";
          mkCourse "Statistics for Data Science" (Some "Coursera")
            "https://www.coursera.org/specializations/statistics" ]
        ["Data Analysis with Pandas";
         "Statistical Analysis Project";
         "Data Visualization Dashboard"]);
     ("core_skills",
      mkStageContent
        ["Machine Learning"; "Data Visualization"; "Big Data Tools"]
        [
          mkCourse "Machine Learning A-Z" None
            "https://www.udemy.com/course/machinelearning/";
          mkCourse "Deep Learning Specialization" (Some "Coursera")
            "https://www.coursera.org/specializations/deep-learning" ]
        ["Predictive Analysis Model";
         "Customer Segmentation";
         "Time Series Forecasting"]);
     ("specialized",
      mkStageContent
        ["Deep Learning"; "Natural Language Processing"; "Computer Vision"]
        [
          mkCourse "TensorFlow Developer Certificate" (Some "Udemy")
            "https://www.udemy.com/course/tensorflow-developer-certificate-machine-learning-zero-to-mastery/";
          mkCourse "NLP Specialization" (Some "Coursera")
            "https://www.coursera.org/specializations/natural-language-processing" ]
        ["Image Classification System";
         "Sentiment Analysis Tool";
         "Recommendation Engine"]) ]) ].

(** The key set of the static knowledge tables ([market_data] and
    [career_details] have the same keys). *)
Definition known_career_paths : list string := market_data.*1.

(** ** Skills gap computation (lines 1289-1306 and 1350-1358)

    The functions take the skill table as an argument; the page applies
    them to [get_industry_skills selected_career].  A table is a Python
    dictionary: its categories are distinct. *)

(** The (category, skill) pairs in the order of the two nested loops
    [for category, skills in industry_skills.items(): for skill in skills]. *)
Definition table_skills (tbl : SkillTable) : list (string * Skill) :=
  '(category, skills) ← tbl; (λ skill, (category, skill)) <$> skills.

(** One iteration of the loop body of lines 1293-1303: [None] when
    [st.session_state.skills_gap[category]] raises [KeyError], otherwise
    the entry appended to [all_gaps], if any. *)
Definition gap_entry (ratings : gmap string (gmap string Z))
    (item : string * Skill) : option (option GapEntry) :=
  let '(category, skill) := item in
  rated ← ratings !! category;
  let current_rating := default 0 (rated !! skill_name skill) in
  let gap := weight skill - current_rating in
  Some (if bool_decide (gap > 0)
        then Some (mkGapEntry category (skill_name skill) gap (gap * weight skill)
                     (resources skill))
        else None).

(** [all_gaps] before sorting. *)
Definition collect_gaps (tbl : SkillTable) (ratings : gmap string (gmap string Z))
    : option (list GapEntry) :=
  entries ← mapM (gap_entry ratings) (table_skills tbl);
  Some (omap id entries).

(** [list.sort(key=lambda x: x["priority"], reverse=True)]: Python's sort
    is stable, also with [reverse=True]; an insertion sort that places an
    entry before the first one whose priority is not greater has the same
    result. *)
Fixpoint insert_by_priority (x : GapEntry) (l : list GapEntry) : list GapEntry :=
  match l with
  | [] => [x]
  | y :: rest =>
      if bool_decide (priority y <= priority x)
      then x :: y :: rest
      else y :: insert_by_priority x rest
  end.

Fixpoint sort_by_priority (l : list GapEntry) : list GapEntry :=
  match l with
  | [] => []
  | x :: rest => insert_by_priority x (sort_by_priority rest)
  end.

(** [all_gaps] after line 1306: the prioritized learning path. *)
Definition learning_path (tbl : SkillTable) (ratings : gmap string (gmap string Z))
    : option (list GapEntry) :=
  sort_by_priority <$> collect_gaps tbl ratings.

(** [st.session_state.skills_gap.get(category, {}).get(skill_name, 0)] *)
Definition rating_or_zero (ratings : gmap string (gmap string Z))
    (category name : string) : Z :=
  default 0 (default ∅ (ratings !! category) !! name).

(** [total_skills] (line 1351) *)
Definition total_skills (tbl : SkillTable) : nat :=
  sum_list ((λ item, length item.2) <$> tbl).

(** The contribution of one category to [completed_skills] (lines
    1352-1356): every rating of the category is compared with
    [industry_skills[category][0]["weight"]]. *)
Definition completed_in_category (ratings : gmap string (gmap string Z))
    (item : string * list Skill) : nat :=
  let '(category, skills) := item in
  match skills with
  | [] => 0%nat
  | first :: _ =>
      length (filter (λ name, rating_or_zero ratings category name >= weight first)
                (skill_name <$> skills))
  end.

Definition completed_skills (tbl : SkillTable) (ratings : gmap string (gmap string Z)) : nat :=
  sum_list (completed_in_category ratings <$> tbl).

(** [progress_percentage] (line 1358), as an exact rational; [None] is the
    [ZeroDivisionError] of a table without skills. *)
Definition progress_percentage (tbl : SkillTable) (ratings : gmap string (gmap string Z))
    : option Q :=
  if bool_decide (total_skills tbl = 0%nat) then None
  else Some ((inject_Z (Z.of_nat (completed_skills tbl ratings))
              / inject_Z (Z.of_nat (total_skills tbl))) * 100)%Q.

(** *** The same quantities in the words of the specification *)

Definition spec_gap (required_weight current_rating : Z) : Z :=
  Z.max 0 (required_weight - current_rating).

Definition spec_priority (required_weight current_rating : Z) : Z :=
  spec_gap required_weight current_rating * required_weight.

(** The count of skills with rating >= requiredWeight, each skill compared
    with its own weight. *)
Definition spec_completed_skills (tbl : SkillTable) (ratings : gmap string (gmap string Z)) : nat :=
  length (filter (λ item : string * Skill,
                    rating_or_zero ratings item.1 (skill_name item.2) >= weight item.2)
            (table_skills tbl)).

(** 100 * (count of skills with rating >= requiredWeight) / (total skill
    count) *)
Definition spec_progress_percentage (tbl : SkillTable) (ratings : gmap string (gmap string Z)) : Q :=
  (100 * inject_Z (Z.of_nat (spec_completed_skills tbl ratings))
   / inject_Z (Z.of_nat (length (table_skills tbl))))%Q.

(** The skills with a positive gap, in table order, each with its gap and
    its priority = gap * requiredWeight. *)
Definition spec_candidate (ratings : gmap string (gmap string Z))
    (item : string * Skill) : option GapEntry :=
  let current_rating := rating_or_zero ratings item.1 (skill_name item.2) in
  if bool_decide (spec_gap (weight item.2) current_rating > 0)
  then Some (mkGapEntry item.1 (skill_name item.2)
               (spec_gap (weight item.2) current_rating)
               (spec_priority (weight item.2) current_rating)
               (resources item.2))
  else None.

Definition spec_candidates (tbl : SkillTable) (ratings : gmap string (gmap string Z))
    : list GapEntry :=
  omap (spec_candidate ratings) (table_skills tbl).

(** The example of the specification: weights A:3, B:5 and ratings A:2,
    B:0. *)
Definition example_table : SkillTable :=
  [("Skills", [mkSkill "A" 3 []; mkSkill "B" 5 []])].

Definition example_ratings : gmap string (gmap string Z) :=
  {[ "Skills" := {[ "A" := 2; "B" := 0 ]} ]}.

(** Skill, gap and priority of the entries of a path. *)
Definition path_summary (path : list GapEntry) : list (string * Z * Z) :=
  (λ entry, (gap_skill entry, gap entry, priority entry)) <$> path.

(** A list [l] is the stable descending sort of [l0] by [key]: it orders
    the same elements by non-increasing key, and elements of equal key
    keep the order they have in [l0]. *)
Definition stable_descending_sort {A : Type} (key : A → Z) (l0 l : list A) : Prop :=
  l ≡ₚ l0 ∧
  StronglySorted (λ a b, key a >= key b) l ∧
  ∀ k, filter (λ a, key a = k) l = filter (λ a, key a = k) l0.

(** ** The pages *)

(** [int((done / total) * 100)] for the two progress bars; [total] is 4,
    so the quotient and the product are exact. *)
Definition percent_done (finished total : nat) : Z :=
  (Z.of_nat finished * 100) `div` Z.of_nat total.

(** [display_profile_setup] (lines 112-146) *)
Definition display_profile_setup (e : Env) : Script unit :=
  emit (Header "Profile Setup") ;;
  stage ← attr chat_stage;
  st_progress (percent_done stage (length profile_questions)) ;;
  data ← attr user_data;
  when (negb (bool_decide (data = ∅)))
    (emit (Subheader "Your Profile Information:") ;; emit (Items data)) ;;
  stage ← attr chat_stage;
  match profile_questions !! stage with
  | Some (key, question) =>
      emit (Subheader "Please Answer:") ;;
      emit (ChatMessage "assistant" question) ;;
      let form := "profile_form_" +:+ pretty stage in
      let input := "profile_input_" +:+ pretty stage in
      emit (Form form) ;;
      emit (TextInput input) ;;
      let user_input := field_value e input in
      let submit_button := form_submitted e form in
      when (submit_button && negb (String.eqb user_input EmptyString))
        (data ← attr user_data;
         modify (set_user_data (<[key := user_input]> data)) ;;
         stage ← attr chat_stage;
         modify (set_chat_stage (stage + 1)) ;;
         st_rerun)
  | None =>
      emit (Success "Profile setup completed! Please proceed to Career Assessment.") ;;
      pressed ← st_button e "Go to Career Assessment";
      when pressed (modify (set_page CareerAssessment) ;; st_rerun)
  end.

(** The form of [display_career_assessment] shows a text area for the
    questions that have no stored answer (lines 169-177). *)
Definition assessment_responses (e : Env) (preferences : gmap string string)
    : list (string * string) :=
  omap (λ '(key, question),
          match preferences !! key with
          | None => Some (key, field_value e ("career_pref_" +:+ key))
          | Some _ => None
          end)
       career_preference_questions.

(** Lines 183-185: only non-empty responses are stored. *)
Definition store_responses (responses : list (string * string))
    (preferences : gmap string string) : gmap string string :=
  foldl (λ prefs '(key, response),
           if String.eqb response EmptyString then prefs else <[key := response]> prefs)
        preferences responses.

(** [display_career_assessment] (lines 148-201) *)
Definition display_career_assessment (e : Env) : Script unit :=
  emit (Header "Career Assessment") ;;
  data ← attr user_data;
  if bool_decide (data = ∅) then
    emit (Warning "Please complete your profile setup first!") ;;
    pressed ← st_button e "Go to Profile Setup";
    when pressed (modify (set_page ProfileSetup) ;; st_rerun)
  else
    let total_questions := length career_preference_questions in
    preferences ← attr career_preferences;
    st_progress (percent_done (size preferences) total_questions) ;;
    emit (Form "career_assessment_form") ;;
    emit (Subheader "Career Preferences Assessment") ;;
    let responses := assessment_responses e preferences in
    for_each responses (λ '(key, _), emit (TextArea ("career_pref_" +:+ key))) ;;
    when (form_submitted e "career_assessment_form")
      (preferences ← attr career_preferences;
       modify (set_career_preferences (store_responses responses preferences)) ;;
       st_rerun) ;;
    preferences ← attr career_preferences;
    when (negb (bool_decide (preferences = ∅)))
      (emit (Subheader "Your Career Preferences:") ;;
       (if bool_decide (dom preferences ⊆ list_to_set career_preference_questions.*1)
        then emit (Items preferences)
        else raise)) ;;
    preferences ← attr career_preferences;
    when (bool_decide (size preferences = total_questions))
      (emit (Success "Career assessment completed! You can now view your career recommendations.") ;;
       pressed ← st_button e "View Career Recommendations";
       when pressed (modify (set_page CareerRecommendations) ;; st_rerun)).

(** The body of the [try] of lines 383-390 after the agent call:
    [[path["career_path"] for path in data["recommended_paths"]]]. *)
Definition recommended_paths (data : pyval) : option (list pyval) :=
  paths ← subscript data "recommended_paths" ≫= iterate;
  mapM (λ path, subscript path "career_path") paths.

(** The whole [try] block: [None] when anything in it raises. *)
Definition try_recommendations (reply : Reply) : option (list pyval) :=
  match reply with
  | CallFails => None
  | Returns parsed => parsed ≫= recommended_paths
  end.

(** The replies on which the [try] block raises, told by their shape: the
    call fails, or the reply is not JSON, or the parsed reply is not an
    object with the key "recommended_paths", or the value under that key is
    not iterable, or one of its elements is not an object with the key
    "career_path". *)
Definition extraction_raises (reply : Reply) : Prop :=
  match reply with
  | CallFails => True
  | Returns None => True
  | Returns (Some data) =>
      match subscript data "recommended_paths" with
      | None => True
      | Some value =>
          match iterate value with
          | None => True
          | Some entries =>
              Exists (λ entry, subscript entry "career_path" = None) entries
          end
      end
  end.

(** [plot_market_trends] (lines 303-375) *)
Definition plot_market_trends (e : Env) (data : MarketData) : Script unit :=
  emit (MarketTrends data) ;;
  emit (Subheader "🔥 Trending Skills") ;;
  for_each (trending_skills data) (λ skill, _ ← st_button e skill; mret tt).

(** [display_career_path_details] (lines 461-550) *)
Definition display_career_path_details (career_path : pyval) : Script unit :=
  match career_path with
  | PyStr name =>
      match lookup_key name career_details with
      | Some details => emit (Details details)
      | None => mret tt
      end
  | _ => mret tt
  end.

(** The options of the selectbox (lines 423-440): the recommendations,
    filtered by the two literal lists when a category is chosen. *)
Definition shown_paths (chosen : Category) (all_paths : list pyval) : list pyval :=
  let technical_paths := filter (λ path, in_names path technical_names) all_paths in
  let non_technical_paths := filter (λ path, in_names path non_technical_names) all_paths in
  match chosen with
  | TechnicalCareers => technical_paths
  | NonTechnicalCareers => non_technical_paths
  | AllCareers => all_paths
  end.

(** [display_career_recommendations] (lines 377-459) *)
Definition display_career_recommendations (e : Env) : Script unit :=
  emit (Header "Career Path Recommendations") ;;
  recommendations ← attr career_path_recommendations;
  when (negb (truthy (PyList recommendations)))
    (preferences ← attr career_preferences;
     when (negb (bool_decide (preferences = ∅)))
       (match try_recommendations (recommendation_reply e) with
        | Some paths => modify (set_career_path_recommendations paths)
        | None => modify (set_career_path_recommendations fallback_recommendations)
        end)) ;;
  all_paths ← attr career_path_recommendations;
  when (truthy (PyList all_paths))
    (emit (Subheader "Career Path Category") ;;
     emit (Radio "Select your preferred category:"
             ["All Careers"; "Technical Careers"; "Non-Technical Careers"]) ;;
     emit (Subheader "Select Career Path") ;;
     let paths_to_show := shown_paths (category e) all_paths in
     emit (Selectbox paths_to_show) ;;
     match st_selectbox paths_to_show (path_choice e) with
     | Some selected_path =>
         when (truthy selected_path) (modify (set_selected_career_path selected_path))
     | None => mret tt
     end) ;;
  selected ← attr selected_career_path;
  when (truthy selected)
    (emit (SelectedPath selected) ;;
     (if hashable selected then mret tt else raise) ;;
     match fetch_job_market_data selected with
     | Some data => plot_market_trends e data
     | None => mret tt
     end ;;
     display_career_path_details selected).

(** The progress sliders of the roadmap (lines 707-717): every stage gets
    the value of its slider.  There are three columns, so a fourth stage
    would raise [IndexError] at [cols[idx]]. *)
Definition track_progress (e : Env) (progress : list (string * Z)) : list (string * Z) :=
  (λ '(stage, value), (stage, st_slider e ("progress_" +:+ stage) value)) <$> progress.

Definition progress_status (value : Z) : string :=
  if bool_decide (value < 30) then "Getting Started"
  else if bool_decide (value < 70) then "In Progress"
  else "Advanced".

(** The third tab (lines 849-864): [course['platform']] raises [KeyError]
    on a course without platform. *)
Definition show_course (course : Course) : Script unit :=
  match platform course with
  | Some name =>
      emit (Link (course_name course) (course_url course)) ;;
      emit (Text ("Platform: " +:+ name))
  | None => raise
  end.

(** [display_learning_roadmap] (lines 552-923) *)
Definition display_learning_roadmap (e : Env) : Script unit :=
  emit (Header "Personalized Learning Roadmap") ;;
  selected ← attr selected_career_path;
  if negb (truthy selected) then
    emit (Warning "Please select a career path from the Career Recommendations section first!") ;;
    pressed ← st_button e "Go to Career Recommendations";
    when pressed (modify (set_page CareerRecommendations) ;; st_rerun)
  else
    emit (SelectedPath selected) ;;
    tracked ← has learning_progress;
    when (negb tracked)
      (modify (set_learning_progress
                 [("fundamentals", 0); ("core_skills", 0); ("specialized", 0)])) ;;
    progress ← attr learning_progress;
    let shown := track_progress e (take 3 progress) in
    modify (set_learning_progress (shown ++ drop 3 progress)) ;;
    for_each shown
      (λ '(stage, value),
         emit (Slider ("progress_" +:+ stage) value) ;;
         emit (Text (progress_status value))) ;;
    (if bool_decide (length progress ≤ 3)%nat then mret tt else raise) ;;
    (if hashable selected then mret tt else raise) ;;
    let career_path :=
      match selected with
      | PyStr name =>
          default (default [] (lookup_key "Software Development" learning_paths))
                  (lookup_key name learning_paths)
      | _ => default [] (lookup_key "Software Development" learning_paths)
      end in
    for_each career_path (λ '(stage, content), for_each (topics content) (λ t, emit (Text t))) ;;
    emit (Subheader "🔬 Hands-on Projects") ;;
    for_each career_path (λ '(stage, content), for_each (projects content) (λ t, emit (Text t))) ;;
    emit (Subheader "📚 Learning Resources") ;;
    for_each career_path (λ '(stage, content), for_each (courses content) show_course) ;;
    for_each ["Stack Overflow"; "GitHub Discussions"; "Reddit Communities"; "LinkedIn Groups"]
      (λ t, emit (Text t)) ;;
    for_each [("LeetCode", "https://leetcode.com/");
              ("HackerRank", "https://www.hackerrank.com/");
              ("Kaggle", "https://www.kaggle.com/");
              ("CodePen", "https://codepen.io/")]
      (λ '(name, url), emit (Link name url)).

(** [needle in text] *)
Definition contains (needle text : string) : bool :=
  match String.index 0 needle text with
  | Some _ => true
  | None => false
  end.

(** The canned answers of lines 963-971. *)
Definition keyword_response (user_question : string) : string :=
  let keywords := lower user_question in
  if contains "career" keywords || contains "job" keywords then
    "Based on current market trends, there are many promising career paths in technology. Consider exploring roles in Software Development, Data Science, or Cybersecurity. Each of these fields offers strong growth potential and competitive salaries. Would you like to learn more about any specific career path?"
  else if contains "skill" keywords || contains "learn" keywords then
    "To build a successful tech career, focus on both technical and soft skills. Key technical skills include programming languages, data analysis, and cloud computing. Important soft skills are problem-solving, communication, and adaptability. What specific skills are you interested in developing?"
  else if contains "salary" keywords || contains "pay" keywords then
    "Salaries in tech careers vary by role, location, and experience. Entry-level positions typically range from $50,000 to $80,000, while experienced professionals can earn $100,000+. Would you like to see detailed salary information for specific roles?"
  else
    "I understand you're interested in career guidance. Could you please be more specific about what you'd like to know? For example, you can ask about specific career paths, required skills, or salary expectations.".

Definition career_keywords : list string :=
  ["software"; "data"; "machine learning"; "devops"; "analytics"; "cybersecurity"; "ui/ux"].

(** [display_live_consultation] (lines 925-1006) *)
Definition display_live_consultation (e : Env) : Script unit :=
  emit (Header "Live AI Career Consultation") ;;
  emit (Text "Chat with our AI career advisor for personalized guidance") ;;
  started ← has consultation_history;
  when (negb started) (modify (set_consultation_history [])) ;;
  turns ← attr consultation_history;
  for_each turns (λ message, emit (ChatMessage (role message) (content message))) ;;
  match event e with
  | Ask user_question =>
      when (negb (String.eqb user_question EmptyString))
        (turns ← attr consultation_history;
         modify (set_consultation_history (turns ++ [mkTurn "user" user_question])) ;;
         emit (ChatMessage "user" user_question) ;;
         data ← attr user_data;
         let response :=
           if bool_decide (data = ∅) then
             "Please complete your profile setup first to get personalized career advice. This will help me provide more relevant guidance based on your background and interests."
           else
             match consultation_reply e with
             | Some answer => answer
             | None => keyword_response user_question
             end in
         turns ← attr consultation_history;
         modify (set_consultation_history (turns ++ [mkTurn "assistant" response])) ;;
         emit (ChatMessage "assistant" response) ;;
         when (existsb (λ keyword, contains keyword (lower response)) career_keywords)
           (emit (Text "Quick Actions:") ;;
            details ← st_button e "View Career Details";
            when details (modify (set_page CareerRecommendations) ;; st_rerun) ;;
            roadmap ← st_button e "See Learning Roadmap";
            when roadmap (modify (set_page LearningRoadmap) ;; st_rerun)))
  | _ => mret tt
  end ;;
  turns ← attr consultation_history;
  when (negb (bool_decide (turns = [])))
    (pressed ← st_button e "Clear Chat History";
     when pressed (modify (set_consultation_history []) ;; st_rerun)).

(** The body of the rating loop for one skill (lines 1185-1235). *)
Definition rate_skill (e : Env) (category : string) (skill : Skill) : Script unit :=
  ratings ← attr skills_gap;
  match ratings !! category with
  | None => raise
  | Some rated =>
      let current_value := default 0 (rated !! skill_name skill) in
      let rating := st_slider e (skill_name skill) current_value in
      emit (Slider (skill_name skill) rating) ;;
      modify (set_skills_gap (<[category := <[skill_name skill := rating]> rated]> ratings)) ;;
      (if bool_decide (rating < weight skill)
       then emit (GapBadge (skill_name skill) (weight skill - rating))
       else emit (Proficient (skill_name skill))) ;;
      when (bool_decide (rating < weight skill))
        (for_each (resources skill)
           (λ resource, emit (Link (resource_name resource) (resource_url resource))))
  end.

(** The rating loop (lines 1169-1235); there are three tabs, so a fourth
    category raises [IndexError] at [tabs[tab_index]]. *)
Fixpoint rate_categories (e : Env) (tab_index : nat) (tbl : SkillTable) : Script unit :=
  match tbl with
  | [] => mret tt
  | (category, skills) :: rest =>
      (if bool_decide (tab_index < 3)%nat then mret tt else raise) ;;
      ratings ← attr skills_gap;
      when (bool_decide (ratings !! category = None))
        (modify (set_skills_gap (<[category := ∅]> ratings))) ;;
      for_each skills (rate_skill e category) ;;
      rate_categories e (S tab_index) rest
  end.

(** The radar chart of one category (lines 1242-1283); line 1244 raises
    [KeyError] when the category has no ratings. *)
Definition category_chart (item : string * list Skill) : Script unit :=
  let '(category, skills) := item in
  ratings ← attr skills_gap;
  match ratings !! category with
  | None => raise
  | Some rated =>
      emit (Chart category
              ((λ skill, default 0 (rated !! skill_name skill)) <$> skills)
              (weight <$> skills))
  end.

(** The entries of the learning path with their rank (lines 1320-1344). *)
Definition show_priorities (gaps : list GapEntry) : Script unit :=
  for_each (imap (λ i entry, (i, entry)) gaps)
    (λ '(i, entry),
       emit (PrioritySkill (S i) entry) ;;
       for_each (gap_resources entry)
         (λ resource, emit (Link (resource_name resource) (resource_url resource)))).

(** [display_skills_gap_analysis] (lines 1116-1378) *)
Definition display_skills_gap_analysis (e : Env) : Script unit :=
  emit (Header "🎯 Skills Gap Analysis") ;;
  emit (Text "Analyze your current skills against industry requirements, especially helpful for professionals returning to the tech industry.") ;;
  data ← attr user_data;
  if bool_decide (data = ∅) then
    emit (Warning "Please complete your profile setup first!") ;;
    pressed ← st_button e "Go to Profile Setup";
    when pressed (modify (set_page ProfileSetup) ;; st_rerun)
  else
    rated ← has skills_gap;
    when (negb rated) (modify (set_skills_gap ∅)) ;;
    timed ← has break_duration;
    when (negb timed) (modify (set_break_duration 0)) ;;
    emit (Selectbox (PyStr <$> career_options)) ;;
    let selected_career := default EmptyString (st_selectbox career_options (career_choice e)) in
    stored ← attr break_duration;
    let duration := default stored (break_input e) in
    emit (NumberInput duration) ;;
    modify (set_break_duration duration) ;;
    let industry_skills := get_industry_skills selected_career in
    when (match industry_skills with [] => false | _ => true end)
      (emit (Subheader "Skills Assessment") ;;
       rate_categories e 0 industry_skills ;;
       emit (Subheader "Gap Analysis Results") ;;
       for_each industry_skills category_chart ;;
       emit (Subheader "📚 Your Personalized Learning Path") ;;
       ratings ← attr skills_gap;
       match learning_path industry_skills ratings with
       | None => raise
       | Some all_gaps => show_priorities all_gaps
       end ;;
       emit (Subheader "📊 Progress Tracking") ;;
       ratings ← attr skills_gap;
       match progress_percentage industry_skills ratings with
       | None => raise
       | Some percentage => emit (OverallProgress percentage)
       end ;;
       pressed ← st_button e "💾 Save Progress";
       when pressed
         (emit Balloons ;;
          emit (Success "Your skills assessment has been saved! Keep tracking your progress regularly."))).

(** ** The script *)

(** The sidebar (lines 61-94). *)
Definition sidebar (e : Env) : Script unit :=
  emit (Title "Navigation") ;;
  shown ← attr page;
  emit (Radio "Choose a section:" (page_name <$> pages)) ;;
  let current_page := match event e with Navigate p => p | _ => shown end in
  when (negb (bool_decide (current_page = shown)))
    (modify (set_page current_page) ;; st_rerun) ;;
  pressed ← st_button e "Start Fresh";
  when pressed
    (modify (λ _, empty_session) ;;
     modify (set_page ProfileSetup) ;;
     st_rerun).

(** The router (lines 1381-1392). *)
Definition router (e : Env) : Script unit :=
  shown ← attr page;
  match shown with
  | ProfileSetup => display_profile_setup e
  | CareerAssessment => display_career_assessment e
  | CareerRecommendations => display_career_recommendations e
  | LearningRoadmap => display_learning_roadmap e
  | SkillsGapAnalysis => display_skills_gap_analysis e
  | LiveAIConsultation => display_live_consultation e
  end.

(** One execution of [app.py]. *)
Definition script (e : Env) : Script unit :=
  modify initialize_session_state ;;
  emit (Title "🎯 Career Compass - AI-Powered Career Mapping Tool") ;;
  emit (Text "Your intelligent guide to discovering the perfect tech career path") ;;
  paged ← has page;
  when (negb paged) (modify (set_page ProfileSetup)) ;;
  sidebar e ;;
  router e.

(** One user interaction: the execution it triggers and, when that one
    ends in [st.rerun()], the execution that follows. *)
Definition interact (e : Env) (s : SessionState) : Result unit :=
  let r := script e s in
  match flow r with
  | Halt Rerun => script (settled e) (state r)
  | _ => r
  end.

(** The session after a sequence of interactions. *)
Definition session_after (es : list Env) (s : SessionState) : SessionState :=
  foldl (λ s e, state (interact e s)) s es.

(** A browser session starts with the empty dictionary and the first
    execution of the script. *)
Definition fresh_session : SessionState :=
  state (script (mkEnv Refresh AllCareers 0 0 ∅ None CallFails None) empty_session).

(** The sessions a user can reach. *)
Inductive reachable : SessionState → Prop :=
| reachable_fresh : reachable fresh_session
| reachable_interact e s : reachable s → reachable (state (interact e s)).

(** ** Reasoning about scripts *)

(** [wp m s Q]: the execution of [m] from [s] ends in a flow, a session
    and a view that satisfy [Q]. *)
Definition wp {A : Type} (m : Script A) (s : SessionState)
    (Q : Flow A → SessionState → list Element → Prop) : Prop :=
  Q (flow (m s)) (state (m s)) (view (m s)).

(** [preserves P m]: whatever [m] does and however it ends, a session
    that satisfies [P] still does afterwards. *)
Definition preserves {A : Type} (P : SessionState → Prop) (m : Script A) : Prop :=
  ∀ s, P s → P (state (m s)).

(** Every key that the start of the script sets is present. *)
Definition initialized (s : SessionState) : Prop :=
  is_Some (chat_session s) ∧ is_Some (chat_stage s) ∧ is_Some (user_data s) ∧
  is_Some (career_preferences s) ∧ is_Some (skills_assessment s) ∧
  is_Some (career_path_recommendations s) ∧ is_Some (selected_career_path s) ∧
  is_Some (learning_roadmap s) ∧ is_Some (page s).

(** The keys of the first [n] profile questions. *)
Definition profile_keys (n : nat) : gset string :=
  list_to_set (take n profile_questions).*1.

(** The answers stored are those of the questions before the cursor. *)
Definition profile_consistent (s : SessionState) : Prop :=
  dom (default ∅ (user_data s)) = profile_keys (default 0%nat (chat_stage s)) ∧
  (default 0%nat (chat_stage s) ≤ length profile_questions)%nat.

(** A selected career path was taken from the recommendations. *)
Definition selection_consistent (s : SessionState) : Prop :=
  ∀ v, selected_career_path s = Some v →
       v = PyNone ∨ v ∈ default [] (career_path_recommendations s).

(** The answer [answer] is stored for the preference [key]. *)
Definition keeps_answer (key answer : string) (s : SessionState) : Prop :=
  ∃ preferences,
    career_preferences s = Some preferences ∧ preferences !! key = Some answer.

(** ** Readings of a view *)

(** The badge shown next to each slider, in order: the skill with its
    gap, or with [None] when it is rated proficient. *)
Definition badges (v : list Element) : list (string * option Z) :=
  omap (λ x, match x with
             | GapBadge skill gap => Some (skill, Some gap)
             | Proficient skill => Some (skill, None)
             | _ => None
             end) v.

(** The overall progress bars of a view. *)
Definition overall_progress (v : list Element) : list Q :=
  omap (λ x, match x with OverallProgress percent => Some percent | _ => None end) v.

(** The warnings of a view and the labels of its buttons. *)
Definition warnings (v : list Element) : list string :=
  omap (λ x, match x with Warning text => Some text | _ => None end) v.

Definition buttons (v : list Element) : list string :=
  omap (λ x, match x with Button label => Some label | _ => None end) v.

(** What the specification expects of a first visit of the gap analysis
    for a career path with the skill table [tbl]: every skill shows a gap
    equal to its required weight, and the overall progress is 0. *)
Definition first_visit_report (tbl : SkillTable) (v : list Element) : Prop :=
  badges v = (λ item : string * Skill, (skill_name item.2, Some (weight item.2)))
               <$> table_skills tbl ∧
  ∃ percent, overall_progress v = [percent] ∧ (percent == 0)%Q.

(** ** Interactions used in the statements *)

(** The environment [e] in which the user does [x]. *)
Definition with_event (x : Event) (e : Env) : Env :=
  mkEnv x (category e) (path_choice e) (career_choice e) (sliders e)
    (break_input e) (recommendation_reply e) (consultation_reply e).

(** No widget touched, every persistent widget at its default. *)
Definition idle : Env := mkEnv Refresh AllCareers 0 0 ∅ None CallFails None.

(** Answering the profile question shown at stage [n]. *)
Definition submit_profile (n : nat) (answer : string) : Env :=
  with_event (SubmitForm ("profile_form_" +:+ pretty n)
                {[ "profile_input_" +:+ pretty n := answer ]}) idle.

(** Submitting the assessment form with the given text areas. *)
Definition submit_assessment (answers : list (string * string)) : Env :=
  with_event (SubmitForm "career_assessment_form"
                (list_to_map ((λ '(key, text), ("career_pref_" +:+ key, text)) <$> answers)))
             idle.

(** The profile of the end-to-end example of the specification. *)
Definition jane_doe : SessionState :=
  session_after
    [submit_profile 0 "Jane Doe"; submit_profile 1 "29";
     submit_profile 2 "BSc CS"; submit_profile 3 "3 yrs backend"]
    fresh_session.

(** The career assessment answered in one submission after the profile. *)
Definition assessed : SessionState :=
  session_after
    [with_event (Navigate CareerAssessment) idle;
     submit_assessment [("interests", "data analysis"); ("work_style", "in teams");
                        ("learning_style", "by doing"); ("career_goals", "lead a team")]]
    jane_doe.

(** Opening the recommendations while the model is unavailable and
    choosing the second path offered. *)
Definition chosen_path : SessionState :=
  session_after
    [with_event (Navigate CareerRecommendations) idle;
     mkEnv Refresh AllCareers 1 0 ∅ None CallFails None]
    assessed.

(** The property of the stored selection that the specification asks for:
    once set, it is a recommendation or a key of the static tables. *)
Definition selection_valid (s : SessionState) : Prop :=
  ∀ v, selected_career_path s = Some v → v ≠ PyNone →
       ∃ recommendations,
         career_path_recommendations s = Some recommendations ∧
         (v ∈ recommendations ∨ v ∈ PyStr <$> known_career_paths).

(** The gap analysis opened with the target path at index [choice] of
    [career_options] and the sliders as given. *)
Definition open_gap_analysis (choice : nat) (moved : gmap string Z) : Env :=
  mkEnv Refresh AllCareers 0 choice moved None CallFails None.

(** ** Further parts of the pages *)

(** The month numbers under the job-postings chart (lines 347-354 of
    [plot_market_trends]): [((current_month - 5 + i) % 12) or 12] for [i]
    in [range(6)].  Each one is passed to [datetime(2000, month_num, 1)],
    which raises outside 1 to 12. *)
Definition trend_months (current_month : Z) : list Z :=
  (λ i, let month_num := (current_month - 5 + i) `mod` 12 in
        if bool_decide (month_num = 0) then 12 else month_num)
    <$> [0; 1; 2; 3; 4; 5].

(** Every stored preference answers one of the questions, with a text
    that is not empty. *)
Definition preferences_valid (s : SessionState) : Prop :=
  ∀ key answer,
    default ∅ (career_preferences s) !! key = Some answer →
    key ∈ career_preference_questions.*1 ∧ answer ≠ EmptyString.

(** No stored profile answer is empty. *)
Definition answers_nonempty (s : SessionState) : Prop :=
  ∀ key answer, default ∅ (user_data s) !! key = Some answer → answer ≠ EmptyString.

(** What the assistant answers to a question (lines 953-971). *)
Definition consultation_response (e : Env) (data : gmap string string)
    (user_question : string) : string :=
  if bool_decide (data = ∅) then
    "Please complete your profile setup first to get personalized career advice. This will help me provide more relevant guidance based on your background and interests."
  else
    match consultation_reply e with
    | Some answer => answer
    | None => keyword_response user_question
    end.

(** The ratings of one category after the loop over its skills (lines
    1185-1196): every skill gets the value of its slider, whose default is
    the rating stored before. *)
Definition rated_skills (e : Env) (skills : list Skill) (rated : gmap string Z)
    : gmap string Z :=
  foldl (λ rated skill,
           <[skill_name skill :=
               st_slider e (skill_name skill) (default 0 (rated !! skill_name skill))]> rated)
        rated skills.

(** [st.session_state.skills_gap] after the loop over the categories of a
    table (lines 1169-1196): a category without ratings starts from the
    empty dictionary. *)
Definition rated_categories (e : Env) (tbl : SkillTable)
    (ratings : gmap string (gmap string Z)) : gmap string (gmap string Z) :=
  foldl (λ ratings '(category, skills),
           <[category := rated_skills e skills (default ∅ (ratings !! category))]> ratings)
        ratings tbl.

(** The steps of the workflow depend on one another: preferences are
    stored only next to a profile, recommendations only next to
    preferences, and a career path is selected only among
    recommendations. *)
Definition workflow_gated (s : SessionState) : Prop :=
  (default ∅ (career_preferences s) ≠ ∅ → default ∅ (user_data s) ≠ ∅) ∧
  (default [] (career_path_recommendations s) ≠ [] →
   default ∅ (career_preferences s) ≠ ∅) ∧
  (truthy (default PyNone (selected_career_path s)) = true →
   default [] (career_path_recommendations s) ≠ []).

(** No rating is stored: every rating reads as 0, whether its category or
    its skill is absent or the rating stored is 0. *)
Definition unrated (ratings : gmap string (gmap string Z)) : Prop :=
  ∀ category name, rating_or_zero ratings category name = 0.

(** No slider stands above 0. *)
Definition sliders_at_zero (e : Env) : Prop :=
  ∀ name value, sliders e !! name = Some value → value = 0.

#[local] Set Warnings "-clear-no-such-hyp".

(** * Proofs *)

(** ** Rules for [wp] *)

Section wp_rules.
Context {A : Type}.
Implicit Types (s : SessionState) (Q : Flow A → SessionState → list Element → Prop).

Lemma wp_bind {B : Type} (m : Script B) (k : B → Script A) s Q :
  wp m s (λ f s1 v1,
            match f with
            | Next b => wp (k b) s1 (λ f' s2 v2, Q f' s2 (v1 ++ v2)%list)
            | Halt x => Q (Halt x) s1 v1
            end) →
  wp (m ≫= k) s Q.
Proof.
  unfold wp, mbind, script_bind.
  destruct (m s) as [[b|x] s1 v1]; simpl; [|done].
  by destruct (k b s1).
Qed.

Lemma wp_ret (a : A) s Q : Q (Next a) s [] → wp (mret a) s Q.
Proof. done. Qed.

Lemma wp_attr (field : SessionState → option A) a s Q :
  field s = Some a → Q (Next a) s [] → wp (attr field) s Q.
Proof. unfold wp, attr. by intros ->. Qed.

Lemma wp_attr_absent (field : SessionState → option A) s Q :
  field s = None → Q (Halt Raised) s [] → wp (attr field) s Q.
Proof. unfold wp, attr. by intros ->. Qed.

Lemma wp_rerun s Q : Q (Halt Rerun) s [] → wp st_rerun s Q.
Proof. done. Qed.

Lemma wp_raise s Q : Q (Halt Raised) s [] → wp raise s Q.
Proof. done. Qed.

Lemma wp_mono (m : Script A) s Q Q' :
  wp m s Q → (∀ f s' v, Q f s' v → Q' f s' v) → wp m s Q'.
Proof. unfold wp. auto. Qed.

Lemma wp_preserves (P : SessionState → Prop) (m : Script A) s :
  preserves P m → P s → wp m s (λ _ s' _, P s').
Proof. unfold wp, preserves. auto. Qed.

(** A script that preserves everything leaves the session as it is. *)
Lemma wp_read_only (m : Script A) s Q :
  (∀ P : SessionState → Prop, preserves P m) → (∀ f v, Q f s v) → wp m s Q.
Proof. intros Hm HQ. unfold wp. by rewrite (Hm (λ s', s' = s) s eq_refl). Qed.

End wp_rules.

Lemma wp_emit x s Q : Q (Next tt) s [x] → wp (emit x) s Q.
Proof. done. Qed.

Lemma wp_has {A : Type} (field : SessionState → option A) s Q :
  Q (Next (match field s with Some _ => true | None => false end)) s [] →
  wp (has field) s Q.
Proof. done. Qed.

Lemma wp_modify f s Q : Q (Next tt) (f s) [] → wp (modify f) s Q.
Proof. done. Qed.

(** Reduction of the session record, of the environment and of the
    appended views, and nothing else. *)
Tactic Notation "session_simpl" "in" hyp_list(Hs) :=
  cbn [chat_session chat_stage user_data career_preferences skills_assessment
       career_path_recommendations selected_career_path learning_roadmap page
       learning_progress consultation_history skills_gap break_duration
       set_chat_stage set_user_data set_career_preferences
       set_career_path_recommendations set_selected_career_path set_page
       set_learning_progress set_consultation_history set_skills_gap
       set_break_duration initialize_session_state empty_session
       default from_option id
       event category path_choice career_choice sliders break_input
       recommendation_reply consultation_reply settled with_event
       negb andb orb app] in Hs |- *.

Tactic Notation "session_simpl" := session_simpl in.

(** One step of symbolic execution.  A read of a key whose presence is not
    known splits into the two cases. *)
Ltac wp_step :=
  lazymatch goal with
  | |- wp (_ ≫= _) _ _ => apply wp_bind
  | |- wp (mret _) _ _ => apply wp_ret
  | |- wp (emit _) _ _ => apply wp_emit
  | |- wp (attr ?field) ?s _ =>
      first
        [ eapply wp_attr; [reflexivity|]
        | eapply wp_attr_absent; [reflexivity|]
        | let o := eval hnf in (field s) in
          is_var o; destruct o ]
  | |- wp (has _) _ _ => apply wp_has
  | |- wp (modify _) _ _ => apply wp_modify
  | |- wp st_rerun _ _ => apply wp_rerun
  | |- wp raise _ _ => apply wp_raise
  | |- wp (when true _) _ _ => unfold when at 1
  | |- wp (when false _) _ _ => unfold when at 1
  | |- wp (if true then _ else _) _ _ => cbv iota
  | |- wp (if false then _ else _) _ _ => cbv iota
  | |- wp (st_button _ _) _ _ => unfold st_button at 1
  | |- wp (st_progress _) _ _ => unfold st_progress at 1
  | |- wp (for_each [] _) _ _ => cbn [for_each]
  | |- wp (for_each (_ :: _) _) _ _ => cbn [for_each]
  end; cbv beta zeta; session_simpl.

(** [mentions_hypothesis t]: some variable of the context occurs in [t]. *)
Ltac mentions_hypothesis t :=
  match goal with
  | x : _ |- _ => lazymatch t with context [x] => idtac end
  end.

(** The tests on a reply of the agent or on lowered text that is not known
    are left to the case analysis. *)
Ltac wp_unknown b :=
  lazymatch b with
  | context [try_recommendations ?reply] => mentions_hypothesis reply
  | context [lower ?text] => mentions_hypothesis text
  | context [keyword_response ?text] => mentions_hypothesis text
  end.

(** A test is decided by computation where that yields its value. *)
Ltac wp_compute b :=
  first
    [ wp_unknown b; fail 1
    | let v := eval vm_compute in b in
      lazymatch v with
      | true => change b with true
      | false => change b with false
      | Some ?x => change b with (Some x)
      | @None ?T => change b with (@None T)
      end ].

Ltac wp_test :=
  lazymatch goal with
  | |- wp (when ?b _) _ _ => wp_compute b
  | |- wp (if ?b then _ else _) _ _ => wp_compute b
  | |- wp (match ?x with _ => _ end) _ _ => wp_compute x
  end; cbv beta iota zeta; session_simpl.

(** The execution splits on the tests that depend on the unknowns. *)
Ltac wp_split :=
  lazymatch goal with
  | |- wp (when ?b _) _ _ => destruct b eqn:?
  | |- wp (if ?b then _ else _) _ _ => destruct b eqn:?
  | |- wp (match ?x with _ => _ end) _ _ => destruct x eqn:?
  end; cbv beta iota zeta; session_simpl.

Ltac wp_auto := repeat first [wp_step | wp_test].

Ltac wp_run := repeat first [wp_step | wp_test | wp_split].

(** ** Rules for [preserves] *)

Section preserves_rules.
Context (P : SessionState → Prop).

Lemma preserves_bind {A B : Type} (m : Script A) (k : A → Script B) :
  preserves P m → (∀ a, preserves P (k a)) → preserves P (m ≫= k).
Proof.
  intros Hm Hk s HP. specialize (Hm s HP).
  unfold mbind, script_bind. destruct (m s) as [[a|x] s1 v1]; simpl in *; [|done].
  specialize (Hk a s1 Hm). by destruct (k a s1).
Qed.

Lemma preserves_ret {A : Type} (a : A) : preserves P (mret a).
Proof. by intros s. Qed.

Lemma preserves_emit x : preserves P (emit x).
Proof. by intros s. Qed.

Lemma preserves_attr {A : Type} (field : SessionState → option A) :
  preserves P (attr field).
Proof. intros s HP. unfold attr. by destruct (field s). Qed.

Lemma preserves_has {A : Type} (field : SessionState → option A) :
  preserves P (has field).
Proof. by intros s. Qed.

Lemma preserves_modify f : (∀ s, P s → P (f s)) → preserves P (modify f).
Proof. intros Hf s. apply Hf. Qed.

Lemma preserves_rerun {A : Type} : preserves P (@st_rerun A).
Proof. by intros s. Qed.

Lemma preserves_raise {A : Type} : preserves P (@raise A).
Proof. by intros s. Qed.

Lemma preserves_when b m : preserves P m → preserves P (when b m).
Proof. intros Hm. destruct b; [done|]. apply preserves_ret. Qed.

Lemma preserves_for_each {A : Type} (l : list A) body :
  (∀ x, preserves P (body x)) → preserves P (for_each l body).
Proof.
  intros Hbody. induction l as [|x l IH]; simpl.
  - apply preserves_ret.
  - apply preserves_bind; auto.
Qed.

Lemma preserves_button e label : preserves P (st_button e label).
Proof.
  apply preserves_bind; [apply preserves_emit|]. intros _. apply preserves_ret.
Qed.

Lemma preserves_progress value : preserves P (st_progress value).
Proof.
  unfold st_progress. case_bool_decide; [apply preserves_emit|apply preserves_raise].
Qed.

End preserves_rules.

Create HintDb preserves discriminated.

#[local] Hint Resolve preserves_ret preserves_emit preserves_attr preserves_has
  preserves_rerun preserves_raise preserves_button preserves_progress : preserves.

(** Structural proof of [preserves P m]: the rules above along the shape
    of [m]; the writes are left to the hypotheses on [P]. *)
Ltac preserves_step :=
  lazymatch goal with
  | |- preserves _ (_ ≫= _) => apply preserves_bind; [|intros ?]
  | |- preserves _ (when _ _) => apply preserves_when
  | |- preserves _ (for_each _ _) => apply preserves_for_each; intros ?
  | |- preserves _ (modify _) => apply preserves_modify; intros ? ?; eauto
  | |- preserves _ (if ?b then _ else _) => destruct b
  | |- preserves _ (match ?x with _ => _ end) => destruct x
  | |- preserves _ (let '(_, _) := ?x in _) => destruct x
  | |- preserves _ _ => solve [eauto with preserves]
  end.

Ltac solve_preserves := repeat preserves_step.

(** *** What each page writes

    A page preserves every property that survives the writes it can make. *)

Section footprints.
Context (P : SessionState → Prop) (e : Env).

Lemma profile_setup_writes :
  (∀ d s, P s → P (set_user_data d s)) →
  (∀ n s, P s → P (set_chat_stage n s)) →
  (∀ p s, P s → P (set_page p s)) →
  preserves P (display_profile_setup e).
Proof. intros. unfold display_profile_setup. solve_preserves. Qed.

Lemma career_assessment_writes :
  (∀ d s, P s → P (set_career_preferences d s)) →
  (∀ p s, P s → P (set_page p s)) →
  preserves P (display_career_assessment e).
Proof. intros. unfold display_career_assessment. solve_preserves. Qed.

Lemma plot_market_trends_reads data : preserves P (plot_market_trends e data).
Proof. unfold plot_market_trends. solve_preserves. Qed.

Lemma career_path_details_reads path : preserves P (display_career_path_details path).
Proof. unfold display_career_path_details. solve_preserves. Qed.

Lemma career_recommendations_writes :
  (∀ l s, P s → P (set_career_path_recommendations l s)) →
  (∀ v s, P s → P (set_selected_career_path v s)) →
  preserves P (display_career_recommendations e).
Proof.
  intros. pose proof plot_market_trends_reads. pose proof career_path_details_reads.
  unfold display_career_recommendations. solve_preserves.
Qed.

Lemma learning_roadmap_writes :
  (∀ l s, P s → P (set_learning_progress l s)) →
  (∀ p s, P s → P (set_page p s)) →
  preserves P (display_learning_roadmap e).
Proof.
  intros. unfold display_learning_roadmap, show_course. solve_preserves.
Qed.

Lemma live_consultation_writes :
  (∀ l s, P s → P (set_consultation_history l s)) →
  (∀ p s, P s → P (set_page p s)) →
  preserves P (display_live_consultation e).
Proof. intros. unfold display_live_consultation. solve_preserves. Qed.

Lemma rate_categories_writes i tbl :
  (∀ g s, P s → P (set_skills_gap g s)) →
  preserves P (rate_categories e i tbl).
Proof.
  intros. revert i. induction tbl as [|[category skills] tbl IH]; intros i; simpl.
  - apply preserves_ret.
  - unfold rate_skill. solve_preserves.
Qed.

Lemma skills_gap_analysis_writes :
  (∀ g s, P s → P (set_skills_gap g s)) →
  (∀ q s, P s → P (set_break_duration q s)) →
  (∀ p s, P s → P (set_page p s)) →
  preserves P (display_skills_gap_analysis e).
Proof.
  intros. pose proof rate_categories_writes.
  unfold display_skills_gap_analysis, category_chart, show_priorities.
  solve_preserves.
Qed.

End footprints.

#[local] Hint Resolve plot_market_trends_reads career_path_details_reads : preserves.

(** Symbolic execution steps over a script that writes nothing. *)
Ltac wp_skip :=
  apply wp_read_only; [intros; solve [solve_preserves] | intros [[]|?] ?].

Ltac wp_run_all := repeat first [wp_step | wp_test | wp_split | wp_skip].

(** ** The whole script *)

Lemma pressed_start_fresh e :
  match event e with Press l => String.eqb l "Start Fresh" | _ => false end = true →
  event e = Press "Start Fresh".
Proof.
  destruct (event e); try discriminate. intros ->%String.eqb_eq. reflexivity.
Qed.

Section script_invariants.
Context (P : SessionState → Prop).
Hypothesis P_initialize : ∀ s, P s → P (initialize_session_state s).
Hypothesis P_page : ∀ p s, P s → P (set_page p s).

Lemma router_preserves e :
  preserves P (display_profile_setup e) →
  preserves P (display_career_assessment e) →
  preserves P (display_career_recommendations e) →
  preserves P (display_learning_roadmap e) →
  preserves P (display_skills_gap_analysis e) →
  preserves P (display_live_consultation e) →
  preserves P (router e).
Proof. intros. unfold router. solve_preserves. Qed.

(** One execution keeps [P] when the pages do, provided the cleared
    session satisfies [P] in case the execution is a reset. *)
Lemma script_preserves e :
  (event e = Press "Start Fresh" → P (set_page ProfileSetup empty_session)) →
  preserves P (router e) →
  preserves P (script e).
Proof.
  intros Hclear Hrouter s HP.
  change (wp (script e) s (λ _ s' _, P s')).
  apply P_initialize in HP. revert HP.
  destruct s as [? ? ? ? ? ? ? ? [shown|] ? ? ? ?]; session_simpl; intros HP;
    unfold script, sidebar; wp_run; eauto using pressed_start_fresh;
    try (apply wp_preserves; eauto).
Qed.

Lemma interact_preserves e :
  (event e = Press "Start Fresh" → P (set_page ProfileSetup empty_session)) →
  preserves P (router e) →
  preserves P (router (settled e)) →
  ∀ s, P s → P (state (interact e s)).
Proof.
  intros Hclear Hrouter Hsettled s HP. unfold interact.
  pose proof (script_preserves e Hclear Hrouter s HP) as Hfirst.
  destruct (flow (script e s)) as [|[|]]; try done.
  apply script_preserves; [done|done|done].
Qed.

End script_invariants.

(** ** Invariants of the reachable sessions *)

(** The session once the first lines of the script have run. *)
Lemma script_started e s :
  script e (set_page (default ProfileSetup (page s)) (initialize_session_state s))
  = script e s.
Proof.
  unfold script, mbind, script_bind, modify, has.
  destruct s as [[] [] [] [] [] [] [] [] [] ? ? ? ?]; reflexivity.
Qed.

Lemma script_reset e s :
  event e = Press "Start Fresh" →
  flow (script e s) = Halt Rerun ∧
  state (script e s) = set_page ProfileSetup empty_session.
Proof.
  destruct e; simpl; intros ->.
  destruct s as [? ? ? ? ? ? ? ? [[]|] ? ? ? ?]; split; reflexivity.
Qed.

Ltac unfold_invariants :=
  unfold initialized, profile_consistent, selection_consistent, keeps_answer in *;
  repeat match goal with H : _ |- _ => progress session_simpl in H end;
  session_simpl.

Lemma router_initialized e : preserves initialized (router e).
Proof.
  apply router_preserves;
    [ apply profile_setup_writes | apply career_assessment_writes
    | apply career_recommendations_writes | apply learning_roadmap_writes
    | apply skills_gap_analysis_writes | apply live_consultation_writes ];
    intros; unfold_invariants; intuition eauto using mk_is_Some.
Qed.

Lemma script_initialized e s :
  event e ≠ Press "Start Fresh" → initialized (state (script e s)).
Proof.
  intros Hevent. rewrite <- script_started.
  apply (script_preserves initialized).
  - intros; unfold_invariants; intuition eauto using mk_is_Some.
  - intros; unfold_invariants; intuition eauto using mk_is_Some.
  - done.
  - apply router_initialized.
  - unfold_invariants. intuition eauto using mk_is_Some.
Qed.

Lemma start_fresh_or_not e :
  event e = Press "Start Fresh" ∨ event e ≠ Press "Start Fresh".
Proof.
  destruct (event e) as [| |label| |]; try (right; discriminate).
  destruct (decide (label = "Start Fresh")) as [->|]; [by left|right; congruence].
Qed.

Lemma interact_initialized e s : initialized (state (interact e s)).
Proof.
  unfold interact.
  destruct (start_fresh_or_not e) as [Hreset|Hother].
  - destruct (script_reset e s Hreset) as [-> _]. by apply script_initialized.
  - pose proof (script_initialized e s Hother).
    destruct (flow (script e s)) as [|[|]]; try done. by apply script_initialized.
Qed.

Lemma reachable_initialized s : reachable s → initialized s.
Proof.
  destruct 1; [|apply interact_initialized].
  unfold_invariants. vm_compute. intuition eauto using mk_is_Some.
Qed.

(** *** The stored profile answers *)

Lemma profile_keys_next n key question :
  profile_questions !! n = Some (key, question) →
  profile_keys (n + 1) = {[key]} ∪ profile_keys n.
Proof.
  intros Hn. unfold profile_keys. rewrite Nat.add_1_r.
  rewrite (take_S_r _ _ _ Hn), fmap_app, list_to_set_app_L. simpl. set_solver.
Qed.

Lemma profile_key_fresh n key question :
  profile_questions !! n = Some (key, question) → key ∉ profile_keys n.
Proof.
  unfold profile_keys.
  destruct n as [|[|[|[|n]]]]; simpl; intros [= <- <-]; set_solver.
Qed.

Lemma profile_setup_consistent e : preserves profile_consistent (display_profile_setup e).
Proof.
  intros s HP. change (wp (display_profile_setup e) s (λ _ s' _, profile_consistent s')).
  destruct s; unfold display_profile_setup; wp_run; try done.
  all: unfold_invariants; destruct HP as [Hdom Hlen].
  all: match goal with H : profile_questions !! _ = Some _ |- _ => rename H into Hq end.
  all: split; [|apply lookup_lt_Some in Hq; lia].
  all: rewrite dom_insert_L, Hdom; symmetry; by eapply profile_keys_next.
Qed.

Lemma router_profile_consistent e : preserves profile_consistent (router e).
Proof.
  apply router_preserves;
    [ apply profile_setup_consistent | apply career_assessment_writes
    | apply career_recommendations_writes | apply learning_roadmap_writes
    | apply skills_gap_analysis_writes | apply live_consultation_writes ];
    intros; unfold_invariants; done.
Qed.

Lemma reachable_profile_consistent s : reachable s → profile_consistent s.
Proof.
  induction 1 as [|e s _ IH].
  - split; [reflexivity|vm_compute; lia].
  - apply interact_preserves.
    + clear. intros s HP. destruct s as [? [] [] ? ? ? ? ? ? ? ? ? ?]; unfold_invariants; done.
    + clear. intros p s HP. unfold_invariants. done.
    + intros _. split; [reflexivity|vm_compute; lia].
    + apply router_profile_consistent.
    + apply router_profile_consistent.
    + exact IH.
Qed.

(** *** Submissions of the profile form *)

Lemma profile_refresh e s :
  initialized s → page s = Some ProfileSetup → event e = Refresh →
  state (script e s) = s ∧ flow (script e s) ≠ Halt Rerun.
Proof.
  intros Hinit Hpage Hevent.
  change (wp (script e) s (λ f s' _, s' = s ∧ f ≠ Halt Rerun)).
  destruct s, e; unfold_invariants; subst.
  destruct Hinit as ([? ->] & [? ->] & [? ->] & [? ->] & [? ->] & [? ->] & [? ->] & [? ->] & _).
  unfold script, sidebar, router, display_profile_setup.
  wp_run; done.
Qed.

Lemma profile_submit_script s e fields n data key question :
  initialized s → page s = Some ProfileSetup →
  chat_stage s = Some n → user_data s = Some data →
  profile_questions !! n = Some (key, question) →
  event e = SubmitForm ("profile_form_" +:+ pretty n) fields →
  let answer := default EmptyString (fields !! ("profile_input_" +:+ pretty n)) in
  if String.eqb answer EmptyString
  then state (script e s) = s ∧ flow (script e s) ≠ Halt Rerun
  else state (script e s) = set_chat_stage (n + 1) (set_user_data (<[key := answer]> data) s)
       ∧ flow (script e s) = Halt Rerun.
Proof.
  intros Hinit Hpage Hstage Hdata Hq Hevent answer.
  destruct s, e; unfold_invariants; subst.
  destruct Hinit as ([? ->] & _ & _ & [? ->] & [? ->] & [? ->] & [? ->] & [? ->] & _).
  destruct n as [|[|[|[|n]]]]; try discriminate; injection Hq as <- <-.
  all: destruct (String.eqb answer EmptyString) eqn:Hanswer.
  all: lazymatch goal with
       | |- state (script ?e ?s) = ?s1 ∧ _ ≠ ?x =>
           change (wp (script e) s (λ f s' _, s' = s1 ∧ f ≠ x))
       | |- state (script ?e ?s) = ?s1 ∧ _ = ?x =>
           change (wp (script e) s (λ f s' _, s' = s1 ∧ f = x))
       end.
  all: unfold script, sidebar, router, display_profile_setup; wp_run.
  all: subst answer; cbn [field_value form_submitted event] in *.
  all: rewrite ?String.eqb_refl, ?Hanswer in *; cbn [andb negb] in *.
  all: try discriminate; done.
Qed.

(** C6.  A submission of the Profile Setup form, from any session the user
    can reach: with a non-empty answer the cursor [chat_stage] moves by
    exactly one, [user_data] gains one entry that was not there before,
    under the key of the question shown, and nothing else in the session
    changes; with an empty answer the session stays as it is.  The form is
    shown as long as a question is left, so the statement covers every
    sequence of submissions. *)
Theorem profile_submission_advances_by_one s e fields n data key question :
  reachable s → page s = Some ProfileSetup →
  chat_stage s = Some n → user_data s = Some data →
  profile_questions !! n = Some (key, question) →
  event e = SubmitForm ("profile_form_" +:+ pretty n) fields →
  let answer := default EmptyString (fields !! ("profile_input_" +:+ pretty n)) in
  let s' := state (interact e s) in
  (answer ≠ EmptyString →
     data !! key = None ∧
     chat_stage s' = Some (S n) ∧
     user_data s' = Some (<[key := answer]> data) ∧
     size (<[key := answer]> data) = S (size data) ∧
     s' = set_chat_stage (S n) (set_user_data (<[key := answer]> data) s)) ∧
  (answer = EmptyString → s' = s).
Proof.
  intros Hreach Hpage Hstage Hdata Hq Hevent answer s'.
  pose proof (reachable_initialized s Hreach) as Hinit.
  pose proof (reachable_profile_consistent s Hreach) as [Hdom _].
  rewrite Hstage, Hdata in Hdom; simpl in Hdom.
  pose proof (profile_submit_script s e fields n data key question
                Hinit Hpage Hstage Hdata Hq Hevent) as Hrun.
  cbv zeta in Hrun. fold answer in Hrun. subst s'. unfold interact.
  split; intros Hanswer.
  - apply String.eqb_neq in Hanswer. rewrite Hanswer in Hrun.
    destruct Hrun as [Hstate ->].
    assert (data !! key = None) as Hfresh.
    { apply not_elem_of_dom. rewrite Hdom. by eapply profile_key_fresh. }
    assert (state (script (settled e) (state (script e s))) = state (script e s)) as ->.
    { apply profile_refresh; [|by rewrite Hstate; destruct s|done].
      rewrite Hstate. destruct s; unfold_invariants; intuition eauto using mk_is_Some. }
    rewrite Hstate, Nat.add_1_r.
    split_and!; try done; try (by destruct s).
    by apply map_size_insert_None.
  - apply String.eqb_eq in Hanswer. rewrite Hanswer in Hrun.
    destruct Hrun as [Hstate Hflow].
    by destruct (flow (script e s)) as [|[|]].
Qed.

Lemma profile_submission_advances_by_one_witness :
  let s' := state (interact (submit_profile 0 "Jane Doe") fresh_session) in
  chat_stage s' = Some 1%nat ∧ user_data s' = Some {[ "Full Name" := "Jane Doe" ]}.
Proof.
  pose proof (profile_submission_advances_by_one
                fresh_session (submit_profile 0 "Jane Doe")
                {[ "profile_input_0" := "Jane Doe" ]} 0 ∅
                "Full Name" "What is your full name?"
                reachable_fresh eq_refl eq_refl eq_refl eq_refl eq_refl) as [Hfilled _].
  destruct Hfilled as (_ & Hstage & Hdata & _).
  - vm_compute. discriminate.
  - split; [exact Hstage|]. rewrite Hdata. vm_compute. reflexivity.
Defined.

(** *** The selected career path *)

Lemma selectbox_elem_of {A : Type} (options : list A) choice x :
  st_selectbox options choice = Some x → x ∈ options.
Proof.
  unfold st_selectbox. destruct (options !! choice) as [y|] eqn:Hy.
  - intros [= <-]. by eapply list_elem_of_lookup_2.
  - destruct options; [done|]. intros [= <-]. by left.
Qed.

Lemma shown_paths_elem_of chosen all_paths path :
  path ∈ shown_paths chosen all_paths → path ∈ all_paths.
Proof.
  unfold shown_paths. destruct chosen; [done|..];
    by intros [_ ?]%list_elem_of_filter.
Qed.

Lemma career_recommendations_consistent e :
  preserves selection_consistent (display_career_recommendations e).
Proof.
  intros s HP.
  change (wp (display_career_recommendations e) s (λ _ s' _, selection_consistent s')).
  destruct s; unfold display_career_recommendations.
  wp_run_all.
  all: unfold_invariants; intros selected Hselected.
  all: repeat match goal with
         | H : st_selectbox _ _ = Some _ |- _ => apply selectbox_elem_of in H
         | H : _ ∈ shown_paths _ _ |- _ => apply shown_paths_elem_of in H
         | H : negb _ = true |- _ => apply negb_true_iff in H
         | H : truthy (PyList ?l) = false |- _ => destruct l; [clear H|discriminate H]
         end.
  all: first
         [ injection Hselected as <-; right; assumption
         | destruct (HP _ Hselected) as [->|Hin];
           [by left | first [by right | by apply elem_of_nil in Hin]] ].
Qed.

Lemma router_selection_consistent e : preserves selection_consistent (router e).
Proof.
  apply router_preserves;
    [ apply profile_setup_writes | apply career_assessment_writes
    | apply career_recommendations_consistent | apply learning_roadmap_writes
    | apply skills_gap_analysis_writes | apply live_consultation_writes ];
    intros; unfold_invariants; done.
Qed.

Lemma reachable_selection_consistent s : reachable s → selection_consistent s.
Proof.
  induction 1 as [|e s _ IH].
  - intros v [= <-]. by left.
  - apply interact_preserves.
    + clear. intros s HP. destruct s as [? ? ? ? ? [] [] ? ? ? ? ? ?]; unfold_invariants; try done.
      all: intros v [= <-]; by left.
    + clear. intros p s HP. unfold_invariants. done.
    + intros _ v [=].
    + apply router_selection_consistent.
    + apply router_selection_consistent.
    + exact IH.
Qed.

(** C9.  In every session the user can reach, and after any further
    execution of the script from it, a selected career path that is not
    [None] is one of the stored recommendations (so it is in the
    recommendations or among the keys of the static tables).  The only
    write of [selected_career_path] is the selectbox of the recommendations
    page, whose options are taken from the recommendations, and the
    recommendations are replaced only while they are empty. *)
Theorem selected_path_is_recommended s e :
  reachable s →
  selection_valid s ∧ selection_valid (state (script e s)).
Proof.
  intros Hreach.
  pose proof (reachable_selection_consistent s Hreach) as Hs.
  assert (selection_consistent (state (script e s))) as Hs'.
  { apply script_preserves.
    - clear. intros s HP. destruct s as [? ? ? ? ? [] [] ? ? ? ? ? ?]; unfold_invariants; try done.
      all: intros v [= <-]; by left.
    - clear. intros p s HP. unfold_invariants. done.
    - intros _ v [=].
    - apply router_selection_consistent.
    - exact Hs. }
  assert (∀ s0, selection_consistent s0 →
                (is_Some (selected_career_path s0) → is_Some (career_path_recommendations s0)) →
                selection_valid s0) as Hvalid.
  { intros s0 Hcons Hsome v Hv Hnone.
    destruct (Hsome (mk_is_Some _ _ Hv)) as [recs Hrecs]. exists recs. split; [done|].
    destruct (Hcons v Hv) as [->|Hin]; [congruence|]. rewrite Hrecs in Hin. by left. }
  split; apply Hvalid; try done.
  - intros _. by destruct (reachable_initialized s Hreach) as (_ & _ & _ & _ & _ & ? & _).
  - destruct (start_fresh_or_not e) as [Hreset|Hother].
    + destruct (script_reset e s Hreset) as [_ ->]. by intros [? [=]].
    + intros _. by destruct (script_initialized e s Hother) as (_ & _ & _ & _ & _ & ? & _).
Qed.

Lemma session_after_reachable es s : reachable s → reachable (session_after es s).
Proof.
  revert s. induction es as [|e es IH]; intros s Hs; [done|].
  apply IH. by constructor.
Qed.

Lemma selected_path_is_recommended_witness :
  ∃ recommendations,
    career_path_recommendations chosen_path = Some recommendations ∧
    (PyStr "Data Science" ∈ recommendations ∨
     PyStr "Data Science" ∈ PyStr <$> known_career_paths).
Proof.
  destruct (selected_path_is_recommended chosen_path idle) as [Hvalid _].
  - unfold chosen_path, assessed, jane_doe. do 3 apply session_after_reachable. apply reachable_fresh.
  - apply Hvalid; [vm_compute; reflexivity|discriminate].
Defined.

(** *** The stored preferences *)

Lemma assessment_responses_unanswered e preferences key response :
  (key, response) ∈ assessment_responses e preferences → preferences !! key = None.
Proof.
  unfold assessment_responses. rewrite list_elem_of_omap.
  intros ([k q] & _ & Hkq). by destruct (preferences !! k) eqn:Hk; simplify_eq.
Qed.

Lemma store_responses_other responses preferences key :
  key ∉ responses.*1 →
  store_responses responses preferences !! key = preferences !! key.
Proof.
  unfold store_responses. revert preferences.
  induction responses as [|[k r] responses IH]; intros preferences Hkey; [done|].
  rewrite fmap_cons, not_elem_of_cons in Hkey. destruct Hkey as [Hk Hrest]. simpl in Hk.
  simpl. rewrite IH by done. destruct (String.eqb r EmptyString); [done|].
  by rewrite lookup_insert_ne.
Qed.

Lemma store_responses_keeps e preferences key answer :
  preferences !! key = Some answer →
  store_responses (assessment_responses e preferences) preferences !! key = Some answer.
Proof.
  intros Hkey. rewrite store_responses_other; [done|].
  intros ([k r] & -> & Hin)%list_elem_of_fmap.
  apply assessment_responses_unanswered in Hin. simpl in *. congruence.
Qed.

Lemma career_assessment_keeps e key answer :
  preserves (keeps_answer key answer) (display_career_assessment e).
Proof.
  intros s HP.
  change (wp (display_career_assessment e) s (λ _ s' _, keeps_answer key answer s')).
  destruct s; unfold display_career_assessment. wp_run_all.
  all: unfold_invariants; try assumption.
  all: destruct HP as (preferences & [= <-] & Hkey).
  all: eexists; split; [reflexivity|]; first [assumption | by apply store_responses_keeps].
Qed.

Lemma router_keeps_answer e key answer : preserves (keeps_answer key answer) (router e).
Proof.
  apply router_preserves;
    [ apply profile_setup_writes | apply career_assessment_keeps
    | apply career_recommendations_writes | apply learning_roadmap_writes
    | apply skills_gap_analysis_writes | apply live_consultation_writes ];
    intros; unfold_invariants; done.
Qed.

Lemma interact_keeps_answer e s key answer :
  event e ≠ Press "Start Fresh" →
  keeps_answer key answer s → keeps_answer key answer (state (interact e s)).
Proof.
  intros Hevent. apply interact_preserves.
  - clear. intros s (preferences & Hprefs & Hkey). exists preferences.
    destruct s; unfold_invariants. by subst.
  - clear. intros p s HP. unfold_invariants. done.
  - done.
  - apply router_keeps_answer.
  - apply router_keeps_answer.
Qed.

(** C10.  An answer stored for a career preference stays as it is through
    every later interaction other than Start Fresh, submissions of the
    assessment form included: the form offers a text area only for the
    questions without a stored answer, so a submission cannot carry a value
    for an answered one. *)
Theorem stored_preference_is_kept es e s key answer :
  Forall (λ e, event e ≠ Press "Start Fresh") es →
  keeps_answer key answer s →
  keeps_answer key answer (session_after es s) ∧
  ∀ preferences,
    career_preferences s = Some preferences →
    key ∉ (assessment_responses e preferences).*1.
Proof.
  intros Hes Hs. split.
  - revert s Hs. induction Hes as [|e' es He' _ IH]; intros s Hs; [done|].
    apply IH. by apply interact_keeps_answer.
  - intros preferences Hprefs ([k r] & -> & Hin)%list_elem_of_fmap.
    apply assessment_responses_unanswered in Hin.
    destruct Hs as (? & ? & ?). simpl in *. congruence.
Qed.

Lemma stored_preference_is_kept_witness :
  keeps_answer "interests" "data analysis"
    (session_after
       [submit_assessment [("interests", "something else")];
        with_event (Navigate CareerRecommendations) idle]
       assessed).
Proof.
  apply (stored_preference_is_kept _ idle).
  - repeat constructor; discriminate.
  - eexists. split; vm_compute; reflexivity.
Defined.

(** ** Reset and the end-to-end profile *)

(** C7.  The Start Fresh button, pressed in any session whatever (a
    reachable one in particular), leaves the session of a first visit:
    [chat_stage] 0, the page Profile Setup, every collection empty, no
    path selected, and none of the keys that the pages create later. *)
Theorem start_fresh_yields_fresh_session e s :
  state (interact (with_event (Press "Start Fresh") e) s) = fresh_session ∧
  chat_stage fresh_session = Some 0%nat ∧
  page fresh_session = Some ProfileSetup ∧
  user_data fresh_session = Some ∅ ∧
  career_preferences fresh_session = Some ∅ ∧
  skills_assessment fresh_session = Some ∅ ∧
  career_path_recommendations fresh_session = Some [] ∧
  selected_career_path fresh_session = Some PyNone ∧
  learning_roadmap fresh_session = Some PyNone ∧
  chat_session fresh_session = Some (mkChatSession []) ∧
  learning_progress fresh_session = None ∧
  consultation_history fresh_session = None ∧
  skills_gap fresh_session = None ∧
  break_duration fresh_session = None.
Proof.
  split; [|split_and!; vm_compute; reflexivity].
  unfold interact.
  destruct (script_reset (with_event (Press "Start Fresh") e) s eq_refl) as [-> ->].
  reflexivity.
Qed.

(** C8.  The four answers of the example, submitted in order from a fresh
    session, leave exactly the four question keys in [user_data] with the
    answers given, and the cursor at the number of questions: the page
    then shows the completion message instead of a form.  The keys are
    those of [profile_questions], "Full Name" and "Technical Background"
    with their space. *)
Theorem jane_doe_profile_is_complete :
  user_data jane_doe
  = Some {[ "Full Name" := "Jane Doe"; "Age" := "29"; "Education" := "BSc CS";
            "Technical Background" := "3 yrs backend" ]} ∧
  dom <$> user_data jane_doe = Some (list_to_set profile_questions.*1) ∧
  chat_stage jane_doe = Some (length profile_questions) ∧
  profile_questions !! length profile_questions = None ∧
  view (display_profile_setup idle jane_doe)
  = [Header "Profile Setup"; Progress 100;
     Subheader "Your Profile Information:";
     Items {[ "Full Name" := "Jane Doe"; "Age" := "29"; "Education" := "BSc CS";
              "Technical Background" := "3 yrs backend" ]};
     Success "Profile setup completed! Please proceed to Career Assessment.";
     Button "Go to Career Assessment"].
Proof. split_and!; vm_compute; reflexivity. Qed.

(** ** The fallback recommendations *)

Lemma selectbox_is_Some {A : Type} (options : list A) choice :
  options ≠ [] → is_Some (st_selectbox options choice).
Proof.
  unfold st_selectbox. destruct (options !! choice); [by eexists|].
  destruct options; [done|]. by eexists.
Qed.

(** The replies for which the [try] block raises. *)
Lemma try_recommendations_fails reply :
  try_recommendations reply = None ↔
  reply = CallFails ∨ reply = Returns None ∨
  ∃ data, reply = Returns (Some data) ∧ recommended_paths data = None.
Proof.
  destruct reply as [|[data|]]; simpl; split; try naive_solver.
Qed.

(** The rendering of a selected path never stops the page. *)
Lemma wp_completes (m : Script unit) s Q :
  (∀ s', flow (m s') = Next tt ∧ state (m s') = s') →
  (∀ v, Q (Next tt) s v) → wp m s Q.
Proof. intros Hm HQ. unfold wp. destruct (Hm s) as [-> ->]. apply HQ. Qed.

Lemma for_each_completes {A : Type} (l : list A) (body : A → Script unit) s :
  (∀ x s', flow (body x s') = Next tt ∧ state (body x s') = s') →
  flow (for_each l body s) = Next tt ∧ state (for_each l body s) = s.
Proof.
  intros Hbody. induction l as [|x l IH]; [done|].
  simpl. unfold mbind, script_bind.
  specialize (Hbody x s). destruct (body x s) as [f s1 v1].
  simpl in Hbody. destruct Hbody as [-> ->].
  destruct (for_each l body s) as [f2 s2 v2]. simpl in *. by destruct IH as [-> ->].
Qed.

Lemma plot_market_trends_completes e data s :
  flow (plot_market_trends e data s) = Next tt ∧ state (plot_market_trends e data s) = s.
Proof.
  change (wp (plot_market_trends e data) s (λ f s' _, f = Next tt ∧ s' = s)).
  unfold plot_market_trends. do 4 wp_step.
  pose proof (for_each_completes (trending_skills data)
                (λ skill, _ ← st_button e skill; mret tt) s) as Hloop.
  unfold wp. by destruct Hloop as [-> ->].
Qed.

Lemma career_path_details_completes path s :
  flow (display_career_path_details path s) = Next tt ∧
  state (display_career_path_details path s) = s.
Proof.
  unfold display_career_path_details.
  destruct path; try done. by destruct (lookup_key _ _).
Qed.

(** Whatever the category and the index chosen, the selectbox over the
    fallback list returns one of its names. *)
Lemma fallback_selection chosen choice :
  ∃ name,
    st_selectbox (shown_paths chosen fallback_recommendations) choice = Some (PyStr name) ∧
    truthy (PyStr name) = true.
Proof.
  destruct (selectbox_is_Some (shown_paths chosen fallback_recommendations) choice)
    as [path Hpath]; [by destruct chosen|].
  pose proof (selectbox_elem_of _ _ _ Hpath) as Hin.
  apply shown_paths_elem_of in Hin. unfold fallback_recommendations in Hin.
  rewrite Hpath.
  repeat (apply elem_of_cons in Hin as [->|Hin]; [by eexists|]).
  by apply elem_of_nil in Hin.
Qed.

(** The [try] block raises on the replies of these shapes and on no
    other. *)
Lemma try_recommendations_raises reply :
  try_recommendations reply = None ↔ extraction_raises reply.
Proof.
  unfold try_recommendations, extraction_raises.
  destruct reply as [|[data|]]; [done| |done].
  simpl. unfold recommended_paths.
  destruct (subscript data "recommended_paths") as [value|]; simpl; [|done].
  destruct (iterate value) as [entries|]; simpl; [|done].
  split.
  - intros Hnone.
    destruct (decide (Forall (is_Some ∘ (λ entry, subscript entry "career_path")) entries))
      as [Hall|Hsome].
    + apply mapM_is_Some in Hall as [paths Hpaths]. congruence.
    + apply not_Forall_Exists in Hsome; [|apply _].
      eapply Exists_impl; [exact Hsome|]. simpl. intros entry Hentry.
      destruct (subscript entry "career_path"); [|done]. by destruct Hentry.
  - intros Hsome.
    destruct (mapM _ entries) as [paths|] eqn:Hpaths; [|done].
    assert (is_Some (mapM (λ entry, subscript entry "career_path") entries)) as Hall
      by (by eexists).
    apply mapM_is_Some in Hall.
    apply Exists_exists in Hsome as (entry & Hin & Hentry).
    rewrite Forall_forall in Hall. destruct (Hall entry Hin) as [path Hpath].
    simpl in Hpath. congruence.
Qed.

Lemma raising_try_block_gives_fallback e s preferences :
  career_path_recommendations s = Some [] →
  career_preferences s = Some preferences → preferences ≠ ∅ →
  is_Some (selected_career_path s) →
  try_recommendations (recommendation_reply e) = None →
  career_path_recommendations (state (display_career_recommendations e s))
  = Some fallback_recommendations ∧
  flow (display_career_recommendations e s) = Next tt.
Proof.
  intros Hrecs Hprefs Hne [selected Hselected] Hreply.
  change (wp (display_career_recommendations e) s
            (λ f s' _, career_path_recommendations s' = Some fallback_recommendations
                       ∧ f = Next tt)).
  destruct s, e as [ev chosen choice career moved break reply advice]; simpl in *; subst.
  destruct (fallback_selection chosen choice) as (name & Hchoice & Hname).
  unfold display_career_recommendations. wp_auto.
  rewrite (bool_decide_eq_false_2 _ Hne). cbn [negb]. wp_auto.
  rewrite Hreply. wp_auto.
  rewrite Hchoice. wp_auto.
  rewrite Hname. wp_auto.
  rewrite Hname. wp_auto.
  cbn [hashable]. wp_auto.
  wp_split; wp_auto.
  all: repeat (apply wp_completes;
                 [ first [apply plot_market_trends_completes
                         | apply career_path_details_completes]
                 | intros ? ]; wp_auto).
  all: done.
Qed.

(** C5, as the specification states it, fails on the code: a reply that
    has not the expected shape gets no fallback when nothing in the [try]
    block raises.  With an empty string under "recommended_paths" the
    comprehension iterates over nothing and the empty list is stored; with
    a list under "career_path" the list is stored as a name, and the page
    raises when it looks the selected name up in the market data. *)
Lemma misshaped_reply_gets_no_fallback :
  let empty_text :=
    mkEnv Refresh AllCareers 0 0 ∅ None
      (Returns (Some (PyDict [("recommended_paths", PyStr EmptyString)]))) None in
  let listed_name :=
    mkEnv Refresh AllCareers 0 0 ∅ None
      (Returns (Some (PyDict
         [("recommended_paths",
           PyList [PyDict [("career_path", PyList [PyStr "Data Science"])]])])))
      None in
  career_path_recommendations assessed = Some [] ∧
  career_path_recommendations (state (display_career_recommendations empty_text assessed))
  = Some [] ∧
  flow (display_career_recommendations empty_text assessed) = Next tt ∧
  career_path_recommendations (state (display_career_recommendations listed_name assessed))
  = Some [PyList [PyStr "Data Science"]] ∧
  flow (display_career_recommendations listed_name assessed) = Halt Raised ∧
  fallback_recommendations ≠ [] ∧
  fallback_recommendations ≠ [PyList [PyStr "Data Science"]].
Proof. split_and!; vm_compute; first [reflexivity | discriminate]. Qed.

(** C5, amended.  When the recommendation call fails, or its reply is not
    JSON, or the parsed reply is not an object with the key
    "recommended_paths", or the value under that key is not iterable, or
    one of its elements is not an object with the key "career_path" (these
    are the replies on which the [try] block raises), the recommendations
    page stores the fixed list of 13 names, 7 technical and 6
    non-technical, and the page itself runs to its end: the exception
    stops at the [except]. *)
Theorem raising_reply_gives_fallback e s preferences :
  career_path_recommendations s = Some [] →
  career_preferences s = Some preferences → preferences ≠ ∅ →
  is_Some (selected_career_path s) →
  extraction_raises (recommendation_reply e) →
  let r := display_career_recommendations e s in
  career_path_recommendations (state r) = Some fallback_recommendations ∧
  flow r = Next tt ∧
  length fallback_recommendations = 13%nat ∧
  filter (λ path, in_names path technical_names) fallback_recommendations
  = PyStr <$> technical_names ∧
  filter (λ path, in_names path non_technical_names) fallback_recommendations
  = PyStr <$> non_technical_names ∧
  length technical_names = 7%nat ∧ length non_technical_names = 6%nat ∧
  fallback_recommendations = PyStr <$> (technical_names ++ non_technical_names)%list.
Proof.
  intros Hrecs Hprefs Hne Hselected Hreply r. subst r.
  apply try_recommendations_raises in Hreply.
  destruct (raising_try_block_gives_fallback e s preferences Hrecs Hprefs Hne Hselected Hreply)
    as [Hstored Hflow].
  split_and!; try done; vm_compute; reflexivity.
Qed.

Lemma raising_reply_gives_fallback_witness :
  let r := display_career_recommendations
             (mkEnv Refresh AllCareers 0 0 ∅ None
                (Returns (Some (PyDict
                   [("recommended_paths",
                     PyList [PyDict [("career_path", PyStr "Data Science")];
                             PyStr "Cybersecurity"])]))) None)
             assessed in
  career_path_recommendations (state r) = Some fallback_recommendations ∧
  flow r = Next tt.
Proof.
  destruct (raising_reply_gives_fallback
              (mkEnv Refresh AllCareers 0 0 ∅ None
                 (Returns (Some (PyDict
                    [("recommended_paths",
                      PyList [PyDict [("career_path", PyStr "Data Science")];
                              PyStr "Cybersecurity"])]))) None)
              assessed
              {[ "interests" := "data analysis"; "work_style" := "in teams";
                 "learning_style" := "by doing"; "career_goals" := "lead a team" ]})
    as (Hstored & Hflow & _).
  - vm_compute; reflexivity.
  - vm_compute; reflexivity.
  - apply insert_non_empty.
  - vm_compute. by eexists.
  - simpl. apply Exists_cons_tl, Exists_cons_hd. reflexivity.
  - by split.
Defined.

(** ** The prioritized learning path *)

Section sorting.
Implicit Types (x y : GapEntry) (l : list GapEntry).

Lemma insert_by_priority_perm x l : insert_by_priority x l ≡ₚ x :: l.
Proof.
  induction l as [|y l IH]; simpl; [done|].
  case_bool_decide; [done|]. by rewrite IH, Permutation_swap.
Qed.

Lemma sort_by_priority_perm l : sort_by_priority l ≡ₚ l.
Proof.
  induction l as [|x l IH]; simpl; [done|].
  by rewrite insert_by_priority_perm, IH.
Qed.

Lemma insert_by_priority_sorted x l :
  StronglySorted (λ a b, priority a >= priority b) l →
  StronglySorted (λ a b, priority a >= priority b) (insert_by_priority x l).
Proof.
  induction 1 as [|y l Hsorted IH Hy]; simpl.
  - repeat constructor.
  - case_bool_decide as Hxy.
    + constructor; [by constructor|]. constructor; [lia|].
      eapply Forall_impl; [exact Hy|]. simpl. intros; lia.
    + constructor; [done|].
      rewrite insert_by_priority_perm. constructor; [lia|done].
Qed.

Lemma sort_by_priority_sorted l :
  StronglySorted (λ a b, priority a >= priority b) (sort_by_priority l).
Proof.
  induction l as [|x l IH]; simpl; [constructor|].
  by apply insert_by_priority_sorted.
Qed.

(** Insertion passes only entries of greater priority, so the entries of
    any one priority keep their order. *)
Lemma insert_by_priority_filter k x l :
  filter (λ a, priority a = k) (insert_by_priority x l)
  = filter (λ a, priority a = k) (x :: l).
Proof.
  induction l as [|y l IH]; simpl; [done|].
  case_bool_decide as Hxy; [done|].
  rewrite filter_cons, IH, !filter_cons.
  repeat case_decide; try done; lia.
Qed.

Lemma sort_by_priority_filter k l :
  filter (λ a, priority a = k) (sort_by_priority l) = filter (λ a, priority a = k) l.
Proof.
  induction l as [|x l IH]; simpl; [done|].
  by rewrite insert_by_priority_filter, !filter_cons, IH.
Qed.

Lemma sort_by_priority_stable l : stable_descending_sort priority l (sort_by_priority l).
Proof.
  split_and!; [apply sort_by_priority_perm|apply sort_by_priority_sorted|].
  intros k. apply sort_by_priority_filter.
Qed.

End sorting.

Lemma table_skills_category tbl category skill :
  (category, skill) ∈ table_skills tbl → category ∈ tbl.*1.
Proof.
  unfold table_skills. rewrite list_elem_of_bind.
  intros ([c skills] & Hin & Htbl). apply list_elem_of_fmap in Hin as (sk & [= -> ->] & _).
  apply list_elem_of_fmap. by exists (c, skills).
Qed.

Lemma omap_id_fmap {A B : Type} (f : A → option B) (l : list A) :
  omap id (f <$> l) = omap f l.
Proof.
  induction l as [|x l IH]; [done|].
  csimpl. destruct (f x); csimpl; by rewrite IH.
Qed.

(** The entry that the loop appends is the candidate of the specification. *)
Lemma gap_entry_spec ratings category skill :
  is_Some (ratings !! category) →
  gap_entry ratings (category, skill) = Some (spec_candidate ratings (category, skill)).
Proof.
  intros [rated Hrated]. unfold gap_entry, spec_candidate, rating_or_zero.
  simpl. rewrite Hrated. simpl. f_equal.
  unfold spec_priority, spec_gap.
  repeat case_bool_decide; try lia; [|done]. rewrite Z.max_r by lia. done.
Qed.

Lemma collect_gaps_spec tbl ratings :
  (∀ category, category ∈ tbl.*1 → is_Some (ratings !! category)) →
  collect_gaps tbl ratings = Some (spec_candidates tbl ratings).
Proof.
  intros Hrated. unfold collect_gaps, spec_candidates.
  assert (mapM (gap_entry ratings) (table_skills tbl)
          = Some (spec_candidate ratings <$> table_skills tbl)) as ->.
  { apply mapM_Some_2, Forall2_fmap_r, Forall_Forall2_diag, Forall_forall.
    intros [category skill] Hin. apply gap_entry_spec, Hrated.
    eauto using table_skills_category. }
  simpl. f_equal. apply omap_id_fmap.
Qed.

(** C2.  Once every category of the table has its ratings dictionary (the
    rating loop creates them), the prioritized learning path is the stable
    descending sort, by priority, of the skills whose gap
    max(0, weight - rating) is positive, each with priority = gap * weight:
    the same entries, in non-increasing priority, entries of equal
    priority in table order.  For weights A:3, B:5 and ratings A:2, B:0
    the path is B (gap 5, priority 25), then A (gap 1, priority 3). *)
Theorem learning_path_is_stable_priority_sort tbl ratings :
  (∀ category, category ∈ tbl.*1 → is_Some (ratings !! category)) →
  (∃ path,
     learning_path tbl ratings = Some path ∧
     stable_descending_sort priority (spec_candidates tbl ratings) path) ∧
  path_summary <$> learning_path example_table example_ratings
  = Some [("B", 5, 25); ("A", 1, 3)].
Proof.
  intros Hrated. split; [|vm_compute; reflexivity].
  exists (sort_by_priority (spec_candidates tbl ratings)). split.
  - unfold learning_path. by rewrite collect_gaps_spec.
  - apply sort_by_priority_stable.
Qed.

Lemma learning_path_is_stable_priority_sort_witness :
  ∃ path,
    learning_path example_table example_ratings = Some path ∧
    stable_descending_sort priority (spec_candidates example_table example_ratings) path.
Proof.
  apply (learning_path_is_stable_priority_sort example_table example_ratings).
  intros category Hin. apply list_elem_of_In in Hin. simpl in Hin.
  destruct Hin as [<-|[]]. vm_compute. by eexists.
Defined.

(** ** The gap analysis page *)

(** C1 (the code departs from the claim).  Software Development, every
    slider at 0 except Node.js at 3, its required weight: the page marks
    Node.js proficient, one skill of eleven meets its own weight, and the
    progress by the formula of the specification is 100/11; the page
    compares every rating of a category with the weight of the first skill
    of that category (4 for Technical), counts no skill and shows 0. *)
Theorem progress_compares_with_first_weight :
  let tbl := get_industry_skills "Software Development" in
  let r := display_skills_gap_analysis (open_gap_analysis 0 {[ "Node.js" := 3 ]}) jane_doe in
  let ratings := default ∅ (skills_gap (state r)) in
  flow r = Next tt ∧
  rating_or_zero ratings "Technical" "Node.js" = 3 ∧
  lookup_key "Technical" tbl ≫= head = Some (mkSkill "Modern JavaScript (ES6+)" 4
    [mkResource "Modern JavaScript Course"
       "https://www.udemy.com/course/modern-javascript-from-novice-to-ninja/";
     mkResource "JavaScript.info" "https://javascript.info/";
     mkResource "MDN Web Docs" "https://developer.mozilla.org/en-US/docs/Web/JavaScript"]) ∧
  ("Node.js", None) ∈ badges (view r) ∧
  total_skills tbl = 11%nat ∧
  spec_completed_skills tbl ratings = 1%nat ∧
  (spec_progress_percentage tbl ratings == 100 # 11)%Q ∧
  completed_skills tbl ratings = 0%nat ∧
  progress_percentage tbl ratings = Some (0 # 11)%Q ∧
  overall_progress (view r) = [(0 # 11)%Q].
Proof.
  split_and!; try (vm_compute; reflexivity).
  apply list_elem_of_In. vm_compute. tauto.
Qed.

(** ** Pages opened before their prerequisite *)

(** The roadmap without a selected path: the warning and the button that
    leads to the recommendations, nothing of the roadmap, no exception. *)
Lemma learning_roadmap_requires_selection e s selected :
  selected_career_path s = Some selected → truthy selected = false →
  let r := display_learning_roadmap e s in
  view r = [Header "Personalized Learning Roadmap";
            Warning "Please select a career path from the Career Recommendations section first!";
            Button "Go to Career Recommendations"] ∧
  flow r ≠ Halt Raised ∧
  (event e = Press "Go to Career Recommendations" →
   flow r = Halt Rerun ∧ state r = set_page CareerRecommendations s) ∧
  (event e ≠ Press "Go to Career Recommendations" → flow r = Next tt ∧ state r = s).
Proof.
  intros Hselected Hfalsy r. subst r.
  set (pressed := match event e with
                  | Press l => String.eqb l "Go to Career Recommendations"
                  | _ => false
                  end).
  assert (wp (display_learning_roadmap e) s
            (λ f s' v,
               v = [Header "Personalized Learning Roadmap";
                    Warning "Please select a career path from the Career Recommendations section first!";
                    Button "Go to Career Recommendations"] ∧
               if pressed then f = Halt Rerun ∧ s' = set_page CareerRecommendations s
               else f = Next tt ∧ s' = s)) as Hrun.
  { unfold display_learning_roadmap. wp_step. wp_step.
    eapply wp_bind, wp_attr; [exact Hselected|]. cbv beta iota.
    rewrite Hfalsy. wp_auto. fold pressed. by destruct pressed; wp_auto. }
  unfold wp in Hrun. destruct Hrun as [Hview Hrest]. split; [done|].
  subst pressed. destruct (event e) as [|p|label|form fields|question].
  3: destruct (String.eqb label "Go to Career Recommendations") eqn:Hlabel;
       [apply String.eqb_eq in Hlabel|apply String.eqb_neq in Hlabel].
  all: destruct Hrest as [-> ->]; split_and!; try done; intros; congruence.
Qed.

(** The recommendations without preferences: nothing but the header. *)
Lemma career_recommendations_without_preferences e s selected :
  career_path_recommendations s = Some [] → career_preferences s = Some ∅ →
  selected_career_path s = Some selected → truthy selected = false →
  let r := display_career_recommendations e s in
  view r = [Header "Career Path Recommendations"] ∧ flow r = Next tt ∧ state r = s.
Proof.
  intros Hrecs Hprefs Hselected Hfalsy r. subst r.
  change (wp (display_career_recommendations e) s
            (λ f s' v, v = [Header "Career Path Recommendations"] ∧ f = Next tt ∧ s' = s)).
  destruct s; simpl in *; subst.
  unfold display_career_recommendations. wp_auto. rewrite Hfalsy. by wp_auto.
Qed.

(** C3 (the code departs from the claim).  A first visit, no preference
    answered, the user opens Career Recommendations: the page shows its
    header and nothing else, neither a message nor a button towards the
    assessment (the only button is Start Fresh of the sidebar).  The
    Learning Roadmap opened in the same session shows its warning and the
    button towards the recommendations, as the Career Assessment and the
    Skills Gap Analysis do towards the profile. *)
Theorem recommendations_without_preferences_show_no_guidance :
  let recommendations := interact (with_event (Navigate CareerRecommendations) idle) fresh_session in
  let roadmap := interact (with_event (Navigate LearningRoadmap) idle) fresh_session in
  let assessment := interact (with_event (Navigate CareerAssessment) idle) fresh_session in
  let gap_analysis := interact (with_event (Navigate SkillsGapAnalysis) idle) fresh_session in
  career_preferences fresh_session = Some ∅ ∧
  flow recommendations = Next tt ∧
  view recommendations
  = [Title "🎯 Career Compass - AI-Powered Career Mapping Tool";
     Text "Your intelligent guide to discovering the perfect tech career path";
     Title "Navigation";
     Radio "Choose a section:" (page_name <$> pages);
     Button "Start Fresh";
     Header "Career Path Recommendations"] ∧
  warnings (view recommendations) = [] ∧
  buttons (view recommendations) = ["Start Fresh"] ∧
  warnings (view roadmap)
  = ["Please select a career path from the Career Recommendations section first!"] ∧
  buttons (view roadmap) = ["Start Fresh"; "Go to Career Recommendations"] ∧
  warnings (view assessment) = ["Please complete your profile setup first!"] ∧
  buttons (view assessment) = ["Start Fresh"; "Go to Profile Setup"] ∧
  warnings (view gap_analysis) = ["Please complete your profile setup first!"] ∧
  buttons (view gap_analysis) = ["Start Fresh"; "Go to Profile Setup"].
Proof. split_and!; vm_compute; reflexivity. Qed.

(** * Further properties of the code *)

(** ** The progress percentage *)

Lemma completed_in_category_le ratings (item : string * list Skill) :
  (completed_in_category ratings item ≤ length item.2)%nat.
Proof.
  destruct item as [category [|first skills]]; [done|].
  unfold completed_in_category. etrans; [apply length_filter|].
  by rewrite length_fmap.
Qed.

Lemma completed_skills_le tbl ratings :
  (completed_skills tbl ratings ≤ total_skills tbl)%nat.
Proof.
  unfold completed_skills, total_skills.
  induction tbl as [|item tbl IH]; [done|].
  rewrite !fmap_cons. cbn [sum_list sum_list_with].
  apply Nat.add_le_mono; [apply completed_in_category_le|exact IH].
Qed.

(** X1.  Whatever the table and the ratings, the overall progress is a
    percentage between 0 and 100; the division fails exactly when the table
    has no skill at all. *)
Theorem progress_percentage_is_a_percentage tbl ratings :
  match progress_percentage tbl ratings with
  | Some percent => total_skills tbl ≠ 0%nat ∧ (0 <= percent)%Q ∧ (percent <= 100)%Q
  | None => total_skills tbl = 0%nat
  end.
Proof.
  unfold progress_percentage. case_bool_decide as Htotal; [done|].
  split; [done|].
  pose proof (completed_skills_le tbl ratings) as Hle.
  destruct (total_skills tbl) as [|total]; [done|].
  unfold Qle, Qmult, Qdiv, Qinv, inject_Z. simpl. lia.
Qed.

(** ** The months of the job-postings chart *)

(** X2.  Whatever integer the clock gives, the six month numbers lie
    between 1 and 12, so no date construction fails; for a month of the
    calendar they are six consecutive months, December followed by
    January, the last one the current month. *)
Theorem trend_months_are_calendar_months current_month :
  length (trend_months current_month) = 6%nat ∧
  Forall (λ month_num, 1 ≤ month_num ≤ 12) (trend_months current_month) ∧
  (1 ≤ current_month ≤ 12 →
   last (trend_months current_month) = Some current_month ∧
   ∀ i month_num next,
     trend_months current_month !! i = Some month_num →
     trend_months current_month !! S i = Some next →
     next = month_num `mod` 12 + 1).
Proof.
  split; [done|]. split.
  - unfold trend_months. apply Forall_fmap, Forall_forall. intros i _. simpl.
    pose proof (Z.mod_pos_bound (current_month - 5 + i) 12). case_bool_decide; lia.
  - intros Hmonth.
    assert (Hcases : ∃ n : nat, (n < 12)%nat ∧ current_month = Z.of_nat n + 1).
    { exists (Z.to_nat (current_month - 1)). lia. }
    destruct Hcases as (n & Hn & ->).
    do 12 (destruct n as [|n]; [split; [reflexivity|];
           intros [|[|[|[|[|[|i]]]]]] ? ? [= <-] [= <-]; reflexivity|]).
    lia.
Qed.

Lemma trend_months_are_calendar_months_witness :
  trend_months 2 = [9; 10; 11; 12; 1; 2] ∧ last (trend_months 2) = Some 2.
Proof.
  destruct (trend_months_are_calendar_months 2) as (_ & _ & Hcalendar).
  destruct Hcalendar as [Hlast _]; [lia|].
  split; [reflexivity|exact Hlast].
Defined.

(** ** Submissions of the assessment form *)

Lemma store_responses_cons key response responses preferences :
  store_responses ((key, response) :: responses) preferences
  = store_responses responses
      (if String.eqb response EmptyString then preferences
       else <[key := response]> preferences).
Proof. done. Qed.

Lemma store_responses_lookup responses preferences key :
  NoDup responses.*1 →
  store_responses responses preferences !! key =
    match lookup_key key responses with
    | Some text => if String.eqb text EmptyString then preferences !! key else Some text
    | None => preferences !! key
    end.
Proof.
  revert preferences. induction responses as [|[k text] responses IH];
    intros preferences Hnodup; [done|].
  rewrite fmap_cons in Hnodup. apply NoDup_cons in Hnodup as [Hk Hnodup].
  rewrite store_responses_cons. simpl lookup_key.
  destruct (String.eqb_spec key k) as [->|Hne].
  - rewrite store_responses_other by done.
    destruct (String.eqb text EmptyString); [done|]. by rewrite lookup_insert_eq.
  - rewrite IH by done.
    destruct (String.eqb text EmptyString); [done|].
    rewrite lookup_insert_ne by done. done.
Qed.

Lemma assessment_responses_lookup e preferences key :
  lookup_key key (assessment_responses e preferences) =
    if bool_decide (key ∈ career_preference_questions.*1)
    then match preferences !! key with
         | None => Some (field_value e ("career_pref_" +:+ key))
         | Some _ => None
         end
    else None.
Proof.
  unfold assessment_responses.
  case_bool_decide as Hkey.
  - apply list_elem_of_In in Hkey. simpl in Hkey.
    destruct Hkey as [<-|[<-|[<-|[<-|[]]]]]; simpl;
      repeat (match goal with
              | |- context [preferences !! ?k] => destruct (preferences !! k) eqn:?
              end; simpl); try done; congruence.
  - assert (∀ questions : list (string * string),
              key ∉ questions.*1 →
              lookup_key key
                (omap (λ '(k, question),
                         match preferences !! k with
                         | None => Some (k, field_value e ("career_pref_" +:+ k))
                         | Some _ => None
                         end) questions) = None) as Hnone.
    { induction questions as [|[k q] questions IH]; [done|].
      rewrite fmap_cons, not_elem_of_cons. intros [Hk Hrest]. simpl in Hk.
      simpl. destruct (preferences !! k); simpl; [by apply IH|].
      destruct (String.eqb_spec key k); [done|by apply IH]. }
    by apply Hnone.
Qed.

Lemma assessment_responses_nodup e preferences :
  NoDup (assessment_responses e preferences).*1.
Proof.
  unfold assessment_responses. simpl.
  repeat (match goal with
          | |- context [preferences !! ?k] => destruct (preferences !! k)
          end; simpl).
  all: repeat (apply NoDup_cons; split; [set_solver|]); apply NoDup_nil_2.
Qed.


(** ** What the reachable sessions hold *)

Ltac unfold_more_invariants :=
  unfold answers_nonempty, preferences_valid in *;
  repeat match goal with H : _ |- _ => progress session_simpl in H end;
  session_simpl.

Lemma profile_setup_answers_nonempty e :
  preserves answers_nonempty (display_profile_setup e).
Proof.
  intros s HP.
  change (wp (display_profile_setup e) s (λ _ s' _, answers_nonempty s')).
  destruct s; unfold display_profile_setup; wp_run; try done.
  all: unfold_more_invariants; intros key answer.
  all: match goal with
       | H : _ && negb (String.eqb ?input EmptyString) = true |- _ =>
           apply andb_true_iff in H as [_ H]; apply negb_true_iff, String.eqb_neq in H
       end.
  all: intros [[<- <-]|[_ Hold]]%lookup_insert_Some; [done|by eapply HP].
Qed.

Lemma reachable_answers_nonempty s : reachable s → answers_nonempty s.
Proof.
  induction 1 as [|e s _ IH].
  - intros key answer. vm_compute. discriminate.
  - apply interact_preserves.
    + clear. intros s HP. destruct s as [? ? [] ? ? ? ? ? ? ? ? ? ?]; unfold_more_invariants; done.
    + clear. intros p s HP. unfold_more_invariants. done.
    + intros _ key answer. vm_compute. discriminate.
    + apply router_preserves;
        [ apply profile_setup_answers_nonempty | apply career_assessment_writes
        | apply career_recommendations_writes | apply learning_roadmap_writes
        | apply skills_gap_analysis_writes | apply live_consultation_writes ];
        intros; unfold_more_invariants; done.
    + apply router_preserves;
        [ apply profile_setup_answers_nonempty | apply career_assessment_writes
        | apply career_recommendations_writes | apply learning_roadmap_writes
        | apply skills_gap_analysis_writes | apply live_consultation_writes ];
        intros; unfold_more_invariants; done.
    + exact IH.
Qed.

(** X4.  In every session the user can reach, the cursor of the profile
    wizard is at most the number of questions, the keys of the stored
    profile are exactly those of the questions before the cursor, and no
    stored answer is empty. *)
Theorem reachable_profile_is_a_prefix_of_the_questions s :
  reachable s →
  ∃ stage data,
    chat_stage s = Some stage ∧ user_data s = Some data ∧
    (stage ≤ length profile_questions)%nat ∧
    dom data = list_to_set (take stage profile_questions).*1 ∧
    size data = stage ∧
    ∀ key answer, data !! key = Some answer → answer ≠ EmptyString.
Proof.
  intros Hreach.
  destruct (reachable_initialized s Hreach) as (_ & [stage Hstage] & [data Hdata] & _).
  destruct (reachable_profile_consistent s Hreach) as [Hdom Hle].
  pose proof (reachable_answers_nonempty s Hreach) as Hanswers.
  unfold answers_nonempty in Hanswers. rewrite Hstage, Hdata in *. simpl in *.
  exists stage, data. split_and!; try done.
  rewrite <- size_dom, Hdom. unfold profile_keys.
  rewrite size_list_to_set.
  - rewrite length_fmap, length_take. unfold profile_questions in *. simpl length in *. lia.
  - rewrite fmap_take. eapply sublist_NoDup; [|apply sublist_take].
    apply (bool_decide_unpack _). vm_compute. exact I.
Qed.

Lemma reachable_profile_is_a_prefix_of_the_questions_witness :
  ∃ stage data,
    chat_stage jane_doe = Some stage ∧ user_data jane_doe = Some data ∧
    (stage ≤ length profile_questions)%nat ∧
    dom data = list_to_set (take stage profile_questions).*1 ∧
    size data = stage ∧
    ∀ key answer, data !! key = Some answer → answer ≠ EmptyString.
Proof.
  apply (reachable_profile_is_a_prefix_of_the_questions jane_doe).
  unfold jane_doe. apply session_after_reachable, reachable_fresh.
Defined.

(** ** The stored preferences answer the questions *)

Lemma store_responses_valid e preferences key answer :
  (∀ k a, preferences !! k = Some a →
          k ∈ career_preference_questions.*1 ∧ a ≠ EmptyString) →
  store_responses (assessment_responses e preferences) preferences !! key = Some answer →
  key ∈ career_preference_questions.*1 ∧ answer ≠ EmptyString.
Proof.
  intros Hvalid.
  rewrite store_responses_lookup by apply assessment_responses_nodup.
  rewrite assessment_responses_lookup.
  destruct (preferences !! key) as [old|] eqn:Hkey.
  - case_bool_decide; intros [= <-]; by eapply Hvalid.
  - case_bool_decide; [|done].
    destruct (String.eqb_spec (field_value e ("career_pref_" +:+ key)) EmptyString);
      [done|]. by intros [= <-].
Qed.

Lemma career_assessment_preferences_valid e :
  preserves preferences_valid (display_career_assessment e).
Proof.
  intros s HP.
  change (wp (display_career_assessment e) s (λ _ s' _, preferences_valid s')).
  destruct s; unfold display_career_assessment. wp_run_all.
  all: unfold_more_invariants; try assumption.
  intros key answer. apply store_responses_valid. exact HP.
Qed.


Lemma router_preferences_valid e : preserves preferences_valid (router e).
Proof.
  apply router_preserves;
    [ apply profile_setup_writes | apply career_assessment_preferences_valid
    | apply career_recommendations_writes | apply learning_roadmap_writes
    | apply skills_gap_analysis_writes | apply live_consultation_writes ];
    intros; unfold_more_invariants; done.
Qed.

Lemma reachable_preferences_valid s : reachable s → preferences_valid s.
Proof.
  induction 1 as [|e s _ IH].
  - intros key answer. vm_compute. discriminate.
  - apply interact_preserves.
    + clear. intros s HP.
      destruct s as [? ? ? [] ? ? ? ? ? ? ? ? ?]; unfold_more_invariants; done.
    + clear. intros p s HP. unfold_more_invariants. done.
    + intros _ key answer. vm_compute. discriminate.
    + apply router_preferences_valid.
    + apply router_preferences_valid.
    + exact IH.
Qed.

Lemma preferences_valid_size (preferences : gmap string string) :
  (∀ key answer, preferences !! key = Some answer →
                 key ∈ career_preference_questions.*1 ∧ answer ≠ EmptyString) →
  dom preferences ⊆ list_to_set career_preference_questions.*1 ∧
  (size preferences ≤ length career_preference_questions)%nat.
Proof.
  intros Hvalid.
  assert (Hdom : dom preferences ⊆@{gset string} list_to_set career_preference_questions.*1).
  { intros key [answer Hkey]%elem_of_dom. apply elem_of_list_to_set. by eapply Hvalid. }
  split; [done|].
  rewrite <- size_dom. etrans; [apply (subseteq_size _ _ Hdom)|].
  rewrite size_list_to_set.
  - by rewrite length_fmap.
  - apply (bool_decide_unpack _). vm_compute. exact I.
Qed.

(** X5.  In every session the user can reach, each stored career
    preference answers one of the four questions with a text that is not
    empty, so at most four are stored. *)
Theorem reachable_preferences_answer_the_questions s :
  reachable s →
  ∃ preferences,
    career_preferences s = Some preferences ∧
    dom preferences ⊆ list_to_set career_preference_questions.*1 ∧
    (size preferences ≤ length career_preference_questions)%nat ∧
    ∀ key answer, preferences !! key = Some answer → answer ≠ EmptyString.
Proof.
  intros Hreach.
  destruct (reachable_initialized s Hreach) as (_ & _ & _ & [preferences Hprefs] & _).
  pose proof (reachable_preferences_valid s Hreach) as Hvalid.
  unfold preferences_valid in Hvalid. rewrite Hprefs in Hvalid. simpl in Hvalid.
  destruct (preferences_valid_size preferences Hvalid) as [Hdom Hsize].
  exists preferences. split_and!; try done.
  intros key answer Hkey. by eapply Hvalid.
Qed.

Lemma reachable_preferences_answer_the_questions_witness :
  ∃ preferences,
    career_preferences assessed = Some preferences ∧
    dom preferences ⊆ list_to_set career_preference_questions.*1 ∧
    (size preferences ≤ length career_preference_questions)%nat ∧
    ∀ key answer, preferences !! key = Some answer → answer ≠ EmptyString.
Proof.
  apply (reachable_preferences_answer_the_questions assessed).
  unfold assessed, jane_doe. do 2 apply session_after_reachable. apply reachable_fresh.
Defined.

(** ** Executions without a click *)

Lemma st_button_unpressed e label s :
  (∀ l, event e ≠ Press l) →
  st_button e label s = mkResult (Next false) s [Button label].
Proof.
  intros Hidle.
  unfold st_button, mbind, script_bind, emit, mret, script_ret. simpl.
  destruct (event e) as [| |l| |] eqn:Hevent; try done. by destruct (Hidle l).
Qed.

Section unpressed.
Context (P : SessionState → Prop) (e : Env).

Lemma preserves_unpressed {B : Type} label (k : bool → Script B) :
  (∀ l s, st_button e l s = mkResult (Next false) s [Button l]) →
  preserves P (k false) → preserves P (st_button e label ≫= k).
Proof.
  intros Hbutton Hk s HP. unfold mbind, script_bind. rewrite Hbutton.
  specialize (Hk s HP). by destruct (k false s).
Qed.

Hypothesis P_user_data : ∀ d s, P s → P (set_user_data d s).
Hypothesis P_chat_stage : ∀ n s, P s → P (set_chat_stage n s).
Hypothesis P_career_preferences : ∀ d s, P s → P (set_career_preferences d s).
Hypothesis P_recommendations : ∀ l s, P s → P (set_career_path_recommendations l s).
Hypothesis P_selected : ∀ v s, P s → P (set_selected_career_path v s).
Hypothesis P_learning_progress : ∀ l s, P s → P (set_learning_progress l s).
Hypothesis P_history : ∀ l s, P s → P (set_consultation_history l s).
Hypothesis P_skills_gap : ∀ g s, P s → P (set_skills_gap g s).
Hypothesis P_break_duration : ∀ q s, P s → P (set_break_duration q s).

(** Without a click a page writes everything but the page shown. *)
Lemma router_unpressed :
  (∀ label, event e ≠ Press label) → preserves P (router e).
Proof.
  intros Hidle.
  assert (Hbutton : ∀ l s, st_button e l s = mkResult (Next false) s [Button l])
    by (intros; by apply st_button_unpressed).
  clear Hidle.
  pose proof (plot_market_trends_reads P e).
  pose proof (career_path_details_reads P).
  pose proof (rate_categories_writes P e).
  unfold router, display_profile_setup, display_career_assessment,
    display_career_recommendations, display_learning_roadmap, show_course,
    display_live_consultation, display_skills_gap_analysis, category_chart,
    show_priorities.
  repeat lazymatch goal with
         | |- preserves _ (st_button _ _ ≫= _) =>
             apply (preserves_unpressed _ _ Hbutton)
         | |- preserves _ (when false _) => apply preserves_ret
         | |- _ => preserves_step
         end.
Qed.

End unpressed.

Lemma settled_unpressed e label : event (settled e) ≠ Press label.
Proof. done. Qed.

Lemma router_keeps_page e shown :
  (∀ label, event e ≠ Press label) →
  preserves (λ s, page s = Some shown) (router e).
Proof.
  intros Hidle. apply router_unpressed; try done; by intros ? [].
Qed.

Lemma script_page e s :
  (∀ label, event e ≠ Press label) →
  page (state (script e s))
  = Some (match event e with Navigate p => p | _ => default ProfileSetup (page s) end).
Proof.
  intros Hidle.
  change (wp (script e) s
            (λ _ s' _, page s' = Some (match event e with
                                       | Navigate p => p
                                       | _ => default ProfileSetup (page s)
                                       end))).
  pose proof (router_keeps_page e) as Hrouter.
  destruct e as [ev chosen choice target moved break reply advice].
  simpl in Hidle. simpl event.
  destruct s as [? ? ? ? ? ? ? ? [shown|] ? ? ? ?]; session_simpl;
    unfold script, sidebar; destruct ev as [|p|label|form fields|question];
    try (by destruct (Hidle label)); wp_run; try done;
    try (apply wp_preserves; [by apply Hrouter|]; session_simpl).
  all: try reflexivity.
  all: match goal with
       | H : negb (bool_decide _) = false |- _ =>
           apply negb_false_iff, bool_decide_eq_true in H; by rewrite H
       end.
Qed.

(** X6.  The page shown changes by the navigation radio and by buttons
    only: an execution triggered by anything but a button click ends on
    the page chosen in the radio, if the radio triggered it, and on the
    page shown before otherwise (the first page for a new session), the
    re-execution after [st.rerun()] included. *)
Theorem page_changes_by_navigation_or_button_only e s :
  (∀ label, event e ≠ Press label) →
  page (state (interact e s))
  = Some (match event e with Navigate p => p | _ => default ProfileSetup (page s) end).
Proof.
  intros Hidle. unfold interact.
  pose proof (script_page e s Hidle) as Hfirst.
  destruct (flow (script e s)) as [|[|]]; try done.
  rewrite script_page by apply settled_unpressed.
  rewrite Hfirst. simpl. by destruct (event e).
Qed.

Lemma page_changes_by_navigation_or_button_only_witness :
  page (state (interact (with_event (Navigate LearningRoadmap) idle) jane_doe))
  = Some LearningRoadmap.
Proof.
  apply (page_changes_by_navigation_or_button_only
           (with_event (Navigate LearningRoadmap) idle) jane_doe).
  intros label. vm_compute. discriminate.
Defined.


(** ** The learning roadmap *)

Lemma show_course_completes course s :
  platform course ≠ None →
  flow (show_course course s) = Next tt ∧ state (show_course course s) = s.
Proof. unfold show_course. by destruct (platform course). Qed.

Lemma progress_sliders_complete (shown : list (string * Z)) s :
  flow (for_each shown
          (λ '(stage, value),
             emit (Slider ("progress_" +:+ stage) value) ;;
             emit (Text (progress_status value))) s) = Next tt ∧
  state (for_each shown
           (λ '(stage, value),
              emit (Slider ("progress_" +:+ stage) value) ;;
              emit (Text (progress_status value))) s) = s.
Proof. apply for_each_completes. by intros [stage value] s'. Qed.

Lemma roadmap_content name :
  default (default [] (lookup_key "Software Development" learning_paths))
          (lookup_key name learning_paths)
  = if String.eqb name "Data Science"
    then default [] (lookup_key "Data Science" learning_paths)
    else default [] (lookup_key "Software Development" learning_paths).
Proof.
  unfold learning_paths. cbn [lookup_key].
  destruct (String.eqb_spec name "Software Development") as [->|_]; [done|].
  by destruct (String.eqb name "Data Science").
Qed.

Lemma learning_roadmap_flow e s selected :
  selected_career_path s = Some selected →
  truthy selected = true →
  hashable selected = true →
  (length (default [] (learning_progress s)) ≤ 3)%nat →
  flow (display_learning_roadmap e s)
  = match selected with
    | PyStr name => if String.eqb name "Data Science" then Halt Raised else Next tt
    | _ => Next tt
    end.
Proof.
  intros Hselected Htruthy Hhashable Hlength.
  change (wp (display_learning_roadmap e) s
            (λ f _ _, f = match selected with
                          | PyStr name =>
                              if String.eqb name "Data Science" then Halt Raised else Next tt
                          | _ => Next tt
                          end)).
  destruct s as [f1 f2 f3 f4 f5 f6 chosen f8 f9 tracked f11 f12 f13].
  simpl in Hselected, Hlength.
  subst chosen. unfold display_learning_roadmap.
  do 4 wp_step. rewrite Htruthy. simpl negb. cbv iota.
  wp_step. wp_step. wp_step.
  destruct tracked as [progress|]; session_simpl.
  - wp_auto.
    apply wp_completes; [apply progress_sliders_complete|intros _].
    rewrite bool_decide_true by done. rewrite Hhashable. wp_auto.
    destruct selected as [| | | |name| |]; try discriminate;
      try rewrite roadmap_content; try destruct (String.eqb name "Data Science");
      unfold wp; vm_compute; reflexivity.
  - wp_auto.
    destruct selected as [| | | |name| |]; try discriminate;
      try rewrite roadmap_content; try destruct (String.eqb name "Data Science");
      unfold wp; vm_compute; reflexivity.
Qed.

(** X7.  With a selected career path the Learning Roadmap page runs to its
    end for every path but one: for "Data Science" it raises, because the
    course "Machine Learning A-Z" of its table has no platform.  (The
    selected path is a string or another hashable value and the progress
    has the three stages the page gives it.) *)
Theorem learning_roadmap_fails_exactly_for_data_science e s selected :
  selected_career_path s = Some selected →
  truthy selected = true →
  hashable selected = true →
  (length (default [] (learning_progress s)) ≤ 3)%nat →
  (flow (display_learning_roadmap e s) = Halt Raised ↔ selected = PyStr "Data Science") ∧
  (selected ≠ PyStr "Data Science" → flow (display_learning_roadmap e s) = Next tt).
Proof.
  intros Hselected Htruthy Hhashable Hlength.
  rewrite (learning_roadmap_flow e s selected) by done.
  destruct selected as [| | | |name| |]; try (split; [split|]; done).
  destruct (String.eqb_spec name "Data Science") as [->|Hname].
  - split; [done|]. by intros [].
  - split; [split; [done|]|done]. intros [= ->]. done.
Qed.

Lemma learning_roadmap_fails_exactly_for_data_science_witness :
  flow (display_learning_roadmap idle chosen_path) = Halt Raised
  ↔ PyStr "Data Science" = PyStr "Data Science".
Proof.
  apply (learning_roadmap_fails_exactly_for_data_science idle chosen_path
           (PyStr "Data Science")).
  - vm_compute. reflexivity.
  - vm_compute. reflexivity.
  - vm_compute. reflexivity.
  - vm_compute. lia.
Defined.

(** ** The live consultation *)

Lemma chat_messages_complete (turns : list Turn) s :
  flow (for_each turns (λ message, emit (ChatMessage (role message) (content message))) s)
  = Next tt ∧
  state (for_each turns (λ message, emit (ChatMessage (role message) (content message))) s)
  = s.
Proof. apply for_each_completes. by intros message s'. Qed.

(** [str.lower()] works on code points: the Kelvin sign U+212A becomes the
    letter k, so a question that spells a keyword with it gets the answer
    of the keyword. *)
Lemma kelvin_sign_is_lowered :
  lower "which sKill should I pick" = "which skill should i pick" ∧
  keyword_response "which sKill should I pick"
  = keyword_response "which skill should I pick".
Proof. split; vm_compute; reflexivity. Qed.

(** X8.  A question asked on the Live AI Consultation page adds exactly two
    turns to the end of the history, the question and then the answer: the
    request to complete the profile when the profile is empty, else the
    reply of the agent, else, when the agent fails, the canned answer chosen
    by the keywords of the question.  The page runs to its end and stays
    the page shown. *)
Theorem question_appends_question_and_answer e s user_question data :
  event e = Ask user_question →
  user_question ≠ EmptyString →
  user_data s = Some data →
  flow (display_live_consultation e s) = Next tt ∧
  consultation_history (state (display_live_consultation e s))
  = Some (default [] (consultation_history s)
          ++ [mkTurn "user" user_question;
              mkTurn "assistant" (consultation_response e data user_question)])%list ∧
  page (state (display_live_consultation e s)) = page s.
Proof.
  intros Hevent Hquestion Hdata.
  change (wp (display_live_consultation e) s
            (λ f s' _,
               f = Next tt ∧
               consultation_history s'
               = Some (default [] (consultation_history s)
                       ++ [mkTurn "user" user_question;
                           mkTurn "assistant"
                             (consultation_response e data user_question)])%list ∧
               page s' = page s)).
  apply String.eqb_neq in Hquestion.
  destruct s as [f1 f2 profile f4 f5 f6 f7 f8 f9 f10 turns f12 f13].
  simpl in Hdata. subst profile.
  destruct e as [ev chosen choice target moved break reply advice].
  simpl in Hevent. subst ev.
  unfold display_live_consultation, consultation_response. session_simpl.
  destruct turns as [turns|]; session_simpl.
  all: repeat wp_step.
  all: try (apply wp_completes; [apply chat_messages_complete|intros _]).
  all: rewrite Hquestion; simpl negb; repeat wp_step.
  all: generalize (if bool_decide (data = ∅)
                   then "Please complete your profile setup first to get personalized career advice. This will help me provide more relevant guidance based on your background and interests."
                   else match advice with
                        | Some answer => answer
                        | None => keyword_response user_question
                        end); intros response.
  all: destruct (existsb _ career_keywords); repeat wp_step.
  all: case_bool_decide as Hempty;
    [apply (f_equal length) in Hempty; rewrite ?length_app in Hempty;
     simpl in Hempty; lia|]; simpl negb; repeat wp_step.
  all: by rewrite <- ?(assoc_L (++)).
Qed.

Lemma question_appends_question_and_answer_witness :
  consultation_history
    (state (display_live_consultation (with_event (Ask "Which job suits me?") idle) jane_doe))
  = Some [mkTurn "user" "Which job suits me?";
          mkTurn "assistant" (keyword_response "Which job suits me?")].
Proof.
  destruct (question_appends_question_and_answer
              (with_event (Ask "Which job suits me?") idle) jane_doe
              "Which job suits me?"
              {[ "Full Name" := "Jane Doe"; "Age" := "29"; "Education" := "BSc CS";
                 "Technical Background" := "3 yrs backend" ]})
    as (_ & Hhistory & _).
  - reflexivity.
  - discriminate.
  - vm_compute. reflexivity.
  - rewrite Hhistory. vm_compute. reflexivity.
Defined.

Lemma live_consultation_keeps_page e (shown : option Page) :
  preserves (λ s, page s = shown) (display_live_consultation e).
Proof.
  assert (Hhistory : ∀ l s, page s = shown →
                            page (set_consultation_history l s) = shown)
    by (by intros ? []).
  destruct e as [ev chosen choice target moved break reply advice].
  destruct ev as [|p|label|form fields|user_question].
  5: { set (e := mkEnv (Ask user_question) chosen choice target moved break reply advice).
       assert (Hbutton : ∀ l s, st_button e l s = mkResult (Next false) s [Button l])
         by (intros; by apply st_button_unpressed).
       unfold display_live_consultation. change (event e) with (Ask user_question).
       cbv iota.
       repeat lazymatch goal with
              | |- preserves _ (st_button _ _ ≫= _) =>
                  apply (preserves_unpressed _ _ _ _ Hbutton)
              | |- preserves _ (when false _) => apply preserves_ret
              | |- _ => preserves_step
              end. }
  all: unfold display_live_consultation; session_simpl; solve_preserves.
Qed.

(** X9.  The Live AI Consultation page never changes the page shown,
    whatever triggered the execution: its two Quick Actions buttons are
    drawn only in the execution that a question triggers, and in that one
    no button reads as clicked. *)
Theorem consultation_quick_actions_never_navigate e s :
  page (state (display_live_consultation e s)) = page s.
Proof. by apply live_consultation_keeps_page. Qed.

(** ** The recommendations are asked for once *)

Lemma career_recommendations_keeps_paths e paths :
  paths ≠ [] →
  preserves (λ s, career_path_recommendations s = Some paths)
    (display_career_recommendations e).
Proof.
  intros Hpaths s HP.
  change (wp (display_career_recommendations e) s
            (λ _ s' _, career_path_recommendations s' = Some paths)).
  destruct s as [f1 f2 f3 f4 f5 stored f7 f8 f9 f10 f11 f12 f13].
  simpl in HP. subst stored. unfold display_career_recommendations.
  destruct paths as [|first rest]; [done|].
  do 3 wp_step. cbn [truthy negb]. wp_step. wp_step.
  apply wp_preserves; [|done].
  solve_preserves.
Qed.

Lemma interact_keeps_paths e s paths :
  event e ≠ Press "Start Fresh" →
  paths ≠ [] →
  career_path_recommendations s = Some paths →
  career_path_recommendations (state (interact e s)) = Some paths.
Proof.
  intros Hevent Hpaths.
  assert (∀ e', preserves (λ s, career_path_recommendations s = Some paths) (router e'))
    as Hrouter.
  { intros e'. apply router_preserves;
      [ apply profile_setup_writes | apply career_assessment_writes
      | by apply career_recommendations_keeps_paths | apply learning_roadmap_writes
      | apply skills_gap_analysis_writes | apply live_consultation_writes ];
      by intros ? []. }
  apply (interact_preserves (λ s, career_path_recommendations s = Some paths)).
  - clear. intros [f1 f2 f3 f4 f5 stored f7 f8 f9 f10 f11 f12 f13]. simpl.
    by intros ->.
  - by intros ? [].
  - done.
  - apply Hrouter.
  - apply Hrouter.
Qed.

(** X10.  Recommendations that have been stored are never replaced: while
    the list is not empty, no interaction other than Start Fresh changes
    it, so the recommendation agent is not asked again, whatever it would
    answer and whatever the preferences become. *)
Theorem stored_recommendations_are_kept es s paths :
  Forall (λ e, event e ≠ Press "Start Fresh") es →
  paths ≠ [] →
  career_path_recommendations s = Some paths →
  career_path_recommendations (session_after es s) = Some paths.
Proof.
  intros Hes Hpaths. revert s.
  induction Hes as [|e es He _ IH]; intros s Hs; [done|].
  apply IH. by apply interact_keeps_paths.
Qed.

Lemma stored_recommendations_are_kept_witness :
  career_path_recommendations
    (session_after
       [mkEnv Refresh AllCareers 0 0 ∅ None
          (Returns (Some (PyDict [("recommended_paths",
                                   PyList [PyDict [("career_path", PyStr "Data Science")]])])))
          None]
       chosen_path)
  = Some fallback_recommendations.
Proof.
  apply stored_recommendations_are_kept.
  - repeat constructor; discriminate.
  - discriminate.
  - vm_compute. reflexivity.
Defined.

(** ** The rating loop of the gap analysis *)

Lemma wp_known {A : Type} (m : Script A) s
    (Q : Flow A → SessionState → list Element → Prop) f s' :
  flow (m s) = f → state (m s) = s' → (∀ v, Q f s' v) → wp m s Q.
Proof. intros <- <- HQ. apply HQ. Qed.

Lemma set_skills_gap_twice a b s :
  set_skills_gap a (set_skills_gap b s) = set_skills_gap a s.
Proof. by destruct s. Qed.

Lemma set_skills_gap_same ratings s :
  skills_gap s = Some ratings → set_skills_gap ratings s = s.
Proof. destruct s. simpl. by intros ->. Qed.

Lemma resource_links_complete (l : list Resource) s :
  flow (for_each l (λ resource,
                      emit (Link (resource_name resource) (resource_url resource))) s)
  = Next tt ∧
  state (for_each l (λ resource,
                       emit (Link (resource_name resource) (resource_url resource))) s)
  = s.
Proof. apply for_each_completes. by intros resource s'. Qed.

Lemma rate_skill_result e category skill s ratings rated :
  skills_gap s = Some ratings →
  ratings !! category = Some rated →
  flow (rate_skill e category skill s) = Next tt ∧
  state (rate_skill e category skill s)
  = set_skills_gap (<[category := rated_skills e [skill] rated]> ratings) s.
Proof.
  intros Hs Hrated.
  change (wp (rate_skill e category skill) s
            (λ f s' _, f = Next tt ∧
                       s' = set_skills_gap
                              (<[category := rated_skills e [skill] rated]> ratings) s)).
  destruct s as [f1 f2 f3 f4 f5 f6 f7 f8 f9 f10 f11 stored f13].
  simpl in Hs. subst stored. unfold rate_skill.
  do 2 wp_step. rewrite Hrated. repeat wp_step.
  destruct (bool_decide (_ < weight skill)); repeat wp_step; [|done].
  apply wp_completes; [apply resource_links_complete|done].
Qed.

Lemma bind_next {A B : Type} (m : Script A) (k : A → Script B) s a :
  flow (m s) = Next a →
  flow ((m ≫= k) s) = flow (k a (state (m s))) ∧
  state ((m ≫= k) s) = state (k a (state (m s))).
Proof.
  unfold mbind, script_bind. destruct (m s) as [f s1 v1]. simpl. intros ->.
  by destruct (k a s1).
Qed.

Lemma rate_skills_result e category skills s ratings rated :
  skills_gap s = Some ratings →
  ratings !! category = Some rated →
  flow (for_each skills (rate_skill e category) s) = Next tt ∧
  state (for_each skills (rate_skill e category) s)
  = set_skills_gap (<[category := rated_skills e skills rated]> ratings) s.
Proof.
  revert s ratings rated.
  induction skills as [|skill skills IH]; intros s ratings rated Hs Hrated.
  - simpl. split; [done|]. rewrite insert_id by done. by rewrite set_skills_gap_same.
  - destruct (rate_skill_result e category skill s ratings rated Hs Hrated) as [Hflow Hstate].
    cbn [for_each].
    destruct (bind_next (rate_skill e category skill)
                (λ _, for_each skills (rate_skill e category)) s tt Hflow) as [-> ->].
    rewrite Hstate.
    destruct (IH (set_skills_gap (<[category := rated_skills e [skill] rated]> ratings) s)
                (<[category := rated_skills e [skill] rated]> ratings)
                (rated_skills e [skill] rated)) as [-> ->].
    + by destruct s.
    + by rewrite lookup_insert_eq.
    + split; [done|]. by rewrite insert_insert_eq, set_skills_gap_twice.
Qed.

Lemma rate_categories_result e tbl i s ratings :
  skills_gap s = Some ratings →
  (i + length tbl ≤ 3)%nat →
  flow (rate_categories e i tbl s) = Next tt ∧
  state (rate_categories e i tbl s) = set_skills_gap (rated_categories e tbl ratings) s.
Proof.
  revert i s ratings.
  induction tbl as [|[category skills] tbl IH]; intros i s ratings Hs Hlength.
  - simpl. by rewrite set_skills_gap_same.
  - simpl in Hlength.
    change (wp (rate_categories e i ((category, skills) :: tbl)) s
              (λ f s' _,
                 f = Next tt ∧
                 s' = set_skills_gap
                        (rated_categories e ((category, skills) :: tbl) ratings) s)).
    destruct s as [f1 f2 f3 f4 f5 f6 f7 f8 f9 f10 f11 stored f13].
    simpl in Hs. subst stored. cbn [rate_categories].
    wp_step. rewrite bool_decide_true by lia. repeat wp_step.
    destruct (ratings !! category) as [rated|] eqn:Hrated.
    + rewrite bool_decide_false by done. repeat wp_step.
      eapply wp_known; [eapply rate_skills_result; done..|intros _].
      eapply wp_known; [eapply IH; [done|lia]..|intros _].
      split; [done|]. cbn [rated_categories foldl]. rewrite Hrated. done.
    + rewrite bool_decide_true by done. repeat wp_step.
      eapply wp_known;
        [eapply (rate_skills_result _ _ _ _ _ ∅); [done|by rewrite lookup_insert_eq]..
        |intros _].
      eapply wp_known; [eapply IH; [done|lia]..|intros _].
      split; [done|]. cbn [rated_categories foldl]. rewrite Hrated.
      by rewrite insert_insert_eq.
Qed.

(** *** What the loop stores *)

Lemma st_slider_twice e key value :
  st_slider e key (st_slider e key value) = st_slider e key value.
Proof. unfold st_slider. by destruct (sliders e !! key). Qed.

Lemma rated_skills_lookup e skills rated name :
  default 0 (rated_skills e skills rated !! name)
  = if bool_decide (name ∈ skill_name <$> skills)
    then st_slider e name (default 0 (rated !! name))
    else default 0 (rated !! name).
Proof.
  revert rated. induction skills as [|skill skills IH]; intros rated; [done|].
  change (rated_skills e (skill :: skills) rated)
    with (rated_skills e skills (rated_skills e [skill] rated)).
  rewrite IH. cbn [rated_skills foldl]. rewrite fmap_cons.
  destruct (decide (name = skill_name skill)) as [->|Hname].
  - rewrite lookup_insert_eq. simpl. rewrite st_slider_twice.
    rewrite (bool_decide_true (_ ∈ _ :: _)) by left.
    by case_bool_decide.
  - rewrite lookup_insert_ne by done.
    case_bool_decide as Hrest.
    + by rewrite bool_decide_true by (by right).
    + rewrite bool_decide_false; [done|]. by intros [?|?]%elem_of_cons.
Qed.

Lemma rated_categories_cons e category skills tbl ratings :
  rated_categories e ((category, skills) :: tbl) ratings
  = rated_categories e tbl
      (<[category := rated_skills e skills (default ∅ (ratings !! category))]> ratings).
Proof. done. Qed.

Lemma rated_categories_is_Some e tbl ratings category :
  category ∈ tbl.*1 ∨ is_Some (ratings !! category) →
  is_Some (rated_categories e tbl ratings !! category).
Proof.
  revert ratings. induction tbl as [|[c skills] tbl IH]; intros ratings.
  - intros [[]%elem_of_nil|]; done.
  - rewrite rated_categories_cons, fmap_cons. simpl. intros Hcategory. apply IH.
    destruct (decide (category = c)) as [->|Hne].
    + right. by rewrite lookup_insert_eq.
    + rewrite lookup_insert_ne by done.
      destruct Hcategory as [[?|?]%elem_of_cons|?]; [done|by left|by right].
Qed.

Lemma rating_or_zero_insert ratings c rated category name :
  rating_or_zero (<[c := rated]> ratings) category name
  = if bool_decide (category = c) then default 0 (rated !! name)
    else rating_or_zero ratings category name.
Proof.
  unfold rating_or_zero. case_bool_decide as Hc.
  - subst. by rewrite lookup_insert_eq.
  - by rewrite lookup_insert_ne.
Qed.

Lemma rated_categories_lookup e tbl ratings category name :
  rating_or_zero (rated_categories e tbl ratings) category name
  = if bool_decide (Exists (λ item, item.1 = category ∧ name ∈ skill_name <$> item.2) tbl)
    then st_slider e name (rating_or_zero ratings category name)
    else rating_or_zero ratings category name.
Proof.
  revert ratings. induction tbl as [|[c skills] tbl IH]; intros ratings; [done|].
  rewrite rated_categories_cons, IH, rating_or_zero_insert, rated_skills_lookup.
  fold (rating_or_zero ratings c name).
  destruct (decide (category = c)) as [->|Hc].
  - rewrite (bool_decide_true (c = c)) by done.
    destruct (decide (name ∈ skill_name <$> skills)) as [Hname|Hname].
    + rewrite (bool_decide_true (name ∈ _)) by done.
      rewrite (bool_decide_true (Exists _ (_ :: _))) by (by left).
      rewrite st_slider_twice. by case_bool_decide.
    + rewrite (bool_decide_false (name ∈ _)) by done.
      case_bool_decide as Hrest.
      * by rewrite bool_decide_true by (by right).
      * rewrite bool_decide_false; [done|].
        intros [[_ ?]|?]%Exists_cons; done.
  - rewrite (bool_decide_false (category = c)) by done.
    case_bool_decide as Hrest.
    + by rewrite bool_decide_true by (by right).
    + rewrite bool_decide_false; [done|].
      intros [[? _]|?]%Exists_cons; simpl in *; done.
Qed.

(** X11.  The rating loop over a table of at most three categories runs to
    its end and leaves in [skills_gap], read the way the page reads it (a
    missing rating counts as 0): for a skill that the table lists under the
    category, the value of its slider, which is the value the user dragged
    it to or else the rating stored before; for every other skill the
    rating as it was. *)
Theorem rating_loop_stores_the_sliders e tbl s ratings :
  skills_gap s = Some ratings →
  (length tbl ≤ 3)%nat →
  flow (rate_categories e 0 tbl s) = Next tt ∧
  ∃ ratings',
    skills_gap (state (rate_categories e 0 tbl s)) = Some ratings' ∧
    ∀ category name,
      rating_or_zero ratings' category name
      = if bool_decide
             (Exists (λ item, item.1 = category ∧ name ∈ skill_name <$> item.2) tbl)
        then st_slider e name (rating_or_zero ratings category name)
        else rating_or_zero ratings category name.
Proof.
  intros Hs Hlength.
  destruct (rate_categories_result e tbl 0 s ratings Hs) as [Hflow Hstate]; [done|].
  split; [done|]. exists (rated_categories e tbl ratings). split.
  - rewrite Hstate. by destruct s.
  - apply rated_categories_lookup.
Qed.

Lemma rating_loop_stores_the_sliders_witness :
  flow (rate_categories (open_gap_analysis 0 {[ "Git" := 2 ]}) 0 example_table
          (set_skills_gap ∅ jane_doe)) = Next tt.
Proof.
  apply (rating_loop_stores_the_sliders _ example_table (set_skills_gap ∅ jane_doe) ∅).
  - reflexivity.
  - vm_compute. lia.
Defined.

(** ** The gap analysis page *)

Lemma industry_tables_shape name :
  (length (get_industry_skills name) ≤ 3)%nat ∧
  (get_industry_skills name = [] ∨ total_skills (get_industry_skills name) ≠ 0%nat).
Proof.
  unfold get_industry_skills, industry_skills. cbn [lookup_key].
  destruct (String.eqb name "Software Development");
    [split; [vm_compute; lia|right; vm_compute; lia]|].
  destruct (String.eqb name "Data Science");
    [split; [vm_compute; lia|right; vm_compute; lia]|].
  split; [simpl; lia|by left].
Qed.

Lemma for_each_returns {A : Type} (l : list A) (body : A → Script unit) s :
  (∀ x, x ∈ l → flow (body x s) = Next tt ∧ state (body x s) = s) →
  flow (for_each l body s) = Next tt ∧ state (for_each l body s) = s.
Proof.
  induction l as [|x l IH]; intros Hbody; [done|].
  destruct (Hbody x) as [Hflow Hstate]; [by left|].
  cbn [for_each].
  destruct (bind_next (body x) (λ _, for_each l body) s tt Hflow) as [-> ->].
  rewrite Hstate. apply IH. intros y Hy. apply Hbody. by right.
Qed.

Lemma category_charts_complete tbl s ratings :
  skills_gap s = Some ratings →
  (∀ category, category ∈ tbl.*1 → is_Some (ratings !! category)) →
  flow (for_each tbl category_chart s) = Next tt ∧
  state (for_each tbl category_chart s) = s.
Proof.
  intros Hs Hrated. apply for_each_returns. intros [category skills] Hitem.
  destruct (Hrated category) as [rated Hcategory].
  { apply list_elem_of_fmap. by exists (category, skills). }
  unfold category_chart, mbind, script_bind, attr. rewrite Hs. simpl.
  by rewrite Hcategory.
Qed.

Lemma learning_path_is_Some tbl ratings :
  (∀ category, category ∈ tbl.*1 → is_Some (ratings !! category)) →
  is_Some (learning_path tbl ratings).
Proof.
  intros Hrated. unfold learning_path, collect_gaps.
  assert (is_Some (mapM (gap_entry ratings) (table_skills tbl))) as [entries ->].
  { apply mapM_is_Some, Forall_forall. intros [category skill] Hitem.
    unfold table_skills in Hitem. apply list_elem_of_bind in Hitem as ([c skills] & Hin & Htbl).
    apply list_elem_of_fmap in Hin as (skill' & [= -> ->] & _).
    destruct (Hrated c) as [rated Hc].
    { apply list_elem_of_fmap. by exists (c, skills). }
    simpl. rewrite Hc. simpl. by eexists. }
  simpl. by eexists.
Qed.

Lemma show_priorities_completes gaps s :
  flow (show_priorities gaps s) = Next tt ∧ state (show_priorities gaps s) = s.
Proof.
  unfold show_priorities. apply for_each_completes. intros [i entry] s'.
  destruct (resource_links_complete (gap_resources entry) s') as [Hflow Hstate].
  unfold mbind, script_bind, emit. simpl.
  destruct (for_each (gap_resources entry) _ s') as [f s2 v2]. simpl in *. by subst.
Qed.

Lemma skills_gap_page_result e s data :
  user_data s = Some data →
  data ≠ ∅ →
  let selected_career := default EmptyString (st_selectbox career_options (career_choice e)) in
  flow (display_skills_gap_analysis e s) = Next tt ∧
  skills_gap (state (display_skills_gap_analysis e s))
  = Some (rated_categories e (get_industry_skills selected_career)
            (default ∅ (skills_gap s))) ∧
  break_duration (state (display_skills_gap_analysis e s))
  = Some (default (default 0%Q (break_duration s)) (break_input e)).
Proof.
  intros Hdata Hprofile selected_career.
  destruct (industry_tables_shape selected_career) as [Hlength Htotal].
  change (wp (display_skills_gap_analysis e) s
            (λ f s' _,
               f = Next tt ∧
               skills_gap s'
               = Some (rated_categories e (get_industry_skills selected_career)
                         (default ∅ (skills_gap s))) ∧
               break_duration s'
               = Some (default (default 0%Q (break_duration s)) (break_input e)))).
  unfold display_skills_gap_analysis. fold selected_career.
  generalize dependent (get_industry_skills selected_career). intros tbl Hlength Htotal.
  clear selected_career.
  destruct s as [f1 f2 profile f4 f5 f6 f7 f8 f9 f10 f11 stored timed].
  simpl in Hdata. subst profile.
  do 6 wp_step. rewrite bool_decide_false by done. cbv iota.
  destruct stored as [ratings|], timed as [duration|]; repeat wp_step.
  all: destruct tbl as [|item rest] eqn:Htbl; [by repeat wp_step|]; rewrite <- Htbl in *.
  all: cbv iota; repeat wp_step.
  all: eapply wp_known; [eapply rate_categories_result; [reflexivity|done]..|intros _; cbv beta iota].
  all: repeat wp_step.
  all: eapply wp_known;
    [eapply category_charts_complete;
       [reflexivity|intros category Hcategory; apply rated_categories_is_Some; by left]..
    |intros _; cbv beta iota].
  all: repeat wp_step.
  all: match goal with
       | |- context [learning_path ?t ?r] =>
           destruct (learning_path_is_Some t r) as [gaps ->];
             [intros category Hcategory; apply rated_categories_is_Some; by left|]
       end.
  all: apply wp_completes; [apply show_priorities_completes|intros _].
  all: repeat wp_step.
  all: unfold progress_percentage;
    rewrite bool_decide_false by (destruct Htotal as [Hnil|Hsome]; [congruence|done]).
  all: repeat wp_step.
  all: destruct (match event e with Press l => _ | _ => false end); by repeat wp_step.
Qed.

(** X12.  With a profile that is not empty, the Skills Gap Analysis page
    runs to its end without raising and without a rerun, whatever the
    career chosen, the sliders, the number input and the event.  It stores
    the number input as the break duration and leaves in [skills_gap] the
    ratings of the rating loop over the table of the chosen career, which
    is empty for every career but two. *)
Theorem skills_gap_page_completes e s data :
  user_data s = Some data →
  data ≠ ∅ →
  let selected_career := default EmptyString (st_selectbox career_options (career_choice e)) in
  flow (display_skills_gap_analysis e s) = Next tt ∧
  skills_gap (state (display_skills_gap_analysis e s))
  = Some (rated_categories e (get_industry_skills selected_career)
            (default ∅ (skills_gap s))) ∧
  break_duration (state (display_skills_gap_analysis e s))
  = Some (default (default 0%Q (break_duration s)) (break_input e)).
Proof. apply skills_gap_page_result. Qed.

Lemma skills_gap_page_completes_witness :
  flow (display_skills_gap_analysis (open_gap_analysis 1 {[ "Python" := 4 ]}) jane_doe)
  = Next tt.
Proof.
  apply (skills_gap_page_completes (open_gap_analysis 1 {[ "Python" := 4 ]}) jane_doe
           {[ "Full Name" := "Jane Doe"; "Age" := "29"; "Education" := "BSc CS";
              "Technical Background" := "3 yrs backend" ]}).
  - vm_compute. reflexivity.
  - apply (bool_decide_unpack _). vm_compute. exact I.
Defined.

(** ** The gap analysis without ratings *)

Lemma bind_view {A B : Type} (m : Script A) (k : A → Script B) s :
  view ((m ≫= k) s)
  = (view (m s) ++ match flow (m s) with
                   | Next a => view (k a (state (m s)))
                   | Halt _ => []
                   end)%list.
Proof.
  unfold mbind, script_bind. destruct (m s) as [[a|x] s1 v1]; simpl.
  - by destruct (k a s1).
  - by rewrite app_nil_r.
Qed.

Lemma wp_observed {A : Type} (m : Script A) s
    (Q : Flow A → SessionState → list Element → Prop) f s' :
  flow (m s) = f → state (m s) = s' → Q f s' (view (m s)) → wp m s Q.
Proof. by intros <- <-. Qed.

Lemma badges_app v1 v2 : badges (v1 ++ v2) = (badges v1 ++ badges v2)%list.
Proof. apply omap_app. Qed.

Lemma overall_progress_app v1 v2 :
  overall_progress (v1 ++ v2) = (overall_progress v1 ++ overall_progress v2)%list.
Proof. apply omap_app. Qed.

(** A loop whose body shows neither badges nor progress shows none. *)
Lemma for_each_shows_no_report {A : Type} (l : list A) (body : A → Script unit) s :
  (∀ x s', badges (view (body x s')) = [] ∧ overall_progress (view (body x s')) = []) →
  badges (view (for_each l body s)) = [] ∧
  overall_progress (view (for_each l body s)) = [].
Proof.
  intros Hbody. revert s. induction l as [|x l IH]; intros s; [done|].
  cbn [for_each]. rewrite bind_view, badges_app, overall_progress_app.
  destruct (Hbody x s) as [-> ->].
  destruct (flow (body x s)); [apply IH|done].
Qed.

Lemma resource_links_show_no_report (l : list Resource) s :
  badges (view (for_each l (λ resource,
                              emit (Link (resource_name resource) (resource_url resource))) s))
  = [] ∧
  overall_progress
    (view (for_each l (λ resource,
                         emit (Link (resource_name resource) (resource_url resource))) s))
  = [].
Proof. apply for_each_shows_no_report. by intros resource s'. Qed.

Lemma category_charts_show_no_report tbl s :
  badges (view (for_each tbl category_chart s)) = [] ∧
  overall_progress (view (for_each tbl category_chart s)) = [].
Proof.
  apply for_each_shows_no_report. intros [category skills] s'.
  unfold category_chart, mbind, script_bind, attr.
  destruct (skills_gap s') as [ratings|]; [|done]. simpl.
  by destruct (ratings !! category).
Qed.

Lemma show_priorities_shows_no_report gaps s :
  badges (view (show_priorities gaps s)) = [] ∧
  overall_progress (view (show_priorities gaps s)) = [].
Proof.
  unfold show_priorities. apply for_each_shows_no_report. intros [i entry] s'.
  rewrite bind_view, badges_app, overall_progress_app. simpl.
  apply resource_links_show_no_report.
Qed.

Lemma slider_at_zero e name : sliders_at_zero e → st_slider e name 0 = 0.
Proof.
  intros Hzero. unfold st_slider.
  destruct (sliders e !! name) as [value|] eqn:Hname; [|done]. by eapply Hzero.
Qed.

(** The rating of one skill that has none: the badge shows the required
    weight as the gap. *)
Lemma rate_skill_unrated e category skill s ratings rated :
  skills_gap s = Some ratings →
  ratings !! category = Some rated →
  default 0 (rated !! skill_name skill) = 0 →
  sliders_at_zero e →
  0 < weight skill →
  badges (view (rate_skill e category skill s)) = [(skill_name skill, Some (weight skill))] ∧
  overall_progress (view (rate_skill e category skill s)) = [].
Proof.
  intros Hs Hrated Hzero Hsliders Hweight.
  change (wp (rate_skill e category skill) s
            (λ _ _ v, badges v = [(skill_name skill, Some (weight skill))] ∧
                      overall_progress v = [])).
  destruct s as [f1 f2 f3 f4 f5 f6 f7 f8 f9 f10 f11 stored f13].
  simpl in Hs. subst stored. unfold rate_skill.
  do 2 wp_step. rewrite Hrated, Hzero, (slider_at_zero e _ Hsliders).
  repeat wp_step.
  rewrite bool_decide_true by done. repeat wp_step.
  unfold wp.
  match goal with
  | |- context [view ?r] =>
      destruct (resource_links_show_no_report (resources skill)
                  (set_skills_gap (<[category := <[skill_name skill := 0]> rated]> ratings)
                     (mkSession f1 f2 f3 f4 f5 f6 f7 f8 f9 f10 f11 (Some ratings) f13)))
        as [Hbadges Hprogress];
      change (badges (Slider (skill_name skill) 0
                        :: GapBadge (skill_name skill) (weight skill - 0) :: view r))
        with ((skill_name skill, Some (weight skill - 0)) :: badges (view r));
      change (overall_progress
                (Slider (skill_name skill) 0
                   :: GapBadge (skill_name skill) (weight skill - 0) :: view r))
        with (overall_progress (view r))
  end.
  rewrite Hbadges, Hprogress. by rewrite Z.sub_0_r.
Qed.

Lemma rated_skills_unrated e skills rated name :
  sliders_at_zero e →
  (∀ n, default 0 (rated !! n) = 0) →
  default 0 (rated_skills e skills rated !! name) = 0.
Proof.
  intros Hsliders Hrated. rewrite rated_skills_lookup, Hrated.
  case_bool_decide; [by apply slider_at_zero|done].
Qed.

Lemma rate_skills_unrated e category skills s ratings rated :
  skills_gap s = Some ratings →
  ratings !! category = Some rated →
  (∀ n, default 0 (rated !! n) = 0) →
  sliders_at_zero e →
  Forall (λ skill, 0 < weight skill) skills →
  badges (view (for_each skills (rate_skill e category) s))
  = (λ skill, (skill_name skill, Some (weight skill))) <$> skills ∧
  overall_progress (view (for_each skills (rate_skill e category) s)) = [].
Proof.
  intros Hs Hrated Hzero Hsliders Hweights. revert s ratings rated Hs Hrated Hzero.
  induction Hweights as [|skill skills Hweight _ IH]; intros s ratings rated Hs Hrated Hzero;
    [done|].
  cbn [for_each]. rewrite bind_view, badges_app, overall_progress_app.
  destruct (rate_skill_result e category skill s ratings rated Hs Hrated) as [Hflow Hstate].
  destruct (rate_skill_unrated e category skill s ratings rated Hs Hrated (Hzero _)
              Hsliders Hweight) as [-> ->].
  rewrite Hflow, Hstate.
  destruct (IH (set_skills_gap (<[category := rated_skills e [skill] rated]> ratings) s)
              (<[category := rated_skills e [skill] rated]> ratings)
              (rated_skills e [skill] rated)) as [-> ->].
  - by destruct s.
  - by rewrite lookup_insert_eq.
  - intros n. by apply rated_skills_unrated.
  - done.
Qed.

Lemma unrated_insert e ratings category skills :
  sliders_at_zero e →
  unrated ratings →
  unrated (<[category := rated_skills e skills (default ∅ (ratings !! category))]> ratings).
Proof.
  intros Hsliders Hratings c n. rewrite rating_or_zero_insert.
  case_bool_decide as Hc; [|apply Hratings].
  apply rated_skills_unrated; [done|]. intros m. subst c. apply (Hratings category m).
Qed.

(** The rating loop on a session without ratings: every badge shows the
    required weight as the gap. *)
Lemma rate_categories_unrated e tbl i s ratings :
  skills_gap s = Some ratings →
  unrated ratings →
  sliders_at_zero e →
  Forall (λ item : string * list Skill, Forall (λ skill, 0 < weight skill) item.2) tbl →
  (i + length tbl ≤ 3)%nat →
  badges (view (rate_categories e i tbl s))
  = (λ item : string * Skill, (skill_name item.2, Some (weight item.2))) <$> table_skills tbl ∧
  overall_progress (view (rate_categories e i tbl s)) = [].
Proof.
  intros Hs Hratings Hsliders Hweights. revert i s ratings Hs Hratings.
  induction Hweights as [|[category skills] tbl Hweight _ IH];
    intros i s ratings Hs Hratings Hlength; [done|].
  simpl in Hlength, Hweight.
  change (wp (rate_categories e i ((category, skills) :: tbl)) s
            (λ _ _ v,
               badges v
               = (λ item : string * Skill, (skill_name item.2, Some (weight item.2)))
                   <$> table_skills ((category, skills) :: tbl) ∧
               overall_progress v = [])).
  assert (table_skills ((category, skills) :: tbl)
          = ((λ skill, (category, skill)) <$> skills) ++ table_skills tbl)%list as ->
    by done.
  rewrite fmap_app, <- list_fmap_compose.
  destruct s as [f1 f2 f3 f4 f5 f6 f7 f8 f9 f10 f11 stored f13].
  simpl in Hs. subst stored. cbn [rate_categories].
  wp_step. rewrite bool_decide_true by lia. repeat wp_step.
  pose proof (unrated_insert e ratings category skills Hsliders Hratings) as Hnext.
  destruct (ratings !! category) as [rated|] eqn:Hrated; simpl in Hnext.
  - rewrite bool_decide_false by done. repeat wp_step.
    eapply wp_observed; [eapply rate_skills_result; done..|cbv beta iota].
    eapply wp_observed; [eapply rate_categories_result; [done|lia]..|cbv beta iota].
    session_simpl. rewrite badges_app, overall_progress_app.
    match goal with
    | |- context [view (for_each skills _ ?s1)] =>
        destruct (rate_skills_unrated e category skills s1 ratings rated) as [-> ->];
          [done|done| |done|done|];
          [intros n; specialize (Hratings category n);
           unfold rating_or_zero in Hratings; by rewrite Hrated in Hratings|]
    end.
    match goal with
    | |- context [view (rate_categories e (S i) tbl ?s2)] =>
        destruct (IH (S i) s2 (<[category := rated_skills e skills rated]> ratings))
          as [-> ->]; [done|done|lia|]
    end.
    done.
  - rewrite bool_decide_true by done. repeat wp_step.
    eapply wp_observed;
      [eapply (rate_skills_result _ _ _ _ _ ∅); [done|by rewrite lookup_insert_eq]..
      |cbv beta iota].
    eapply wp_observed; [eapply rate_categories_result; [done|lia]..|cbv beta iota].
    session_simpl. rewrite badges_app, overall_progress_app.
    match goal with
    | |- context [view (for_each skills _ ?s1)] =>
        destruct (rate_skills_unrated e category skills s1
                    (<[category := ∅]> ratings) ∅) as [-> ->];
          [done|by rewrite lookup_insert_eq|done|done|done|]
    end.
    match goal with
    | |- context [view (rate_categories e (S i) tbl ?s2)] =>
        destruct (IH (S i) s2
                    (<[category := rated_skills e skills ∅]> (<[category := ∅]> ratings)))
          as [-> ->]; [done|by rewrite insert_insert_eq|lia|]
    end.
    done.
Qed.

Lemma rated_categories_unrated e tbl ratings :
  sliders_at_zero e → unrated ratings → unrated (rated_categories e tbl ratings).
Proof.
  intros Hsliders Hratings category name.
  rewrite rated_categories_lookup, Hratings.
  case_bool_decide; [by apply slider_at_zero|done].
Qed.

(** Without ratings no skill counts as completed: every weight in the
    tables is positive. *)
Lemma unrated_completed_skills tbl ratings :
  unrated ratings →
  Forall (λ item : string * list Skill, Forall (λ skill, 0 < weight skill) item.2) tbl →
  completed_skills tbl ratings = 0%nat.
Proof.
  intros Hratings Hweights. unfold completed_skills.
  induction Hweights as [|[category skills] tbl Hweight _ IH]; [done|].
  rewrite fmap_cons. cbn [sum_list sum_list_with]. rewrite IH, Nat.add_0_r.
  unfold completed_in_category. destruct skills as [|first skills]; [done|].
  apply Forall_cons in Hweight as [Hfirst _].
  assert (∀ names : list string,
            filter (λ name, rating_or_zero ratings category name >= weight first) names = [])
    as Hnone.
  { induction names as [|name names IHnames]; [done|].
    rewrite filter_cons_False; [done|]. rewrite Hratings. lia. }
  by rewrite Hnone.
Qed.

Lemma unrated_page_report e s data :
  user_data s = Some data →
  data ≠ ∅ →
  unrated (default ∅ (skills_gap s)) →
  sliders_at_zero e →
  let tbl :=
    get_industry_skills (default EmptyString (st_selectbox career_options (career_choice e))) in
  Forall (λ item : string * list Skill, Forall (λ skill, 0 < weight skill) item.2) tbl →
  (tbl ≠ [] → first_visit_report tbl (view (display_skills_gap_analysis e s))) ∧
  (tbl = [] →
   badges (view (display_skills_gap_analysis e s)) = [] ∧
   overall_progress (view (display_skills_gap_analysis e s)) = []).
Proof.
  intros Hdata Hprofile Hratings Hsliders tbl Hweights.
  destruct (industry_tables_shape
              (default EmptyString (st_selectbox career_options (career_choice e))))
    as [Hlength Htotal].
  change (wp (display_skills_gap_analysis e) s
            (λ _ _ v,
               (tbl ≠ [] → first_visit_report tbl v) ∧
               (tbl = [] → badges v = [] ∧ overall_progress v = []))).
  unfold display_skills_gap_analysis. fold tbl. fold tbl in Hlength, Htotal.
  generalize dependent tbl. intros tbl Hweights Hlength Htotal.
  destruct s as [f1 f2 profile f4 f5 f6 f7 f8 f9 f10 f11 stored timed].
  simpl in Hdata, Hratings. subst profile.
  do 6 wp_step. rewrite bool_decide_false by done. cbv iota.
  destruct stored as [ratings|], timed as [duration|]; simpl in Hratings; repeat wp_step.
  all: destruct tbl as [|item rest] eqn:Htbl; [by repeat wp_step|].
  all: assert (Hnonempty : tbl ≠ []) by (by rewrite Htbl).
  all: rewrite <- Htbl in *.
  all: cbv iota; repeat wp_step.
  all: eapply wp_observed;
    [eapply rate_categories_result; [reflexivity|done]..|cbv beta iota].
  all: repeat wp_step.
  all: eapply wp_observed;
    [eapply category_charts_complete;
       [reflexivity|intros category Hcategory; apply rated_categories_is_Some; by left]..
    |cbv beta iota].
  all: repeat wp_step.
  all: match goal with
       | |- context [learning_path ?t ?r] =>
           destruct (learning_path_is_Some t r) as [gaps ->];
             [intros category Hcategory; apply rated_categories_is_Some; by left|]
       end.
  all: eapply wp_observed; [eapply show_priorities_completes..|cbv beta iota].
  all: repeat wp_step.
  all: unfold progress_percentage;
    rewrite bool_decide_false by (destruct Htotal as [Hnil|Hsome]; [congruence|done]).
  all: repeat wp_step.
  all: destruct (match event e with Press l => _ | _ => false end); repeat wp_step.
  all: split; [intros _|done].
  all: match goal with
       | |- context [view (rate_categories ?e' 0 ?t ?s1)] =>
           edestruct (rate_categories_unrated e' t 0 s1) as [Hbadges Hprogress];
             [reflexivity|exact Hratings|exact Hsliders|exact Hweights|exact Hlength|]
       end.
  all: match goal with
       | |- context [view (for_each ?t category_chart ?s2)] =>
           destruct (category_charts_show_no_report t s2) as [Hcharts Hcharts']
       end.
  all: match goal with
       | |- context [view (show_priorities ?g ?s3)] =>
           destruct (show_priorities_shows_no_report g s3) as [Hpriorities Hpriorities']
       end.
  all: unfold first_visit_report, badges, overall_progress in *.
  all: repeat (progress (simpl; rewrite ?omap_app)).
  all: rewrite Hbadges, Hprogress, Hcharts, Hcharts', Hpriorities, Hpriorities'.
  all: rewrite ?app_nil_r; split; [done|].
  all: eexists; split; [reflexivity|].
  all: rewrite unrated_completed_skills
    by (first [by apply rated_categories_unrated | done]).
  all: change (inject_Z (Z.of_nat 0)) with 0%Q; unfold Qdiv; by rewrite !Qmult_0_l.
Qed.

Lemma industry_weights_positive name :
  Forall (λ item : string * list Skill, Forall (λ skill, 0 < weight skill) item.2)
    (get_industry_skills name).
Proof.
  unfold get_industry_skills, industry_skills. cbn [lookup_key].
  destruct (String.eqb name "Software Development");
    [apply (bool_decide_unpack _); vm_compute; exact I|].
  destruct (String.eqb name "Data Science");
    [apply (bool_decide_unpack _); vm_compute; exact I|].
  constructor.
Qed.

(** Ratings that are all 0 count as no ratings. *)
Lemma unrated_entries (ratings : gmap string (gmap string Z)) :
  map_Forall (λ _ rated, map_Forall (λ (_ : string) value, value = 0) rated) ratings →
  unrated ratings.
Proof.
  intros Hzero category name. unfold rating_or_zero.
  destruct (ratings !! category) as [rated|] eqn:Hcategory; [|done]. simpl.
  destruct (rated !! name) as [value|] eqn:Hname; [|done]. simpl.
  by eapply (Hzero category rated Hcategory).
Qed.

(** C4, as the specification states it, fails on the code: for
    "Cybersecurity" [get_industry_skills] returns the empty dictionary, the
    page stops after its two inputs and shows no progress at all. *)
Lemma cybersecurity_first_visit_has_no_report :
  st_selectbox career_options 5 = Some "Cybersecurity" ∧
  skills_gap jane_doe = None ∧
  ¬ first_visit_report (get_industry_skills "Cybersecurity")
      (view (display_skills_gap_analysis (open_gap_analysis 5 ∅) jane_doe)).
Proof.
  split_and!; [reflexivity|vm_compute; reflexivity|].
  intros [_ (percent & Hprogress & _)]. vm_compute in Hprogress. discriminate.
Qed.

(** C4, amended.  When the gap analysis is opened with a profile that is
    not empty and without ratings (every rating stored is 0 or absent, be
    it that the page was never drawn or that it was drawn for another
    path, and no slider stands above 0), a target path that has a skill
    table, Software Development or Data Science, shows for every skill a
    gap equal to its required weight and an overall progress of 0; a
    target path without skill table, Cybersecurity among them, shows
    neither gaps nor progress.  The page runs to its end in both cases,
    whatever triggered the execution. *)
Theorem first_visit_gaps_equal_weights e s data career :
  user_data s = Some data → data ≠ ∅ →
  unrated (default ∅ (skills_gap s)) → sliders_at_zero e →
  career_options !! career_choice e = Some career →
  let r := display_skills_gap_analysis e s in
  flow r = Next tt ∧
  (career = "Software Development" ∨ career = "Data Science" →
   first_visit_report (get_industry_skills career) (view r)) ∧
  (get_industry_skills career = [] →
   badges (view r) = [] ∧ overall_progress (view r) = []) ∧
  get_industry_skills "Cybersecurity" = [].
Proof.
  intros Hdata Hne Hratings Hsliders Hcareer r. subst r.
  destruct (skills_gap_page_result e s data Hdata Hne) as [Hflow _].
  pose proof (unrated_page_report e s data Hdata Hne Hratings Hsliders) as Hreport.
  cbv zeta in Hreport.
  assert (default EmptyString (st_selectbox career_options (career_choice e)) = career)
    as Hselected by (unfold st_selectbox; by rewrite Hcareer).
  rewrite Hselected in Hreport.
  destruct (Hreport (industry_weights_positive career)) as [Hrated Hnone].
  split_and!; [done| |done|reflexivity].
  intros [->| ->]; apply Hrated; by vm_compute.
Qed.

Lemma first_visit_gaps_equal_weights_witness :
  first_visit_report (get_industry_skills "Data Science")
    (view (display_skills_gap_analysis (open_gap_analysis 1 ∅)
             (session_after [with_event (Navigate SkillsGapAnalysis) idle] jane_doe))).
Proof.
  destruct (first_visit_gaps_equal_weights (open_gap_analysis 1 ∅)
              (session_after [with_event (Navigate SkillsGapAnalysis) idle] jane_doe)
              {[ "Full Name" := "Jane Doe"; "Age" := "29"; "Education" := "BSc CS";
                 "Technical Background" := "3 yrs backend" ]} "Data Science")
    as (_ & Hreport & _).
  - vm_compute; reflexivity.
  - apply insert_non_empty.
  - apply unrated_entries, (bool_decide_unpack _). vm_compute. exact I.
  - intros name value Hname. vm_compute in Hname. discriminate.
  - reflexivity.
  - apply Hreport. by right.
Defined.

(** ** Pages that cannot fail *)

Lemma percent_done_bounds finished total :
  (finished ≤ total)%nat → total ≠ 0%nat → 0 ≤ percent_done finished total ≤ 100.
Proof.
  intros Hle Htotal. unfold percent_done. split.
  - apply Z.div_pos; lia.
  - apply Z.div_le_upper_bound; lia.
Qed.

Lemma assessment_fields_complete (responses : list (string * string)) s :
  flow (for_each responses (λ '(key, _), emit (TextArea ("career_pref_" +:+ key))) s)
  = Next tt ∧
  state (for_each responses (λ '(key, _), emit (TextArea ("career_pref_" +:+ key))) s)
  = s.
Proof. apply for_each_completes. by intros [key response] s'. Qed.

Lemma profile_setup_never_raises e s :
  reachable s → flow (display_profile_setup e s) ≠ Halt Raised.
Proof.
  intros Hreach.
  destruct (reachable_initialized s Hreach) as (_ & [stage Hstage] & [data Hdata] & _).
  destruct (reachable_profile_consistent s Hreach) as [_ Hle].
  rewrite Hstage in Hle. simpl in Hle.
  change (wp (display_profile_setup e) s (λ f _ _, f ≠ Halt Raised)).
  destruct s as [f1 cursor profile f4 f5 f6 f7 f8 f9 f10 f11 f12 f13].
  simpl in Hstage, Hdata. subst cursor profile.
  unfold display_profile_setup. repeat wp_step.
  rewrite bool_decide_true by (apply percent_done_bounds; [done|by vm_compute]).
  wp_run; done.
Qed.

Lemma career_assessment_never_raises e s :
  reachable s → flow (display_career_assessment e s) ≠ Halt Raised.
Proof.
  intros Hreach.
  destruct (reachable_initialized s Hreach)
    as (_ & _ & [data Hdata] & [preferences Hprefs] & _).
  pose proof (reachable_preferences_valid s Hreach) as Hvalid.
  unfold preferences_valid in Hvalid. rewrite Hprefs in Hvalid. simpl in Hvalid.
  change (wp (display_career_assessment e) s (λ f _ _, f ≠ Halt Raised)).
  destruct s as [f1 f2 profile answers f5 f6 f7 f8 f9 f10 f11 f12 f13].
  simpl in Hdata, Hprefs. subst profile answers.
  unfold display_career_assessment. repeat wp_step.
  destruct (bool_decide (data = ∅)); [by wp_run|]. repeat wp_step.
  destruct (preferences_valid_size preferences Hvalid) as [Hdom Hsize].
  rewrite bool_decide_true by (apply percent_done_bounds; [done|by vm_compute]).
  repeat wp_step.
  apply wp_completes; [apply assessment_fields_complete|intros _].
  repeat wp_step.
  destruct (form_submitted e "career_assessment_form"); repeat wp_step; [done|].
  destruct (bool_decide (preferences = ∅)); simpl negb; repeat wp_step.
  1: wp_run; done.
  rewrite bool_decide_true by done.
  wp_run; done.
Qed.

Lemma live_consultation_never_raises e s :
  reachable s → flow (display_live_consultation e s) ≠ Halt Raised.
Proof.
  intros Hreach.
  destruct (reachable_initialized s Hreach) as (_ & _ & [data Hdata] & _).
  change (wp (display_live_consultation e) s (λ f _ _, f ≠ Halt Raised)).
  destruct s as [f1 f2 profile f4 f5 f6 f7 f8 f9 f10 turns f12 f13].
  simpl in Hdata. subst profile.
  destruct e as [ev chosen choice target moved break reply advice].
  unfold display_live_consultation.
  destruct turns as [turns|]; repeat wp_step.
  all: try (apply wp_completes; [apply chat_messages_complete|intros _]).
  all: destruct ev as [|p|label|form fields|user_question]; session_simpl;
    repeat wp_step.
  all: try (destruct (String.eqb user_question EmptyString); simpl negb; repeat wp_step).
  all: try (destruct (existsb _ career_keywords); repeat wp_step).
  all: repeat (match goal with
               | |- wp (when (negb (bool_decide ?P)) _) _ _ =>
                   destruct (bool_decide P); simpl negb
               | |- wp (when (String.eqb ?a ?b) _) _ _ => destruct (String.eqb a b)
               end; repeat wp_step).
  all: done.
Qed.

Lemma skills_gap_analysis_never_raises e s :
  reachable s → flow (display_skills_gap_analysis e s) ≠ Halt Raised.
Proof.
  intros Hreach.
  destruct (reachable_initialized s Hreach) as (_ & _ & [data Hdata] & _).
  destruct (decide (data = ∅)) as [->|Hprofile].
  - change (wp (display_skills_gap_analysis e) s (λ f _ _, f ≠ Halt Raised)).
    destruct s as [f1 f2 profile f4 f5 f6 f7 f8 f9 f10 f11 f12 f13].
    simpl in Hdata. subst profile.
    unfold display_skills_gap_analysis. repeat wp_step.
    rewrite bool_decide_true by done. wp_run; done.
  - destruct (skills_gap_page_result e s data Hdata Hprofile) as [Hflow _].
    by rewrite Hflow.
Qed.

(** X13.  In every session the user can reach, four of the six pages run
    without raising, whatever the event and the widgets: Profile Setup,
    Career Assessment, Skills Gap Analysis and Live AI Consultation.  (The
    arguments of the two progress bars stay within 0 to 100, every stored
    preference has its question, and the ratings of every category exist
    when they are read.) *)
Theorem four_pages_never_raise e s :
  reachable s →
  flow (display_profile_setup e s) ≠ Halt Raised ∧
  flow (display_career_assessment e s) ≠ Halt Raised ∧
  flow (display_skills_gap_analysis e s) ≠ Halt Raised ∧
  flow (display_live_consultation e s) ≠ Halt Raised.
Proof.
  intros Hreach. split_and!.
  - by apply profile_setup_never_raises.
  - by apply career_assessment_never_raises.
  - by apply skills_gap_analysis_never_raises.
  - by apply live_consultation_never_raises.
Qed.

Lemma four_pages_never_raise_witness :
  flow (display_profile_setup (submit_profile 0 "Jane") assessed) ≠ Halt Raised.
Proof.
  apply (four_pages_never_raise (submit_profile 0 "Jane") assessed).
  unfold assessed, jane_doe. do 2 apply session_after_reachable. apply reachable_fresh.
Defined.

(** ** The steps of the workflow *)

Ltac unfold_gated :=
  unfold workflow_gated in *;
  repeat match goal with H : _ |- _ => progress session_simpl in H end;
  session_simpl.

Lemma store_responses_nonempty e preferences :
  preferences ≠ ∅ → store_responses (assessment_responses e preferences) preferences ≠ ∅.
Proof.
  intros [key [answer Hkey]]%map_choose Hempty.
  pose proof (store_responses_keeps e preferences key answer Hkey) as Hkept.
  rewrite Hempty in Hkept. by rewrite lookup_empty in Hkept.
Qed.

Lemma profile_setup_gated e : preserves workflow_gated (display_profile_setup e).
Proof.
  intros s HP.
  change (wp (display_profile_setup e) s (λ _ s' _, workflow_gated s')).
  destruct s as [f1 f2 f3 f4 f5 f6 f7 f8 f9 f10 f11 f12 f13].
  unfold display_profile_setup; wp_run; try done.
  all: unfold_gated; destruct HP as (Hprofile & Hprefs & Hselected).
  all: split_and!; try done.
  all: intros _; apply insert_non_empty.
Qed.

Lemma career_assessment_gated e : preserves workflow_gated (display_career_assessment e).
Proof.
  intros s HP.
  change (wp (display_career_assessment e) s (λ _ s' _, workflow_gated s')).
  destruct s as [f1 f2 f3 f4 f5 f6 f7 f8 f9 f10 f11 f12 f13].
  unfold display_career_assessment. wp_run_all.
  all: unfold_gated; try assumption.
  all: destruct HP as (Hprofile & Hprefs & Hselected).
  all: split_and!; try done.
  all: try (intros _; eapply bool_decide_eq_false_1; eassumption).
  all: intros Hpaths; by apply store_responses_nonempty, Hprefs.
Qed.

Lemma career_recommendations_gated e :
  preserves workflow_gated (display_career_recommendations e).
Proof.
  intros s HP.
  change (wp (display_career_recommendations e) s (λ _ s' _, workflow_gated s')).
  destruct s as [f1 f2 f3 f4 f5 f6 f7 f8 f9 f10 f11 f12 f13].
  unfold display_career_recommendations. wp_run_all.
  all: unfold_gated; try assumption.
  all: destruct HP as (Hprofile & Hprefs & Hselected).
  all: repeat match goal with
              | H : negb _ = true |- _ => apply negb_true_iff in H
              | H : negb _ = false |- _ => apply negb_false_iff in H
              | H : bool_decide _ = true |- _ => apply bool_decide_eq_true_1 in H
              | H : bool_decide _ = false |- _ => apply bool_decide_eq_false_1 in H
              | H : truthy (PyList ?l) = _ |- _ => destruct l; simpl in H; try discriminate H; clear H
              end.
  all: split_and!; try done; try (intros; discriminate).
Qed.

Lemma router_gated e : preserves workflow_gated (router e).
Proof.
  apply router_preserves;
    [ apply profile_setup_gated | apply career_assessment_gated
    | apply career_recommendations_gated | apply learning_roadmap_writes
    | apply skills_gap_analysis_writes | apply live_consultation_writes ];
    intros; unfold_gated; done.
Qed.

Lemma reachable_gated s : reachable s → workflow_gated s.
Proof.
  induction 1 as [|e s _ IH].
  - split_and!; vm_compute; congruence.
  - apply interact_preserves.
    + clear. intros s HP.
      destruct s as [f1 f2 [data|] [preferences|] f5 [paths|] [selected|] f8 f9 f10 f11 f12 f13];
        unfold_gated; destruct HP as (Hprofile & Hprefs & Hselected);
        split_and!; try done; try (intros; discriminate).
    + clear. intros p s HP. unfold_gated. done.
    + intros _. split_and!; vm_compute; congruence.
    + apply router_gated.
    + apply router_gated.
    + exact IH.
Qed.

(** X14.  The steps of the workflow depend on one another in every session
    the user can reach: preferences are stored only when the profile has
    an answer, recommendations only when a preference is stored, and a
    career path is selected only when there are recommendations.  One
    profile answer is enough: the assessment does not wait for a complete
    profile. *)
Theorem workflow_steps_are_gated s data preferences paths selected :
  reachable s →
  user_data s = Some data →
  career_preferences s = Some preferences →
  career_path_recommendations s = Some paths →
  selected_career_path s = Some selected →
  (preferences ≠ ∅ → data ≠ ∅) ∧
  (paths ≠ [] → preferences ≠ ∅) ∧
  (truthy selected = true → paths ≠ []).
Proof.
  intros Hreach Hdata Hprefs Hpaths Hselected.
  pose proof (reachable_gated s Hreach) as Hgated.
  unfold workflow_gated in Hgated.
  by rewrite Hdata, Hprefs, Hpaths, Hselected in Hgated.
Qed.

Lemma workflow_steps_are_gated_witness :
  fallback_recommendations ≠ [] ∧
  ({[ "interests" := "data analysis"; "work_style" := "in teams";
      "learning_style" := "by doing"; "career_goals" := "lead a team" ]}
   ≠@{gmap string string} ∅).
Proof.
  destruct (workflow_steps_are_gated chosen_path
              {[ "Full Name" := "Jane Doe"; "Age" := "29"; "Education" := "BSc CS";
                 "Technical Background" := "3 yrs backend" ]}
              {[ "interests" := "data analysis"; "work_style" := "in teams";
                 "learning_style" := "by doing"; "career_goals" := "lead a team" ]}
              fallback_recommendations (PyStr "Data Science"))
    as (_ & Hpreferences & Hpaths).
  - unfold chosen_path, assessed, jane_doe. do 3 apply session_after_reachable.
    apply reachable_fresh.
  - vm_compute. reflexivity.
  - vm_compute. reflexivity.
  - vm_compute. reflexivity.
  - vm_compute. reflexivity.
  - split; [by apply Hpaths|]. apply Hpreferences. by apply Hpaths.
Defined.

(** ** A reply of the expected shape *)

Lemma recommended_paths_well_shaped data entries paths :
  subscript data "recommended_paths" = Some (PyList entries) →
  Forall2 (λ entry path, subscript entry "career_path" = Some path) entries paths →
  recommended_paths data = Some paths.
Proof.
  intros Hdata Hentries. unfold recommended_paths. rewrite Hdata. simpl.
  by apply mapM_Some.
Qed.

(** X15.  On the first visit with a stored preference, a reply of the
    expected shape is stored as it is: the value under "career_path" of
    every entry of "recommended_paths", in the order of the reply.  Nothing
    is checked: an empty list, names outside the known careers and values
    that are not strings are stored as well. *)
Theorem well_shaped_reply_is_stored e s preferences data entries paths :
  career_path_recommendations s = Some [] →
  career_preferences s = Some preferences →
  preferences ≠ ∅ →
  recommendation_reply e = Returns (Some data) →
  subscript data "recommended_paths" = Some (PyList entries) →
  Forall2 (λ entry path, subscript entry "career_path" = Some path) entries paths →
  career_path_recommendations (state (display_career_recommendations e s)) = Some paths.
Proof.
  intros Hrecs Hprefs Hne Hreply Hdata Hentries.
  pose proof (recommended_paths_well_shaped data entries paths Hdata Hentries) as Hpaths.
  change (wp (display_career_recommendations e) s
            (λ _ s' _, career_path_recommendations s' = Some paths)).
  destruct s as [f1 f2 f3 answers f5 stored f7 f8 f9 f10 f11 f12 f13].
  simpl in Hrecs, Hprefs. subst answers stored.
  unfold display_career_recommendations. do 3 wp_step. cbn [truthy negb].
  repeat wp_step. rewrite bool_decide_false by done. simpl negb.
  unfold try_recommendations. rewrite Hreply. simpl mbind. rewrite Hpaths.
  wp_step.
  apply wp_preserves; [|done].
  solve_preserves.
Qed.

Lemma well_shaped_reply_is_stored_witness :
  career_path_recommendations
    (state (display_career_recommendations
              (mkEnv Refresh AllCareers 0 0 ∅ None
                 (Returns (Some (PyDict
                    [("recommended_paths",
                      PyList [PyDict [("career_path", PyStr "Quantum Computing");
                                      ("match_score", PyStr "90%")];
                              PyDict [("career_path", PyStr "Data Science")]])])))
                 None)
              assessed))
  = Some [PyStr "Quantum Computing"; PyStr "Data Science"].
Proof.
  eapply (well_shaped_reply_is_stored _ assessed
            {[ "interests" := "data analysis"; "work_style" := "in teams";
               "learning_style" := "by doing"; "career_goals" := "lead a team" ]}).
  - vm_compute. reflexivity.
  - vm_compute. reflexivity.
  - apply insert_non_empty.
  - reflexivity.
  - reflexivity.
  - repeat constructor.
Defined.

(** ** The profile answers cannot be changed *)

Lemma profile_setup_keeps_answer e key answer :
  preserves (λ s, profile_consistent s ∧ default ∅ (user_data s) !! key = Some answer)
    (display_profile_setup e).
Proof.
  intros s [HP Hkey].
  pose proof (profile_setup_consistent e s HP) as Hconsistent.
  split; [exact Hconsistent|]. clear Hconsistent. revert HP Hkey.
  change (profile_consistent s →
          default ∅ (user_data s) !! key = Some answer →
          wp (display_profile_setup e) s
            (λ _ s' _, default ∅ (user_data s') !! key = Some answer)).
  intros HP Hkey.
  destruct s as [f1 f2 f3 f4 f5 f6 f7 f8 f9 f10 f11 f12 f13].
  unfold display_profile_setup; wp_run; try done.
  all: unfold_invariants; destruct HP as [Hdom Hlen].
  all: match goal with H : profile_questions !! _ = Some _ |- _ => rename H into Hq end.
  all: apply profile_key_fresh in Hq; rewrite <- Hdom in Hq.
  all: rewrite lookup_insert_ne; [done|].
  all: intros ->; apply Hq, elem_of_dom; by eexists.
Qed.

Lemma interact_keeps_profile_answer e s key answer :
  event e ≠ Press "Start Fresh" →
  profile_consistent s ∧ default ∅ (user_data s) !! key = Some answer →
  profile_consistent (state (interact e s)) ∧
  default ∅ (user_data (state (interact e s))) !! key = Some answer.
Proof.
  intros Hevent.
  assert (∀ e', preserves (λ s, profile_consistent s ∧
                                default ∅ (user_data s) !! key = Some answer) (router e'))
    as Hrouter.
  { intros e'. apply router_preserves;
      [ apply profile_setup_keeps_answer | apply career_assessment_writes
      | apply career_recommendations_writes | apply learning_roadmap_writes
      | apply skills_gap_analysis_writes | apply live_consultation_writes ];
      intros; unfold_invariants; done. }
  apply (interact_preserves
           (λ s, profile_consistent s ∧ default ∅ (user_data s) !! key = Some answer)).
  - clear. intros [f1 [stage|] [data|] f4 f5 f6 f7 f8 f9 f10 f11 f12 f13] [HP Hkey];
      unfold_invariants; done.
  - clear. intros p s HP. unfold_invariants. done.
  - done.
  - apply Hrouter.
  - apply Hrouter.
Qed.

(** X16.  A profile answer that is stored stays as it is through every
    later interaction other than Start Fresh: the form of the Profile
    Setup page is shown for the question at the cursor only, whose key has
    no answer yet, and no other page writes the profile. *)
Theorem stored_profile_answer_is_kept es s data key answer :
  reachable s →
  Forall (λ e, event e ≠ Press "Start Fresh") es →
  user_data s = Some data →
  data !! key = Some answer →
  ∃ data',
    user_data (session_after es s) = Some data' ∧ data' !! key = Some answer.
Proof.
  intros Hreach Hes Hdata Hkey.
  assert (profile_consistent (session_after es s) ∧
          default ∅ (user_data (session_after es s)) !! key = Some answer) as [_ Hkept].
  { assert (profile_consistent s ∧ default ∅ (user_data s) !! key = Some answer) as Hs.
    { split; [by apply reachable_profile_consistent|]. by rewrite Hdata. }
    clear Hreach Hdata Hkey. revert s Hs.
    induction Hes as [|e es He _ IH]; intros s Hs; [done|].
    apply IH. by apply interact_keeps_profile_answer. }
  destruct (user_data (session_after es s)) as [data'|]; [by exists data'|].
  simpl in Hkept. by rewrite lookup_empty in Hkept.
Qed.

Lemma stored_profile_answer_is_kept_witness :
  ∃ data',
    user_data (session_after [submit_profile 0 "John Smith"; submit_profile 3 "none"]
                 jane_doe) = Some data' ∧
    data' !! "Full Name" = Some "Jane Doe".
Proof.
  apply (stored_profile_answer_is_kept
           [submit_profile 0 "John Smith"; submit_profile 3 "none"] jane_doe
           {[ "Full Name" := "Jane Doe"; "Age" := "29"; "Education" := "BSc CS";
              "Technical Background" := "3 yrs backend" ]}).
  - unfold jane_doe. apply session_after_reachable, reachable_fresh.
  - repeat constructor; discriminate.
  - vm_compute. reflexivity.
  - vm_compute. reflexivity.
Defined.
